(** * certutil: certificate/key bundle conversions of helper/certutil/types.go

    A shallow embedding of the bundle engine: the two bundle forms
    ([CertBundle], [ParsedCertBundle]), their CSR counterparts, and the
    operations [ToParsedCertBundle], [ToCertBundle], [Verify],
    [GetCertificatePath], [GetTLSConfig], [ToParsedCSRBundle].

    Conventions.
    - A Go [string] is a [string]; a [[]byte] is a [list byte]; a nil slice
      and an empty one are both [[]] (the code only ever tests [len]).
    - A nilable pointer or interface is an [option]; dereferencing [None]
      is the run-time fault [Panic].
    - A [*big.Int] is an address into a store of integers ([heap]); the
      Go operators [==] and [!=] on two such pointers compare addresses.
    - A method that writes to its receiver runs in a state monad whose
      state survives an error return, as the caller's struct does.
    - The Go standard library (encoding/pem, crypto/x509, crypto/tls,
      strings) is an interface, [GoLibrary]; every result below holds for
      each implementation of it. *)

From Stdlib Require Import ZArith.
From Stdlib.Strings Require Import Byte.
From stdpp Require Import base strings list pretty.

(** ** Bytes and strings *)

Definition bytes := list byte.

#[global] Instance byte_eq_decision : EqDecision byte := Byte.byte_eq_dec.

(** [[]byte(s)] and [string(b)]. *)
Definition bytes_of_string (s : string) : bytes := String.list_byte_of_string s.
Definition string_of_bytes (b : bytes) : string := String.string_of_list_byte b.

(** [bytes.Equal]: same length and same contents (nil equals empty). *)
Definition bytes_Equal (a b : bytes) : bool := bool_decide (a = b).

(** ** Errors *)

(** Modelled from the spec: the errutil package is not part of the sources
    at hand.  Section 7 of the specification has two error kinds, each
    carrying a human-readable cause: user-input errors and internal
    errors.  [errorString] is what [fmt.Errorf] and the Go library
    return.  [Error] is the [Error()] method, i.e. how [%v] and [%s]
    print an error. *)
Inductive error : Type :=
| UserError (Err : string)
| InternalError (Err : string)
| errorString (s : string).

Definition Error (e : error) : string :=
  match e with
  | UserError s => s
  | InternalError s => s
  | errorString s => s
  end.

Definition fmt_Errorf (s : string) : error := errorString s.

(** ** Outcomes and the receiver-state monad *)

Inductive outcome (A : Type) : Type :=
| Ok (a : A)
| Err (e : error)
| Panic.

Arguments Ok {A} a.
Arguments Err {A} e.
Arguments Panic {A}.

Definition obind {A B} (m : outcome A) (k : A -> outcome B) : outcome B :=
  match m with
  | Ok a => k a
  | Err e => Err e
  | Panic => Panic
  end.

(** [*p] for a nilable pointer, and [s[i]] for a slice. *)
Definition deref {A} (p : option A) : outcome A :=
  match p with
  | Some a => Ok a
  | None => Panic
  end.

Definition index {A} (s : list A) (i : nat) : outcome A := deref (s !! i).

(** A computation over a mutable state [S]: the state is returned in every
    case, so writes made before an error or a fault stay visible. *)
Definition M (S A : Type) : Type := S -> outcome A * S.

Definition ret {S A} (a : A) : M S A := fun s => (Ok a, s).
Definition throw {S A} (e : error) : M S A := fun s => (Err e, s).
Definition fault {S A} : M S A := fun s => (Panic, s).
Definition get {S} : M S S := fun s => (Ok s, s).
Definition modify {S} (f : S -> S) : M S unit := fun s => (Ok tt, f s).

Definition bind {S A B} (m : M S A) (k : A -> M S B) : M S B :=
  fun s =>
    match m s with
    | (Ok a, s') => k a s'
    | (Err e, s') => (Err e, s')
    | (Panic, s') => (Panic, s')
    end.

Definition lift {S A} (o : outcome A) : M S A := fun s => (o, s).

Declare Scope go_scope.
Delimit Scope go_scope with go.
Notation "'let*' x := m 'in' k" := (bind m (fun x => k))
  (at level 10, x name, m at level 100, k at level 200, only parsing) : go_scope.
Notation "m ;;; k" := (bind m (fun _ => k))
  (at level 100, k at level 200, right associativity, only parsing) : go_scope.
Notation "'let?' x := m 'in' k" := (obind m (fun x => k))
  (at level 10, x name, m at level 100, k at level 200, only parsing) : go_scope.

Open Scope go_scope.

(** ** Named types and constants (types.go, lines 30-62) *)

Definition PrivateKeyType := string.
Definition UnknownPrivateKey : PrivateKeyType := "".
Definition RSAPrivateKey : PrivateKeyType := "rsa".
Definition ECPrivateKey : PrivateKeyType := "ec".

(** [TLSUsage] is an [int]; [iota] is 1 on the second line of the constant
    block and 2 on the third. *)
Definition TLSUsage := Z.
Definition TLSUnknown : TLSUsage := 0%Z.
Definition TLSServer : TLSUsage := Z.shiftl 1 1.
Definition TLSClient : TLSUsage := Z.shiftl 1 2.

Definition BlockType := string.
Definition PKCS1Block : BlockType := "RSA PRIVATE KEY".
Definition PKCS8Block : BlockType := "PRIVATE KEY".
Definition ECBlock : BlockType := "EC PRIVATE KEY".

(** ** The Go standard library, as an interface *)

(** [pem.Block]; its [Headers] are never read nor set by this package. *)
Record pem_Block : Type := {
  blk_Type : string;
  blk_Bytes : bytes;
}.

(** Keys are opaque.  [other_PrivateKey] is any value that
    [x509.ParsePKCS8PrivateKey] may return besides RSA and ECDSA keys. *)
Class KeyMaterial : Type := {
  rsa_PrivateKey : Type;
  ecdsa_PrivateKey : Type;
  other_PrivateKey : Type;
  crypto_PublicKey : Type;
}.

(** The dynamic type of a decoded key, as a type switch sees it; also the
    values a [crypto.Signer] may hold. *)
Inductive crypto_Signer `{KeyMaterial} : Type :=
| RSAKey (k : rsa_PrivateKey)
| ECDSAKey (k : ecdsa_PrivateKey)
| OtherKey (k : other_PrivateKey).

(** What the ASN.1 decoder reads out of a certificate. *)
Record tbsCertificate `{KeyMaterial} : Type := {
  tbs_SerialNumber : Z;
  tbs_IsCA : bool;
  tbs_AuthorityKeyId : bytes;
  tbs_SubjectKeyId : bytes;
  tbs_CommonName : string;
  tbs_PublicKey : crypto_PublicKey;
}.

(** Addresses of [big.Int] objects. *)
Definition loc := nat.

(** [x509.Certificate], the fields this package reads.  [SerialNumber] is
    a [*big.Int]. *)
Record x509_Certificate `{KeyMaterial} : Type := {
  Cert_SerialNumber : option loc;
  Cert_IsCA : bool;
  Cert_AuthorityKeyId : bytes;
  Cert_SubjectKeyId : bytes;
  Cert_Subject_CommonName : string;
  Cert_PublicKey : crypto_PublicKey;
}.

(** [tls.Certificate]. *)
Record tls_Certificate `{KeyMaterial} : Type := {
  tlsCert_Certificate : list bytes;
  tlsCert_PrivateKey : option crypto_Signer;
  tlsCert_Leaf : option x509_Certificate;
}.

Inductive tls_ClientAuthType : Type :=
| NoClientCert
| RequestClientCert
| RequireAnyClientCert
| VerifyClientCertIfGiven
| RequireAndVerifyClientCert.

Class GoLibrary `{KeyMaterial} : Type := {
  x509_CertificateRequest : Type;
  x509_CertPool : Type;
  tls_nameIndex : Type;
  (* strings *)
  strings_TrimSpace : string -> string;
  (* encoding/pem; the second result of Decode is dropped by every caller *)
  pem_Decode : bytes -> option pem_Block;
  pem_EncodeToMemory : pem_Block -> bytes;
  (* crypto/x509 *)
  asn1_Certificate : bytes -> error + tbsCertificate;
  x509_ParseCertificateRequest : bytes -> error + x509_CertificateRequest;
  x509_ParseECPrivateKey : bytes -> error + ecdsa_PrivateKey;
  x509_ParsePKCS1PrivateKey : bytes -> error + rsa_PrivateKey;
  x509_ParsePKCS8PrivateKey : bytes -> error + crypto_Signer;
  x509_NewCertPool : x509_CertPool;
  x509_AppendCertsFromPEM : x509_CertPool -> bytes -> x509_CertPool * bool;
  (* crypto/tls: the index that BuildNameToCertificate computes *)
  tls_BuildNameToCertificate : list tls_Certificate -> tls_nameIndex;
  (* crypto *)
  crypto_Public : crypto_Signer -> crypto_PublicKey;
  (* the package's own ComparePublicKeys, kept in another file *)
  ComparePublicKeys : crypto_PublicKey -> crypto_PublicKey -> error + bool;
}.

(** ** math/big: integers behind pointers *)

Definition heap := list Z.

(** [new(big.Int).Set(v)]: the next free address. *)
Definition alloc (v : Z) (h : heap) : loc * heap := (length h, h ++ [v]).

(** Reading through a [*big.Int]. *)
Definition big_Int_value (h : heap) (p : option loc) : outcome Z :=
  let? l := deref p in deref (h !! l).

Fixpoint N_be_bytes (fuel : nat) (n : N) (acc : bytes) : bytes :=
  match fuel with
  | O => acc
  | S fuel' =>
      if (n =? 0)%N then acc
      else N_be_bytes fuel' (n / 256)%N
             (default "000"%byte (Byte.of_N (n mod 256)%N) :: acc)
  end.

(** The [Bytes] method of [big.Int]: the absolute value, big-endian, no
    leading zero byte. *)
Definition big_Int_Bytes (x : Z) : bytes :=
  N_be_bytes (N.to_nat (N.size (Z.abs_N x))) (Z.abs_N x) [].

(** ** Serial numbers as text *)

Definition hex_digit (n : N) : Ascii.ascii :=
  Ascii.ascii_of_N (if (n <? 10)%N then 48 + n else 87 + n)%N.

(** [fmt.Sprintf("%02x", b)]. *)
Definition fmt_02x (b : byte) : string :=
  String (hex_digit (Byte.to_N b / 16)%N)
    (String (hex_digit (Byte.to_N b mod 16)%N) "").

(** Modelled from the spec: GetHexFormatted is defined in the package's
    helpers file, which is not part of the sources at hand.  Section 6 of
    the specification: lowercase hex octets joined by the separator. *)
Definition GetHexFormatted (buf : bytes) (sep : string) : string :=
  String.concat sep (map fmt_02x buf).

Section certutil.
Context {keys : KeyMaterial} {lib : GoLibrary}.

(** ** Data model (types.go, lines 64-117) *)

Record CertBlock : Type := {
  CertBlock_Certificate : option x509_Certificate;
  CertBlock_Bytes : bytes;
}.

Record CertBundle : Type := {
  CB_PrivateKeyType : PrivateKeyType;
  CB_Certificate : string;
  CB_IssuingCA : string;
  CB_CAChain : list string;
  CB_PrivateKey : string;
  CB_SerialNumber : string;
}.

Record ParsedCertBundle : Type := {
  PCB_PrivateKeyType : PrivateKeyType;
  PCB_PrivateKeyFormat : BlockType;
  PCB_PrivateKeyBytes : bytes;
  PCB_PrivateKey : option crypto_Signer;
  PCB_CertificateBytes : bytes;
  PCB_Certificate : option x509_Certificate;
  PCB_CAChain : list (option CertBlock);
  PCB_SerialNumber : option loc;
}.

Record CSRBundle : Type := {
  CSR_PrivateKeyType : PrivateKeyType;
  CSR_CSR : string;
  CSR_PrivateKey : string;
}.

Record ParsedCSRBundle : Type := {
  PCSR_PrivateKeyType : PrivateKeyType;
  PCSR_PrivateKeyBytes : bytes;
  PCSR_PrivateKey : option crypto_Signer;
  PCSR_CSRBytes : bytes;
  PCSR_CSR : option x509_CertificateRequest;
}.

(** The zero values [&CertBundle{}], [&ParsedCertBundle{}],
    [&ParsedCSRBundle{}]. *)
Definition CertBundle_zero : CertBundle :=
  {| CB_PrivateKeyType := ""; CB_Certificate := ""; CB_IssuingCA := "";
     CB_CAChain := []; CB_PrivateKey := ""; CB_SerialNumber := "" |}.

Definition ParsedCertBundle_zero : ParsedCertBundle :=
  {| PCB_PrivateKeyType := ""; PCB_PrivateKeyFormat := "";
     PCB_PrivateKeyBytes := []; PCB_PrivateKey := None;
     PCB_CertificateBytes := []; PCB_Certificate := None;
     PCB_CAChain := []; PCB_SerialNumber := None |}.

Definition ParsedCSRBundle_zero : ParsedCSRBundle :=
  {| PCSR_PrivateKeyType := ""; PCSR_PrivateKeyBytes := [];
     PCSR_PrivateKey := None; PCSR_CSRBytes := []; PCSR_CSR := None |}.

(** Field assignments [x.F = v]. *)
Definition CB_set_PrivateKeyType (v : PrivateKeyType) (c : CertBundle) : CertBundle :=
  {| CB_PrivateKeyType := v; CB_Certificate := CB_Certificate c;
     CB_IssuingCA := CB_IssuingCA c; CB_CAChain := CB_CAChain c;
     CB_PrivateKey := CB_PrivateKey c; CB_SerialNumber := CB_SerialNumber c |}.

Definition CB_set_Certificate (v : string) (c : CertBundle) : CertBundle :=
  {| CB_PrivateKeyType := CB_PrivateKeyType c; CB_Certificate := v;
     CB_IssuingCA := CB_IssuingCA c; CB_CAChain := CB_CAChain c;
     CB_PrivateKey := CB_PrivateKey c; CB_SerialNumber := CB_SerialNumber c |}.

Definition CB_set_CAChain (v : list string) (c : CertBundle) : CertBundle :=
  {| CB_PrivateKeyType := CB_PrivateKeyType c; CB_Certificate := CB_Certificate c;
     CB_IssuingCA := CB_IssuingCA c; CB_CAChain := v;
     CB_PrivateKey := CB_PrivateKey c; CB_SerialNumber := CB_SerialNumber c |}.

Definition CB_set_PrivateKey (v : string) (c : CertBundle) : CertBundle :=
  {| CB_PrivateKeyType := CB_PrivateKeyType c; CB_Certificate := CB_Certificate c;
     CB_IssuingCA := CB_IssuingCA c; CB_CAChain := CB_CAChain c;
     CB_PrivateKey := v; CB_SerialNumber := CB_SerialNumber c |}.

Definition CB_set_SerialNumber (v : string) (c : CertBundle) : CertBundle :=
  {| CB_PrivateKeyType := CB_PrivateKeyType c; CB_Certificate := CB_Certificate c;
     CB_IssuingCA := CB_IssuingCA c; CB_CAChain := CB_CAChain c;
     CB_PrivateKey := CB_PrivateKey c; CB_SerialNumber := v |}.

Definition PCB_set_PrivateKeyType (v : PrivateKeyType) (p : ParsedCertBundle) : ParsedCertBundle :=
  {| PCB_PrivateKeyType := v; PCB_PrivateKeyFormat := PCB_PrivateKeyFormat p;
     PCB_PrivateKeyBytes := PCB_PrivateKeyBytes p; PCB_PrivateKey := PCB_PrivateKey p;
     PCB_CertificateBytes := PCB_CertificateBytes p; PCB_Certificate := PCB_Certificate p;
     PCB_CAChain := PCB_CAChain p; PCB_SerialNumber := PCB_SerialNumber p |}.

Definition PCB_set_PrivateKeyFormat (v : BlockType) (p : ParsedCertBundle) : ParsedCertBundle :=
  {| PCB_PrivateKeyType := PCB_PrivateKeyType p; PCB_PrivateKeyFormat := v;
     PCB_PrivateKeyBytes := PCB_PrivateKeyBytes p; PCB_PrivateKey := PCB_PrivateKey p;
     PCB_CertificateBytes := PCB_CertificateBytes p; PCB_Certificate := PCB_Certificate p;
     PCB_CAChain := PCB_CAChain p; PCB_SerialNumber := PCB_SerialNumber p |}.

Definition PCB_set_PrivateKeyBytes (v : bytes) (p : ParsedCertBundle) : ParsedCertBundle :=
  {| PCB_PrivateKeyType := PCB_PrivateKeyType p; PCB_PrivateKeyFormat := PCB_PrivateKeyFormat p;
     PCB_PrivateKeyBytes := v; PCB_PrivateKey := PCB_PrivateKey p;
     PCB_CertificateBytes := PCB_CertificateBytes p; PCB_Certificate := PCB_Certificate p;
     PCB_CAChain := PCB_CAChain p; PCB_SerialNumber := PCB_SerialNumber p |}.

Definition PCB_set_PrivateKey (v : option crypto_Signer) (p : ParsedCertBundle) : ParsedCertBundle :=
  {| PCB_PrivateKeyType := PCB_PrivateKeyType p; PCB_PrivateKeyFormat := PCB_PrivateKeyFormat p;
     PCB_PrivateKeyBytes := PCB_PrivateKeyBytes p; PCB_PrivateKey := v;
     PCB_CertificateBytes := PCB_CertificateBytes p; PCB_Certificate := PCB_Certificate p;
     PCB_CAChain := PCB_CAChain p; PCB_SerialNumber := PCB_SerialNumber p |}.

Definition PCB_set_CertificateBytes (v : bytes) (p : ParsedCertBundle) : ParsedCertBundle :=
  {| PCB_PrivateKeyType := PCB_PrivateKeyType p; PCB_PrivateKeyFormat := PCB_PrivateKeyFormat p;
     PCB_PrivateKeyBytes := PCB_PrivateKeyBytes p; PCB_PrivateKey := PCB_PrivateKey p;
     PCB_CertificateBytes := v; PCB_Certificate := PCB_Certificate p;
     PCB_CAChain := PCB_CAChain p; PCB_SerialNumber := PCB_SerialNumber p |}.

Definition PCB_set_Certificate (v : option x509_Certificate) (p : ParsedCertBundle) : ParsedCertBundle :=
  {| PCB_PrivateKeyType := PCB_PrivateKeyType p; PCB_PrivateKeyFormat := PCB_PrivateKeyFormat p;
     PCB_PrivateKeyBytes := PCB_PrivateKeyBytes p; PCB_PrivateKey := PCB_PrivateKey p;
     PCB_CertificateBytes := PCB_CertificateBytes p; PCB_Certificate := v;
     PCB_CAChain := PCB_CAChain p; PCB_SerialNumber := PCB_SerialNumber p |}.

Definition PCB_set_CAChain (v : list (option CertBlock)) (p : ParsedCertBundle) : ParsedCertBundle :=
  {| PCB_PrivateKeyType := PCB_PrivateKeyType p; PCB_PrivateKeyFormat := PCB_PrivateKeyFormat p;
     PCB_PrivateKeyBytes := PCB_PrivateKeyBytes p; PCB_PrivateKey := PCB_PrivateKey p;
     PCB_CertificateBytes := PCB_CertificateBytes p; PCB_Certificate := PCB_Certificate p;
     PCB_CAChain := v; PCB_SerialNumber := PCB_SerialNumber p |}.

Definition PCB_set_SerialNumber (v : option loc) (p : ParsedCertBundle) : ParsedCertBundle :=
  {| PCB_PrivateKeyType := PCB_PrivateKeyType p; PCB_PrivateKeyFormat := PCB_PrivateKeyFormat p;
     PCB_PrivateKeyBytes := PCB_PrivateKeyBytes p; PCB_PrivateKey := PCB_PrivateKey p;
     PCB_CertificateBytes := PCB_CertificateBytes p; PCB_Certificate := PCB_Certificate p;
     PCB_CAChain := PCB_CAChain p; PCB_SerialNumber := v |}.

Definition CSR_set_PrivateKeyType (v : PrivateKeyType) (c : CSRBundle) : CSRBundle :=
  {| CSR_PrivateKeyType := v; CSR_CSR := CSR_CSR c; CSR_PrivateKey := CSR_PrivateKey c |}.

Definition PCSR_set_PrivateKeyType (v : PrivateKeyType) (p : ParsedCSRBundle) : ParsedCSRBundle :=
  {| PCSR_PrivateKeyType := v; PCSR_PrivateKeyBytes := PCSR_PrivateKeyBytes p;
     PCSR_PrivateKey := PCSR_PrivateKey p; PCSR_CSRBytes := PCSR_CSRBytes p;
     PCSR_CSR := PCSR_CSR p |}.

Definition PCSR_set_PrivateKeyBytes (v : bytes) (p : ParsedCSRBundle) : ParsedCSRBundle :=
  {| PCSR_PrivateKeyType := PCSR_PrivateKeyType p; PCSR_PrivateKeyBytes := v;
     PCSR_PrivateKey := PCSR_PrivateKey p; PCSR_CSRBytes := PCSR_CSRBytes p;
     PCSR_CSR := PCSR_CSR p |}.

Definition PCSR_set_PrivateKey (v : option crypto_Signer) (p : ParsedCSRBundle) : ParsedCSRBundle :=
  {| PCSR_PrivateKeyType := PCSR_PrivateKeyType p; PCSR_PrivateKeyBytes := PCSR_PrivateKeyBytes p;
     PCSR_PrivateKey := v; PCSR_CSRBytes := PCSR_CSRBytes p;
     PCSR_CSR := PCSR_CSR p |}.

Definition PCSR_set_CSRBytes (v : bytes) (p : ParsedCSRBundle) : ParsedCSRBundle :=
  {| PCSR_PrivateKeyType := PCSR_PrivateKeyType p; PCSR_PrivateKeyBytes := PCSR_PrivateKeyBytes p;
     PCSR_PrivateKey := PCSR_PrivateKey p; PCSR_CSRBytes := v;
     PCSR_CSR := PCSR_CSR p |}.

Definition PCSR_set_CSR (v : option x509_CertificateRequest) (p : ParsedCSRBundle) : ParsedCSRBundle :=
  {| PCSR_PrivateKeyType := PCSR_PrivateKeyType p; PCSR_PrivateKeyBytes := PCSR_PrivateKeyBytes p;
     PCSR_PrivateKey := PCSR_PrivateKey p; PCSR_CSRBytes := PCSR_CSRBytes p;
     PCSR_CSR := v |}.

(** [len(s) > 0] on a string and on a slice. *)
Definition nonempty_string (s : string) : bool := 0 <? String.length s.
Definition nonempty {A} (s : list A) : bool := 0 <? length s.

(** ** GetCertificatePath (lines 317-333) *)

Definition GetCertificatePath (p : ParsedCertBundle) : outcome (list (option CertBlock)) :=
  let certPath :=
    [Some {| CertBlock_Certificate := PCB_Certificate p;
             CertBlock_Bytes := PCB_CertificateBytes p |}] in
  if nonempty (PCB_CAChain p) then
    (* Root CA puts itself in the chain *)
    let? first := index (PCB_CAChain p) 0 in
    let? firstBlock := deref first in
    let? firstCert := deref (CertBlock_Certificate firstBlock) in
    let? leaf := deref (PCB_Certificate p) in
    if bool_decide (Cert_SerialNumber firstCert ≠ Cert_SerialNumber leaf)
    then Ok (certPath ++ PCB_CAChain p)
    else Ok certPath
  else Ok certPath.

(** ** Verify (lines 289-315) *)

(** The body of [for i, caCert := range certPath[1:]], from index [i] on;
    [rest] is what remains of [certPath[1:]]. *)
Fixpoint Verify_range (certPath : list (option CertBlock)) (i : nat)
    (rest : list (option CertBlock)) : outcome unit :=
  match rest with
  | [] => Ok tt
  | caCert :: rest' =>
      let? caBlock := deref caCert in
      let? ca := deref (CertBlock_Certificate caBlock) in
      if negb (Cert_IsCA ca) then
        Err (fmt_Errorf ("certificate " +:+ pretty (i + 1) +:+
                         " of certificate chain is not a certificate authority"))
      else
        let? child := index certPath i in
        let? childBlock := deref child in
        let? childCert := deref (CertBlock_Certificate childBlock) in
        if negb (bytes_Equal (Cert_AuthorityKeyId childCert) (Cert_SubjectKeyId ca)) then
          Err (fmt_Errorf ("certificate " +:+ pretty (i + 1) +:+
                 " of certificate chain ca trust path is incorrect (" +:+
                 Cert_Subject_CommonName childCert +:+ "/" +:+
                 Cert_Subject_CommonName ca +:+ ")"))
        else Verify_range certPath (i + 1) rest'
  end.

Definition Verify (p : ParsedCertBundle) : outcome unit :=
  (* If private key exists, check if it matches the public key of cert *)
  let? _ :=
    match PCB_PrivateKey p, PCB_Certificate p with
    | Some key, Some cert =>
        match ComparePublicKeys (Cert_PublicKey cert) (crypto_Public key) with
        | inl err =>
            Err (fmt_Errorf ("could not compare public and private keys: " +:+ Error err))
        | inr equal =>
            if negb equal
            then Err (fmt_Errorf "Public key of certificate does not match private key")
            else Ok tt
        end
    | _, _ => Ok tt
    end in
  let? certPath := GetCertificatePath p in
  if 1 <? length certPath then Verify_range certPath 0 (drop 1 certPath) else Ok tt.

(** ** getSigner and getPKCS8Type (lines 339-397) *)

Definition ParsedCertBundle_getSigner (p : ParsedCertBundle) : error + crypto_Signer :=
  if negb (nonempty (PCB_PrivateKeyBytes p)) then
    inl (UserError "Given parsed cert bundle does not have private key information")
  else if decide (PCB_PrivateKeyFormat p = ECBlock) then
    match x509_ParseECPrivateKey (PCB_PrivateKeyBytes p) with
    | inl err => inl (UserError ("Unable to parse CA's private EC key: " +:+ Error err))
    | inr k => inr (ECDSAKey k)
    end
  else if decide (PCB_PrivateKeyFormat p = PKCS1Block) then
    match x509_ParsePKCS1PrivateKey (PCB_PrivateKeyBytes p) with
    | inl err => inl (UserError ("Unable to parse CA's private RSA key: " +:+ Error err))
    | inr k => inr (RSAKey k)
    end
  else if decide (PCB_PrivateKeyFormat p = PKCS8Block) then
    match x509_ParsePKCS8PrivateKey (PCB_PrivateKeyBytes p) with
    | inr (RSAKey k) => inr (RSAKey k)
    | inr (ECDSAKey k) => inr (ECDSAKey k)
    | inr (OtherKey _) => inl (UserError "Found unknown private key type in pkcs#8 wrapping")
    | inl _ =>
        (* the err printed here is the function's outer variable, still nil *)
        inl (UserError "Failed to parse pkcs#8 key: <nil>")
    end
  else
    inl (UserError "Unable to determine type of private key; only RSA and EC are supported").

Definition getPKCS8Type (bs : bytes) : error + PrivateKeyType :=
  match x509_ParsePKCS8PrivateKey bs with
  | inl err => inl (UserError ("Failed to parse pkcs#8 key: " +:+ Error err))
  | inr (ECDSAKey _) => inr ECPrivateKey
  | inr (RSAKey _) => inr RSAPrivateKey
  | inr (OtherKey _) => inl (UserError "Found unknown private key type in pkcs#8 wrapping")
  end.

(** ** ToParsedCertBundle (lines 140-239) *)

(** The receiver [c] and the store of [big.Int] objects. *)
Definition St : Type := CertBundle * heap.

Definition self : M St CertBundle := fun s => (Ok (fst s), s).
Definition set_self (f : CertBundle -> CertBundle) : M St unit :=
  modify (fun s => (f (fst s), snd s)).
Definition read_big_Int (p : option loc) : M St Z :=
  fun s => (big_Int_value (snd s) p, s).

(** The certificate object built from what was decoded, its serial number
    stored at address [l]. *)
Definition certificate_at (l : loc) (tbs : tbsCertificate) : x509_Certificate :=
  {| Cert_SerialNumber := Some l;
     Cert_IsCA := tbs_IsCA tbs;
     Cert_AuthorityKeyId := tbs_AuthorityKeyId tbs;
     Cert_SubjectKeyId := tbs_SubjectKeyId tbs;
     Cert_Subject_CommonName := tbs_CommonName tbs;
     Cert_PublicKey := tbs_PublicKey tbs |}.

(** [x509.ParseCertificate]: decode, and on success put the serial number
    in a fresh [big.Int]. *)
Definition x509_ParseCertificate (der : bytes) : M St (error + x509_Certificate) :=
  fun s =>
    match asn1_Certificate der with
    | inl err => (Ok (inl err), s)
    | inr tbs =>
        let (l, h) := alloc (tbs_SerialNumber tbs) (snd s) in
        (Ok (inr (certificate_at l tbs)), (fst s, h))
    end.

(** Lines 145-179: the private key. *)
Definition ToParsedCertBundle_key (result : ParsedCertBundle) : M St ParsedCertBundle :=
  let* c := self in
  if nonempty_string (CB_PrivateKey c) then
    match pem_Decode (bytes_of_string (CB_PrivateKey c)) with
    | None => throw (UserError "Error decoding private key from cert bundle")
    | Some pemBlock =>
        let result := PCB_set_PrivateKeyBytes (blk_Bytes pemBlock) result in
        let result :=
          PCB_set_PrivateKeyFormat (strings_TrimSpace (blk_Type pemBlock)) result in
        let* result :=
          if decide (PCB_PrivateKeyFormat result = ECBlock) then
            set_self (CB_set_PrivateKeyType ECPrivateKey) ;;;
            ret (PCB_set_PrivateKeyType ECPrivateKey result)
          else if decide (PCB_PrivateKeyFormat result = PKCS1Block) then
            set_self (CB_set_PrivateKeyType RSAPrivateKey) ;;;
            ret (PCB_set_PrivateKeyType RSAPrivateKey result)
          else if decide (PCB_PrivateKeyFormat result = PKCS8Block) then
            match getPKCS8Type (blk_Bytes pemBlock) with
            | inl err =>
                throw (UserError ("Error getting key type from pkcs#8: " +:+ Error err))
            | inr t =>
                let result := PCB_set_PrivateKeyType t result in
                (if decide (t = ECPrivateKey) then
                   set_self (CB_set_PrivateKeyType ECPrivateKey)
                 else if decide (t = RSAPrivateKey) then
                   set_self (CB_set_PrivateKeyType RSAPrivateKey)
                 else ret tt) ;;;
                ret result
            end
          else
            throw (UserError ("Unsupported key block type: " +:+ blk_Type pemBlock)) in
        match ParsedCertBundle_getSigner result with
        | inl err => throw (UserError ("Error getting signer: " +:+ Error err))
        | inr signer => ret (PCB_set_PrivateKey (Some signer) result)
        end
    end
  else ret result.

(** Lines 181-191: the leaf certificate. *)
Definition ToParsedCertBundle_certificate (result : ParsedCertBundle)
    : M St ParsedCertBundle :=
  let* c := self in
  if nonempty_string (CB_Certificate c) then
    match pem_Decode (bytes_of_string (CB_Certificate c)) with
    | None => throw (UserError "Error decoding certificate from cert bundle")
    | Some pemBlock =>
        let result := PCB_set_CertificateBytes (blk_Bytes pemBlock) result in
        let* parsed := x509_ParseCertificate (PCB_CertificateBytes result) in
        match parsed with
        | inl _ =>
            throw (UserError "Error encountered parsing certificate bytes from raw bundle")
        | inr cert => ret (PCB_set_Certificate (Some cert) result)
        end
    end
  else ret result.

(** Lines 194-210: [for _, cert := range c.CAChain]. *)
Fixpoint ToParsedCertBundle_range (certs : list string) (result : ParsedCertBundle)
    : M St ParsedCertBundle :=
  match certs with
  | [] => ret result
  | cert :: certs' =>
      match pem_Decode (bytes_of_string cert) with
      | None => throw (UserError "Error decoding certificate from cert bundle")
      | Some pemBlock =>
          let* parsed := x509_ParseCertificate (blk_Bytes pemBlock) in
          match parsed with
          | inl _ =>
              throw (UserError "Error encountered parsing certificate bytes from raw bundle")
          | inr parsedCert =>
              let certBlock :=
                {| CertBlock_Certificate := Some parsedCert;
                   CertBlock_Bytes := blk_Bytes pemBlock |} in
              ToParsedCertBundle_range certs'
                (PCB_set_CAChain (PCB_CAChain result ++ [Some certBlock]) result)
          end
      end
  end.

(** Lines 192-231: the chain, or the legacy issuing CA. *)
Definition ToParsedCertBundle_chain (result : ParsedCertBundle) : M St ParsedCertBundle :=
  let* c := self in
  if nonempty (CB_CAChain c) then
    ToParsedCertBundle_range (CB_CAChain c) result
  else if nonempty_string (CB_IssuingCA c) then
    (* For backwards compabitibility *)
    match pem_Decode (bytes_of_string (CB_IssuingCA c)) with
    | None => throw (UserError "Error decoding ca certificate from cert bundle")
    | Some pemBlock =>
        let* parsed := x509_ParseCertificate (blk_Bytes pemBlock) in
        match parsed with
        | inl _ =>
            throw (UserError "Error encountered parsing certificate bytes from raw bundle3")
        | inr parsedCert =>
            let* leaf := lift (deref (PCB_Certificate result)) in
            let result := PCB_set_SerialNumber (Cert_SerialNumber leaf) result in
            let certBlock :=
              {| CertBlock_Certificate := Some parsedCert;
                 CertBlock_Bytes := blk_Bytes pemBlock |} in
            ret (PCB_set_CAChain (PCB_CAChain result ++ [Some certBlock]) result)
        end
    end
  else ret result.

(** Lines 233-236: populate the serial number if it isn't there already. *)
Definition ToParsedCertBundle_serial (result : ParsedCertBundle) : M St unit :=
  let* c := self in
  if (String.length (CB_SerialNumber c) =? 0) && nonempty_string (CB_Certificate c) then
    let* leaf := lift (deref (PCB_Certificate result)) in
    let* serial := read_big_Int (Cert_SerialNumber leaf) in
    set_self (CB_set_SerialNumber (GetHexFormatted (big_Int_Bytes serial) ":"))
  else ret tt.

Definition ToParsedCertBundle : M St ParsedCertBundle :=
  let result := ParsedCertBundle_zero in
  let* result := ToParsedCertBundle_key result in
  let* result := ToParsedCertBundle_certificate result in
  let* result := ToParsedCertBundle_chain result in
  ToParsedCertBundle_serial result ;;;
  ret result.

(** ** ToCertBundle (lines 243-284) *)

(** [strings.TrimSpace(string(pem.EncodeToMemory(&block)))]. *)
Definition encode_trimmed (type : string) (der : bytes) : string :=
  strings_TrimSpace
    (string_of_bytes (pem_EncodeToMemory {| blk_Type := type; blk_Bytes := der |})).

(** Lines 258-263: [for _, caCert := range p.CAChain]. *)
Fixpoint ToCertBundle_range (chain : list (option CertBlock)) (result : CertBundle)
    : outcome CertBundle :=
  match chain with
  | [] => Ok result
  | caCert :: chain' =>
      let? caBlock := deref caCert in
      let certificate := encode_trimmed "CERTIFICATE" (CertBlock_Bytes caBlock) in
      ToCertBundle_range chain' (CB_set_CAChain (CB_CAChain result ++ [certificate]) result)
  end.

Definition ToCertBundle (h : heap) (p : ParsedCertBundle) : outcome CertBundle :=
  let result := CertBundle_zero in
  let? result :=
    match PCB_Certificate p with
    | Some cert =>
        let? serial := big_Int_value h (Cert_SerialNumber cert) in
        Ok (CB_set_SerialNumber
              (strings_TrimSpace (GetHexFormatted (big_Int_Bytes serial) ":")) result)
    | None => Ok result
    end in
  let result :=
    if nonempty (PCB_CertificateBytes p)
    then CB_set_Certificate (encode_trimmed "CERTIFICATE" (PCB_CertificateBytes p)) result
    else result in
  let? result := ToCertBundle_range (PCB_CAChain p) result in
  let result :=
    if nonempty (PCB_PrivateKeyBytes p) then
      let type := PCB_PrivateKeyFormat p in
      let result := CB_set_PrivateKeyType (PCB_PrivateKeyType p) result in
      (* Handle bundle not parsed by us *)
      let type :=
        if decide (type = "") then
          if decide (PCB_PrivateKeyType p = ECPrivateKey) then ECBlock
          else if decide (PCB_PrivateKeyType p = RSAPrivateKey) then PKCS1Block
          else type
        else type in
      CB_set_PrivateKey (encode_trimmed type (PCB_PrivateKeyBytes p)) result
    else result in
  Ok result.

(** ** ToParsedCSRBundle, ToCSRBundle and the CSR getSigner (lines 401-512) *)

Definition ParsedCSRBundle_getSigner (p : ParsedCSRBundle) : error + crypto_Signer :=
  if negb (nonempty (PCSR_PrivateKeyBytes p)) then
    inl (UserError "Given parsed cert bundle does not have private key information")
  else if decide (PCSR_PrivateKeyType p = ECPrivateKey) then
    match x509_ParseECPrivateKey (PCSR_PrivateKeyBytes p) with
    | inl err => inl (UserError ("Unable to parse CA's private EC key: " +:+ Error err))
    | inr k => inr (ECDSAKey k)
    end
  else if decide (PCSR_PrivateKeyType p = RSAPrivateKey) then
    match x509_ParsePKCS1PrivateKey (PCSR_PrivateKeyBytes p) with
    | inl err => inl (UserError ("Unable to parse CA's private RSA key: " +:+ Error err))
    | inr k => inr (RSAKey k)
    end
  else
    inl (UserError "Unable to determine type of private key; only RSA and EC are supported").

(** Lines 406-435: the private key. *)
Definition ToParsedCSRBundle_key (result : ParsedCSRBundle) : M CSRBundle ParsedCSRBundle :=
  let* c := get in
  if nonempty_string (CSR_PrivateKey c) then
    match pem_Decode (bytes_of_string (CSR_PrivateKey c)) with
    | None => throw (UserError "Error decoding private key from cert bundle")
    | Some pemBlock =>
        let result := PCSR_set_PrivateKeyBytes (blk_Bytes pemBlock) result in
        let* result :=
          if decide (blk_Type pemBlock = ECBlock) then
            ret (PCSR_set_PrivateKeyType ECPrivateKey result)
          else if decide (blk_Type pemBlock = PKCS1Block) then
            ret (PCSR_set_PrivateKeyType RSAPrivateKey result)
          else
            (* Try to figure it out and correct *)
            match x509_ParseECPrivateKey (blk_Bytes pemBlock) with
            | inr _ =>
                let result := PCSR_set_PrivateKeyType ECPrivateKey result in
                modify (CSR_set_PrivateKeyType "ec") ;;;
                ret result
            | inl _ =>
                match x509_ParsePKCS1PrivateKey (blk_Bytes pemBlock) with
                | inr _ =>
                    let result := PCSR_set_PrivateKeyType RSAPrivateKey result in
                    modify (CSR_set_PrivateKeyType "rsa") ;;;
                    ret result
                | inl _ =>
                    throw (UserError ("Unknown private key type in bundle: " +:+
                                      CSR_PrivateKeyType c))
                end
            end in
        match ParsedCSRBundle_getSigner result with
        | inl err => throw (UserError ("Error getting signer: " +:+ Error err))
        | inr signer => ret (PCSR_set_PrivateKey (Some signer) result)
        end
    end
  else ret result.

(** Lines 437-447: the request. *)
Definition ToParsedCSRBundle_csr (result : ParsedCSRBundle) : M CSRBundle ParsedCSRBundle :=
  let* c := get in
  if nonempty_string (CSR_CSR c) then
    match pem_Decode (bytes_of_string (CSR_CSR c)) with
    | None => throw (UserError "Error decoding certificate from cert bundle")
    | Some pemBlock =>
        let result := PCSR_set_CSRBytes (blk_Bytes pemBlock) result in
        match x509_ParseCertificateRequest (PCSR_CSRBytes result) with
        | inl _ =>
            throw (UserError "Error encountered parsing certificate bytes from raw bundle")
        | inr csr => ret (PCSR_set_CSR (Some csr) result)
        end
    end
  else ret result.

Definition ToParsedCSRBundle : M CSRBundle ParsedCSRBundle :=
  let result := ParsedCSRBundle_zero in
  let* result := ToParsedCSRBundle_key result in
  ToParsedCSRBundle_csr result.

Definition ToCSRBundle (p : ParsedCSRBundle) : outcome CSRBundle :=
  let result := {| CSR_PrivateKeyType := ""; CSR_CSR := ""; CSR_PrivateKey := "" |} in
  let result :=
    if nonempty (PCSR_CSRBytes p)
    then {| CSR_PrivateKeyType := CSR_PrivateKeyType result;
            CSR_CSR := encode_trimmed "CERTIFICATE REQUEST" (PCSR_CSRBytes p);
            CSR_PrivateKey := CSR_PrivateKey result |}
    else result in
  if nonempty (PCSR_PrivateKeyBytes p) then
    if decide (PCSR_PrivateKeyType p = RSAPrivateKey) then
      Ok {| CSR_PrivateKeyType := "rsa"; CSR_CSR := CSR_CSR result;
            CSR_PrivateKey := encode_trimmed "RSA PRIVATE KEY" (PCSR_PrivateKeyBytes p) |}
    else if decide (PCSR_PrivateKeyType p = ECPrivateKey) then
      Ok {| CSR_PrivateKeyType := "ec"; CSR_CSR := CSR_CSR result;
            CSR_PrivateKey := encode_trimmed "EC PRIVATE KEY" (PCSR_PrivateKeyBytes p) |}
    else
      Err (InternalError "Could not determine private key type when creating block")
  else Ok result.

(** ** GetTLSConfig (lines 526-579) *)

(** [tls.Config], the fields this package sets. *)
Record tls_Config : Type := {
  cfg_MinVersion : Z;
  cfg_ClientCAs : option x509_CertPool;
  cfg_ClientAuth : tls_ClientAuthType;
  cfg_RootCAs : option x509_CertPool;
  cfg_Certificates : list tls_Certificate;
  cfg_NameToCertificate : option tls_nameIndex;
}.

Definition tls_VersionTLS12 : Z := 0x0303.

Definition tlsCert_set_Certificate (v : list bytes) (t : tls_Certificate) : tls_Certificate :=
  {| tlsCert_Certificate := v; tlsCert_PrivateKey := tlsCert_PrivateKey t;
     tlsCert_Leaf := tlsCert_Leaf t |}.

Definition tlsCert_set_PrivateKey (v : option crypto_Signer) (t : tls_Certificate)
    : tls_Certificate :=
  {| tlsCert_Certificate := tlsCert_Certificate t; tlsCert_PrivateKey := v;
     tlsCert_Leaf := tlsCert_Leaf t |}.

Definition tlsCert_set_Leaf (v : option x509_Certificate) (t : tls_Certificate)
    : tls_Certificate :=
  {| tlsCert_Certificate := tlsCert_Certificate t;
     tlsCert_PrivateKey := tlsCert_PrivateKey t; tlsCert_Leaf := v |}.

Definition cfg_set_ClientCAs (v : option x509_CertPool) (c : tls_Config) : tls_Config :=
  {| cfg_MinVersion := cfg_MinVersion c; cfg_ClientCAs := v;
     cfg_ClientAuth := cfg_ClientAuth c; cfg_RootCAs := cfg_RootCAs c;
     cfg_Certificates := cfg_Certificates c;
     cfg_NameToCertificate := cfg_NameToCertificate c |}.

Definition cfg_set_ClientAuth (v : tls_ClientAuthType) (c : tls_Config) : tls_Config :=
  {| cfg_MinVersion := cfg_MinVersion c; cfg_ClientCAs := cfg_ClientCAs c;
     cfg_ClientAuth := v; cfg_RootCAs := cfg_RootCAs c;
     cfg_Certificates := cfg_Certificates c;
     cfg_NameToCertificate := cfg_NameToCertificate c |}.

Definition cfg_set_RootCAs (v : option x509_CertPool) (c : tls_Config) : tls_Config :=
  {| cfg_MinVersion := cfg_MinVersion c; cfg_ClientCAs := cfg_ClientCAs c;
     cfg_ClientAuth := cfg_ClientAuth c; cfg_RootCAs := v;
     cfg_Certificates := cfg_Certificates c;
     cfg_NameToCertificate := cfg_NameToCertificate c |}.

Definition cfg_set_Certificates (v : list tls_Certificate) (c : tls_Config) : tls_Config :=
  {| cfg_MinVersion := cfg_MinVersion c; cfg_ClientCAs := cfg_ClientCAs c;
     cfg_ClientAuth := cfg_ClientAuth c; cfg_RootCAs := cfg_RootCAs c;
     cfg_Certificates := v;
     cfg_NameToCertificate := cfg_NameToCertificate c |}.

(** The [BuildNameToCertificate] method: it rebuilds the name index from
    [Certificates] and touches nothing else. *)
Definition BuildNameToCertificate (c : tls_Config) : tls_Config :=
  {| cfg_MinVersion := cfg_MinVersion c; cfg_ClientCAs := cfg_ClientCAs c;
     cfg_ClientAuth := cfg_ClientAuth c; cfg_RootCAs := cfg_RootCAs c;
     cfg_Certificates := cfg_Certificates c;
     cfg_NameToCertificate := Some (tls_BuildNameToCertificate (cfg_Certificates c)) |}.

(** Lines 548-550: [for _, cert := range p.CAChain]. *)
Fixpoint GetTLSConfig_range (chain : list (option CertBlock)) (tlsCert : tls_Certificate)
    : outcome tls_Certificate :=
  match chain with
  | [] => Ok tlsCert
  | cert :: chain' =>
      let? block := deref cert in
      GetTLSConfig_range chain'
        (tlsCert_set_Certificate (tlsCert_Certificate tlsCert ++ [CertBlock_Bytes block])
           tlsCert)
  end.

Definition GetTLSConfig (h : heap) (p : ParsedCertBundle) (usage : TLSUsage)
    : outcome tls_Config :=
  let tlsCert :=
    {| tlsCert_Certificate := []; tlsCert_PrivateKey := None; tlsCert_Leaf := None |} in
  let tlsConfig :=
    {| cfg_MinVersion := tls_VersionTLS12; cfg_ClientCAs := None;
       cfg_ClientAuth := NoClientCert; cfg_RootCAs := None;
       cfg_Certificates := []; cfg_NameToCertificate := None |} in
  let tlsCert :=
    match PCB_Certificate p with
    | Some _ => tlsCert_set_Leaf (PCB_Certificate p) tlsCert
    | None => tlsCert
    end in
  let tlsCert :=
    match PCB_PrivateKey p with
    | Some _ => tlsCert_set_PrivateKey (PCB_PrivateKey p) tlsCert
    | None => tlsCert
    end in
  let tlsCert :=
    if nonempty (PCB_CertificateBytes p)
    then tlsCert_set_Certificate (tlsCert_Certificate tlsCert ++ [PCB_CertificateBytes p])
           tlsCert
    else tlsCert in
  let? both :=
    if nonempty (PCB_CAChain p) then
      let? tlsCert := GetTLSConfig_range (PCB_CAChain p) tlsCert in
      (* Technically we only need one cert, but this doesn't duplicate code *)
      match ToCertBundle h p with
      | Panic => Panic
      | Err err =>
          Err (fmt_Errorf
                 ("Error converting parsed bundle to string bundle when getting TLS config: "
                  +:+ Error err))
      | Ok certBundle =>
          let? first := index (CB_CAChain certBundle) 0 in
          let (caPool, ok) :=
            x509_AppendCertsFromPEM x509_NewCertPool (bytes_of_string first) in
          if negb ok then Err (fmt_Errorf "Could not append CA certificate")
          else
            let tlsConfig :=
              if (0 <? Z.land usage TLSServer)%Z
              then cfg_set_ClientAuth VerifyClientCertIfGiven
                     (cfg_set_ClientCAs (Some caPool) tlsConfig)
              else tlsConfig in
            let tlsConfig :=
              if (0 <? Z.land usage TLSClient)%Z
              then cfg_set_RootCAs (Some caPool) tlsConfig
              else tlsConfig in
            Ok (tlsCert, tlsConfig)
      end
    else Ok (tlsCert, tlsConfig) in
  let tlsCert := fst both in
  let tlsConfig := snd both in
  if nonempty (tlsCert_Certificate tlsCert)
  then Ok (BuildNameToCertificate (cfg_set_Certificates [tlsCert] tlsConfig))
  else Ok tlsConfig.

(** ** ToPEMBundle (lines 122-136) *)

(** [strings.Join]: the elements, with the separator between consecutive
    ones. *)
Definition strings_Join (elems : list string) (sep : string) : string :=
  String.concat sep elems.

Definition ToPEMBundle (c : CertBundle) : string :=
  let result := [] in
  let result :=
    if nonempty_string (CB_PrivateKey c) then result ++ [CB_PrivateKey c] else result in
  let result :=
    if nonempty_string (CB_Certificate c) then result ++ [CB_Certificate c] else result in
  let result :=
    if nonempty (CB_CAChain c) then result ++ CB_CAChain c else result in
  strings_Join result "
".

(** ** SetParsedPrivateKey (lines 377-381 and 515-519) *)

Definition ParsedCertBundle_SetParsedPrivateKey (privateKey : option crypto_Signer)
    (privateKeyType : PrivateKeyType) (privateKeyBytes : bytes) (p : ParsedCertBundle)
    : ParsedCertBundle :=
  PCB_set_PrivateKeyBytes privateKeyBytes
    (PCB_set_PrivateKeyType privateKeyType (PCB_set_PrivateKey privateKey p)).

Definition ParsedCSRBundle_SetParsedPrivateKey (privateKey : option crypto_Signer)
    (privateKeyType : PrivateKeyType) (privateKeyBytes : bytes) (p : ParsedCSRBundle)
    : ParsedCSRBundle :=
  PCSR_set_PrivateKeyBytes privateKeyBytes
    (PCSR_set_PrivateKeyType privateKeyType (PCSR_set_PrivateKey privateKey p)).

(** ** Vocabulary of the statements *)

(** The first entry of the trust path. *)
Definition leafBlock (p : ParsedCertBundle) : option CertBlock :=
  Some {| CertBlock_Certificate := PCB_Certificate p;
          CertBlock_Bytes := PCB_CertificateBytes p |}.

(** The certificate at position [i] of a trust path, if that entry and its
    certificate are both there. *)
Definition cert_at (path : list (option CertBlock)) (i : nat) : option x509_Certificate :=
  match path !! i with
  | Some (Some block) => CertBlock_Certificate block
  | _ => None
  end.

(** A good link: the parent is a CA and its subject key identifier is the
    child's authority key identifier. *)
Definition linked (child parent : x509_Certificate) : Prop :=
  Cert_IsCA parent = true /\ Cert_AuthorityKeyId child = Cert_SubjectKeyId parent.

(** Every pair (path[j], path[j+1]) with [j < n] is a good link. *)
Definition links_ok_below (path : list (option CertBlock)) (n : nat) : Prop :=
  forall j, j < n ->
    exists child parent,
      cert_at path j = Some child /\ cert_at path (S j) = Some parent /\
      linked child parent.

(** The first check of [Verify] passes or does not apply. *)
Definition key_matches (p : ParsedCertBundle) : Prop :=
  forall key cert,
    PCB_PrivateKey p = Some key -> PCB_Certificate p = Some cert ->
    ComparePublicKeys (Cert_PublicKey cert) (crypto_Public key) = inr true.

(** A text with the surrounding white space removed; no text stays no
    text. *)
Definition trimmed (text : string) : string :=
  if nonempty_string text then strings_TrimSpace text else "".

(** A PEM text is canonical for a label when re-encoding its payload under
    that label gives the text back, up to surrounding white space. *)
Definition canonical_pem (label text : string) : Prop :=
  forall blk,
    pem_Decode (bytes_of_string text) = Some blk ->
    encode_trimmed label (blk_Bytes blk) = strings_TrimSpace text.

(** The same for a key, whose label is its own, without surrounding white
    space. *)
Definition canonical_key (text : string) : Prop :=
  forall blk,
    pem_Decode (bytes_of_string text) = Some blk ->
    encode_trimmed (strings_TrimSpace (blk_Type blk)) (blk_Bytes blk)
      = strings_TrimSpace text.

Definition canonical_bundle (b : CertBundle) : Prop :=
  canonical_key (CB_PrivateKey b) /\
  canonical_pem "CERTIFICATE" (CB_Certificate b) /\
  (forall blk,
     pem_Decode (bytes_of_string (CB_Certificate b)) = Some blk -> blk_Bytes blk <> []) /\
  Forall (canonical_pem "CERTIFICATE") (CB_CAChain b) /\
  canonical_pem "CERTIFICATE" (CB_IssuingCA b).

(** The chain that parsing builds from a string bundle: its CA chain, or
    else its legacy issuing CA alone. *)
Definition chain_texts (b : CertBundle) : list string :=
  if nonempty (CB_CAChain b) then CB_CAChain b
  else if nonempty_string (CB_IssuingCA b) then [CB_IssuingCA b]
  else [].

(** A chain entry that was parsed from a PEM text: its bytes are the
    payload of the text and its certificate is there. *)
Definition parsed_block (text : string) (block : CertBlock) : Prop :=
  exists blk cert,
    pem_Decode (bytes_of_string text) = Some blk /\
    block = {| CertBlock_Certificate := Some cert; CertBlock_Bytes := blk_Bytes blk |}.

(** The serial-number field once the chain has been handled: it is written
    on the legacy issuing-CA path only, from the leaf certificate. *)
Definition serial_after_chain (c : CertBundle) (r : ParsedCertBundle) : option loc :=
  if nonempty (CB_CAChain c) then PCB_SerialNumber r
  else if nonempty_string (CB_IssuingCA c) then
    match PCB_Certificate r with
    | Some leaf => Cert_SerialNumber leaf
    | None => PCB_SerialNumber r
    end
  else PCB_SerialNumber r.

(** The serial number of a certificate can be read in the store. *)
Definition serial_readable (h : heap) (p : ParsedCertBundle) : Prop :=
  forall cert,
    PCB_Certificate p = Some cert ->
    exists v, big_Int_value h (Cert_SerialNumber cert) = Ok v.

(** What the two parsers leave of the key: type, bytes, signer. *)
Definition cert_key_view (p : ParsedCertBundle)
    : PrivateKeyType * bytes * option crypto_Signer :=
  (PCB_PrivateKeyType p, PCB_PrivateKeyBytes p, PCB_PrivateKey p).

Definition csr_key_view (p : ParsedCSRBundle)
    : PrivateKeyType * bytes * option crypto_Signer :=
  (PCSR_PrivateKeyType p, PCSR_PrivateKeyBytes p, PCSR_PrivateKey p).

Definition outcome_map {A B} (f : A -> B) (o : outcome A) : outcome B :=
  match o with
  | Ok a => Ok (f a)
  | Err e => Err e
  | Panic => Panic
  end.

(** String bundles that carry a key and nothing else. *)
Definition key_only_cert (tag : PrivateKeyType) (key : string) : CertBundle :=
  {| CB_PrivateKeyType := tag; CB_Certificate := ""; CB_IssuingCA := "";
     CB_CAChain := []; CB_PrivateKey := key; CB_SerialNumber := "" |}.

Definition key_only_csr (tag : PrivateKeyType) (key : string) : CSRBundle :=
  {| CSR_PrivateKeyType := tag; CSR_CSR := ""; CSR_PrivateKey := key |}.

Definition not_a_CA (i : nat) : error :=
  fmt_Errorf ("certificate " +:+ pretty i +:+
              " of certificate chain is not a certificate authority").

Definition bad_trust_path (i : nat) (child parent : x509_Certificate) : error :=
  fmt_Errorf ("certificate " +:+ pretty i +:+
              " of certificate chain ca trust path is incorrect (" +:+
              Cert_Subject_CommonName child +:+ "/" +:+
              Cert_Subject_CommonName parent +:+ ")").

(** Parsed bundles that hold key bytes and nothing else: no key type, no
    block format. *)
Definition unknown_key : ParsedCertBundle :=
  PCB_set_PrivateKeyBytes [Byte.x01] ParsedCertBundle_zero.

Definition unknown_key_csr : ParsedCSRBundle :=
  PCSR_set_PrivateKeyBytes [Byte.x01] ParsedCSRBundle_zero.

(** ** Vocabulary of the further properties *)

(** An outcome that is a result or a user-input error: no fault, no error
    of another kind. *)
Definition user_level {A} (o : outcome A) : Prop :=
  match o with
  | Ok _ => True
  | Err e => exists msg, e = UserError msg
  | Panic => False
  end.

(** The PEM fields of a string bundle. *)
Definition same_pem_texts (c c' : CertBundle) : Prop :=
  CB_PrivateKey c' = CB_PrivateKey c /\ CB_Certificate c' = CB_Certificate c /\
  CB_CAChain c' = CB_CAChain c /\ CB_IssuingCA c' = CB_IssuingCA c.

(** The key type names the algorithm of the signer. *)
Definition key_agrees (t : PrivateKeyType) (signer : option crypto_Signer) : Prop :=
  (t = ECPrivateKey /\ exists k, signer = Some (ECDSAKey k)) \/
  (t = RSAPrivateKey /\ exists k, signer = Some (RSAKey k)).

Definition supported_format (f : BlockType) : Prop :=
  f = ECBlock \/ f = PKCS1Block \/ f = PKCS8Block.

(** The label under which ToCSRBundle writes a key of a given type. *)
Definition csr_key_label (t : PrivateKeyType) : string :=
  if decide (t = RSAPrivateKey) then "RSA PRIVATE KEY" else "EC PRIVATE KEY".

(** A CSR bundle in canonical form: the request re-encodes to its text,
    and the key carries the EC or the PKCS#1 label and re-encodes to its
    text under that label. *)
Definition canonical_csr_bundle (c : CSRBundle) : Prop :=
  canonical_pem "CERTIFICATE REQUEST" (CSR_CSR c) /\
  (forall blk,
     pem_Decode (bytes_of_string (CSR_CSR c)) = Some blk -> blk_Bytes blk <> []) /\
  (forall blk,
     pem_Decode (bytes_of_string (CSR_PrivateKey c)) = Some blk ->
     (blk_Type blk = ECBlock \/ blk_Type blk = PKCS1Block) /\
     encode_trimmed (blk_Type blk) (blk_Bytes blk) = strings_TrimSpace (CSR_PrivateKey c)).

Definition handshake_certificate (p : ParsedCertBundle) (blocks : list CertBlock)
    : tls_Certificate :=
  {| tlsCert_Certificate :=
       (if nonempty (PCB_CertificateBytes p) then [PCB_CertificateBytes p] else [])
       ++ map CertBlock_Bytes blocks;
     tlsCert_PrivateKey := PCB_PrivateKey p;
     tlsCert_Leaf := PCB_Certificate p |}.

(** A configuration with the protocol floor, the given pools and
    certificates, and the name index of the certificates when there are
    any. *)
Definition tls_config_of (clientCAs : option x509_CertPool) (auth : tls_ClientAuthType)
    (rootCAs : option x509_CertPool) (certs : list tls_Certificate) : tls_Config :=
  {| cfg_MinVersion := tls_VersionTLS12;
     cfg_ClientCAs := clientCAs; cfg_ClientAuth := auth; cfg_RootCAs := rootCAs;
     cfg_Certificates := certs;
     cfg_NameToCertificate :=
       if nonempty certs then Some (tls_BuildNameToCertificate certs) else None |}.

(** The parts of the blob: the key and the certificate when they are not
    empty, then the chain as it is. *)
Definition pem_parts (c : CertBundle) : list string :=
  (if nonempty_string (CB_PrivateKey c) then [CB_PrivateKey c] else []) ++
  (if nonempty_string (CB_Certificate c) then [CB_Certificate c] else []) ++
  CB_CAChain c.

(** Each text on a line of its own, after what precedes. *)
Fixpoint on_new_lines (texts : list string) : string :=
  match texts with
  | [] => ""
  | text :: texts' => "
" +:+ text +:+ on_new_lines texts'
  end.

(** The label under which ToCertBundle writes a key: the recorded block
    format, or else the one that goes with the key type. *)
Definition key_block_label (format : BlockType) (t : PrivateKeyType) : string :=
  if decide (format = "") then
    if decide (t = ECPrivateKey) then ECBlock
    else if decide (t = RSAPrivateKey) then PKCS1Block
    else ""
  else format.

(** Decoding the encoder's text gives the block back. *)
Definition decodes_back (label : string) (der : bytes) : Prop :=
  encode_trimmed label der <> "" /\
  forall blk,
    pem_Decode (bytes_of_string (encode_trimmed label der)) = Some blk ->
    blk = {| blk_Type := label; blk_Bytes := der |}.

(** Chain entries with the same payloads, position by position. *)
Definition same_payloads (chain' chain : list (option CertBlock)) : Prop :=
  Forall2
    (fun entry' entry =>
       exists block' block,
         entry' = Some block' /\ entry = Some block /\
         CertBlock_Bytes block' = CertBlock_Bytes block)
    chain' chain.

End certutil.

(** ** A small library implementation, to run the functions on concrete bundles

    A miniature armour stands in for PEM: the text of a block is its label,
    a colon, and the payload; the encoder ends the text with a newline.  A
    certificate payload is four bytes: serial number, CA flag (Y or N),
    subject key identifier, authority key identifier.  A key payload starts
    with E (SEC1 EC), R (PKCS#1 RSA) or 8 (PKCS#8, followed by the letter of
    the wrapped algorithm); a request payload starts with Q. *)
Module TestLib.

#[export] Instance keys : KeyMaterial :=
  {| rsa_PrivateKey := bytes; ecdsa_PrivateKey := bytes;
     other_PrivateKey := bytes; crypto_PublicKey := bytes |}.

Definition is_space (a : Ascii.ascii) : bool :=
  let n := Ascii.N_of_ascii a in
  ((9 <=? n) && (n <=? 13) || (n =? 32))%N.

Fixpoint trim_left (s : string) : string :=
  match s with
  | String a s' => if is_space a then trim_left s' else s
  | EmptyString => EmptyString
  end.

Definition TrimSpace (s : string) : string :=
  String.rev (trim_left (String.rev (trim_left s))).

Fixpoint split_colon (s : string) : option (string * string) :=
  match s with
  | EmptyString => None
  | String a s' =>
      if (Ascii.N_of_ascii a =? 58)%N then Some (EmptyString, s')
      else match split_colon s' with
           | Some (l, r) => Some (String a l, r)
           | None => None
           end
  end.

Definition Decode (text : bytes) : option pem_Block :=
  match split_colon (string_of_bytes text) with
  | Some (label, payload) =>
      Some {| blk_Type := label; blk_Bytes := bytes_of_string payload |}
  | None => None
  end.

Definition EncodeToMemory (b : pem_Block) : bytes :=
  bytes_of_string (blk_Type b +:+ ":" +:+ string_of_bytes (blk_Bytes b) +:+ "
").

Definition malformed : error := errorString "asn1: structure error".

Definition Certificate (der : bytes) : error + tbsCertificate :=
  match der with
  | [serial; ca; ski; aki] =>
      inr {| tbs_SerialNumber := Z.of_N (Byte.to_N serial);
             tbs_IsCA := bool_decide (ca = "Y"%byte);
             tbs_AuthorityKeyId := [aki];
             tbs_SubjectKeyId := [ski];
             tbs_CommonName := string_of_bytes [ski];
             tbs_PublicKey := [ski] |}
  | _ => inl malformed
  end.

Definition ParseCertificateRequest (der : bytes) : error + bytes :=
  match der with
  | "Q"%byte :: _ => inr der
  | _ => inl malformed
  end.

Definition ParseECPrivateKey (der : bytes) : error + bytes :=
  match der with
  | "E"%byte :: id => inr id
  | _ => inl malformed
  end.

Definition ParsePKCS1PrivateKey (der : bytes) : error + bytes :=
  match der with
  | "R"%byte :: id => inr id
  | _ => inl malformed
  end.

Definition ParsePKCS8PrivateKey (der : bytes) : error + crypto_Signer :=
  match der with
  | "8"%byte :: "E"%byte :: id => inr (ECDSAKey id)
  | "8"%byte :: "R"%byte :: id => inr (RSAKey id)
  | "8"%byte :: _ :: id => inr (OtherKey id)
  | _ => inl malformed
  end.

Definition AppendCertsFromPEM (pool : list bytes) (text : bytes) : list bytes * bool :=
  match Decode text with
  | Some b =>
      match Certificate (blk_Bytes b) with
      | inr _ => (pool ++ [blk_Bytes b], true)
      | inl _ => (pool, false)
      end
  | None => (pool, false)
  end.

Definition Public (k : crypto_Signer) : bytes :=
  match k with
  | RSAKey id => id
  | ECDSAKey id => id
  | OtherKey id => id
  end.

#[export] Instance lib : GoLibrary :=
  {| x509_CertificateRequest := bytes;
     x509_CertPool := list bytes;
     tls_nameIndex := list string;
     strings_TrimSpace := TrimSpace;
     pem_Decode := Decode;
     pem_EncodeToMemory := EncodeToMemory;
     asn1_Certificate := Certificate;
     x509_ParseCertificateRequest := ParseCertificateRequest;
     x509_ParseECPrivateKey := ParseECPrivateKey;
     x509_ParsePKCS1PrivateKey := ParsePKCS1PrivateKey;
     x509_ParsePKCS8PrivateKey := ParsePKCS8PrivateKey;
     x509_NewCertPool := [];
     x509_AppendCertsFromPEM := AppendCertsFromPEM;
     tls_BuildNameToCertificate :=
       fun certs =>
         omap (fun c => Cert_Subject_CommonName <$> tlsCert_Leaf c) certs;
     crypto_Public := Public;
     ComparePublicKeys := fun a b => inr (bool_decide (a = b)) |}.

(** Bundles used in the examples. *)
Definition bundle (key cert : string) (chain : list string) (issuing : string)
    : CertBundle :=
  {| CB_PrivateKeyType := ""; CB_Certificate := cert; CB_IssuingCA := issuing;
     CB_CAChain := chain; CB_PrivateKey := key; CB_SerialNumber := "" |}.

Definition full : CertBundle :=
  bundle "EC PRIVATE KEY:Ek" "CERTIFICATE:1NkA" ["CERTIFICATE:2YAA"] "".

Definition full_parsed : ParsedCertBundle :=
  Eval vm_compute in
    match fst (ToParsedCertBundle (full, [])) with
    | Ok p => p
    | _ => ParsedCertBundle_zero
    end.

Definition full_after : St := Eval vm_compute in snd (ToParsedCertBundle (full, [])).

Definition legacy : CertBundle := bundle "" "CERTIFICATE:1NkA" [] "CERTIFICATE:2YAA".
Definition issuing_only : CertBundle := bundle "" "" [] "CERTIFICATE:2YAA".
Definition certificate_only : CertBundle := bundle "" "CERTIFICATE:1NkA" [] "".
Definition pkcs8_ec : CertBundle := bundle "PRIVATE KEY:8Ek" "" [] "".
Definition bad_certificate : CertBundle := bundle "EC PRIVATE KEY:Ek" "garbage" [] "".

Definition labelled_csr : CSRBundle :=
  {| CSR_PrivateKeyType := ""; CSR_CSR := "garbage";
     CSR_PrivateKey := "EC PRIVATE KEY:Ek" |}.

Definition unlabelled_csr : CSRBundle :=
  {| CSR_PrivateKeyType := ""; CSR_CSR := "garbage"; CSR_PrivateKey := "KEY:Ek" |}.

(** Parsed bundles built by hand: certificates with a serial number at a
    given address, a CA flag and key identifiers. *)
Definition cert (serial : loc) (ca : bool) (ski aki : string) : x509_Certificate :=
  {| Cert_SerialNumber := Some serial; Cert_IsCA := ca;
     Cert_AuthorityKeyId := bytes_of_string aki;
     Cert_SubjectKeyId := bytes_of_string ski;
     Cert_Subject_CommonName := ski;
     Cert_PublicKey := bytes_of_string ski |}.

Definition block (c : x509_Certificate) : option CertBlock :=
  Some {| CertBlock_Certificate := Some c; CertBlock_Bytes := Cert_SubjectKeyId c |}.

Definition parsed (leaf : x509_Certificate) (chain : list (option CertBlock))
    : ParsedCertBundle :=
  PCB_set_CAChain chain
    (PCB_set_Certificate (Some leaf)
       (PCB_set_CertificateBytes (Cert_SubjectKeyId leaf) ParsedCertBundle_zero)).

(** A root whose chain starts with the root itself, the same object, and
    goes on with another entry. *)
Definition self_first : ParsedCertBundle :=
  parsed (cert 0 true "R" "R") [block (cert 0 true "R" "R"); block (cert 1 true "S" "S")].

(** A root and a one-entry chain holding a second copy of it: same serial
    value, another [big.Int]. *)
Definition same_value : ParsedCertBundle :=
  parsed (cert 0 true "R" "R") [block (cert 1 true "R" "R")].

(** A leaf issued by I, and a one-entry chain. *)
Definition leaf_and_ca (ca : bool) (ski : string) : ParsedCertBundle :=
  parsed (cert 0 false "L" "I") [block (cert 1 ca ski ski)].

(** A request bundle with an EC key, and what parsing returns for it. *)
Definition request : CSRBundle :=
  {| CSR_PrivateKeyType := ""; CSR_CSR := "CERTIFICATE REQUEST:Qx";
     CSR_PrivateKey := "EC PRIVATE KEY:Ek" |}.

Definition request_parsed : ParsedCSRBundle :=
  Eval vm_compute in
    match fst (ToParsedCSRBundle request) with
    | Ok p => p
    | _ => ParsedCSRBundle_zero
    end.

(** A leaf certificate with the key of somebody else. *)
Definition mismatched : ParsedCertBundle :=
  PCB_set_PrivateKey (Some (ECDSAKey (bytes_of_string "K")))
    (parsed (cert 0 false "L" "I") []).

(** What [ToCertBundle] gives for the parsed [full]. *)
Definition full_again : CertBundle :=
  Eval vm_compute in
    match ToCertBundle (snd full_after) full_parsed with
    | Ok r => r
    | _ => CertBundle_zero
    end.

End TestLib.

(** * Properties *)

Section facts.
Context {keys : KeyMaterial} {lib : GoLibrary}.

(** ** The trust path *)

Lemma GetCertificatePath_no_chain p :
  PCB_CAChain p = [] -> GetCertificatePath p = Ok [leafBlock p].
Proof. unfold GetCertificatePath. intros ->. reflexivity. Qed.

Lemma big_Int_value_same_pointer (h : heap) (a b : option loc) :
  a = b -> big_Int_value h a = big_Int_value h b.
Proof. congruence. Qed.

(** C1, as the code has it.  Take a bundle with a leaf certificate and a
    chain whose first entry is present.  If the serial number of the first
    entry is the very same [big.Int] object as the leaf's, the chain is
    not appended at all: the path is the leaf alone, of length 1.  If the
    two serial numbers differ in value, the path is the leaf followed by
    the whole chain, of length chain length + 1. *)
Theorem GetCertificatePath_leaf_then_chain (h : heap) p leaf first firstCert rest :
  PCB_Certificate p = Some leaf ->
  PCB_CAChain p = Some first :: rest ->
  CertBlock_Certificate first = Some firstCert ->
  (Cert_SerialNumber firstCert = Cert_SerialNumber leaf ->
     GetCertificatePath p = Ok [leafBlock p]) /\
  (big_Int_value h (Cert_SerialNumber firstCert)
     <> big_Int_value h (Cert_SerialNumber leaf) ->
     GetCertificatePath p = Ok (leafBlock p :: PCB_CAChain p) /\
     length (leafBlock p :: PCB_CAChain p) = S (length (PCB_CAChain p))).
Proof.
  intros Hleaf Hchain Hfirst.
  unfold GetCertificatePath, leafBlock. rewrite Hchain, Hleaf. cbn.
  rewrite Hfirst. cbn.
  split.
  - intros Heq. rewrite bool_decide_eq_false_2; [reflexivity|].
    intros Hne. exact (Hne Heq).
  - intros Hval. rewrite bool_decide_eq_true_2; [split; reflexivity|].
    intros Heq. apply Hval. apply big_Int_value_same_pointer, Heq.
Qed.

(** ** Verify *)

Lemma cert_at_Some path i c :
  cert_at path i = Some c ->
  exists block, path !! i = Some (Some block) /\ CertBlock_Certificate block = Some c.
Proof.
  unfold cert_at. destruct (path !! i) as [[block|]|]; try discriminate.
  intros Hblock. exists block. split; [reflexivity|exact Hblock].
Qed.

(** The walk succeeds when every remaining link is good. *)
Lemma Verify_range_ok path :
  forall rest i,
    rest = drop (S i) path ->
    (forall j, i <= j -> S j < length path ->
       exists child parent,
         cert_at path j = Some child /\ cert_at path (S j) = Some parent /\
         linked child parent) ->
    Verify_range path i rest = Ok tt.
Proof.
  induction rest as [|caCert rest IH]; intros i Hrest Hgood; [reflexivity|].
  assert (Hlook : path !! S i = Some caCert).
  { rewrite <- (Nat.add_0_r (S i)), <- lookup_drop, <- Hrest. reflexivity. }
  assert (Hlt : S i < length path) by (apply lookup_lt_Some in Hlook; exact Hlook).
  destruct (Hgood i (le_n _) Hlt) as (child & parent & Hc & Hp & Hca & Hkey).
  apply cert_at_Some in Hc as (cb & Hcb & Hcc).
  apply cert_at_Some in Hp as (pb & Hpb & Hpc).
  rewrite Hlook in Hpb. injection Hpb as ->.
  cbn. rewrite Hpc. cbn. rewrite Hca. cbn.
  unfold index. rewrite Hcb. cbn. rewrite Hcc. cbn.
  unfold bytes_Equal. rewrite bool_decide_eq_true_2 by exact Hkey. cbn.
  replace (i + 1) with (S i) by lia.
  apply IH.
  - replace (S (S i)) with (S i + 1) by lia.
    rewrite <- drop_drop, <- Hrest. reflexivity.
  - intros j Hj Hlen. apply Hgood; lia.
Qed.

(** The walk stops at the first bad link [k], with the error of the check
    that fails there. *)
Lemma Verify_range_first_bad path k child parent :
  cert_at path k = Some child ->
  cert_at path (S k) = Some parent ->
  forall rest i,
    rest = drop (S i) path ->
    i <= k ->
    (forall j, i <= j -> j < k ->
       exists c q, cert_at path j = Some c /\ cert_at path (S j) = Some q /\ linked c q) ->
    Verify_range path i rest =
      if negb (Cert_IsCA parent) then Err (not_a_CA (S k))
      else if negb (bytes_Equal (Cert_AuthorityKeyId child) (Cert_SubjectKeyId parent))
           then Err (bad_trust_path (S k) child parent)
           else Verify_range path (S k) (drop (S (S k)) path).
Proof.
  intros Hchild Hparent.
  induction rest as [|caCert rest IH]; intros i Hrest Hik Hgood.
  - exfalso. apply cert_at_Some in Hparent as (pb & Hpb & _).
    apply lookup_lt_Some in Hpb.
    assert (Hnil : length (drop (S i) path) = 0) by (rewrite <- Hrest; reflexivity).
    rewrite length_drop in Hnil. lia.
  - assert (Hlook : path !! S i = Some caCert).
    { rewrite <- (Nat.add_0_r (S i)), <- lookup_drop, <- Hrest. reflexivity. }
    assert (Hrest' : rest = drop (S (S i)) path).
    { replace (S (S i)) with (S i + 1) by lia.
      rewrite <- drop_drop, <- Hrest. reflexivity. }
    destruct (decide (i = k)) as [->|Hne].
    + apply cert_at_Some in Hchild as (cb & Hcb & Hcc).
      apply cert_at_Some in Hparent as (pb & Hpb & Hpc).
      rewrite Hlook in Hpb. injection Hpb as ->.
      cbn. rewrite Hpc. cbn.
      replace (k + 1) with (S k) by lia.
      destruct (Cert_IsCA parent); cbn; [|reflexivity].
      unfold index. rewrite Hcb. cbn. rewrite Hcc. cbn.
      destruct (bytes_Equal _ _); cbn; [|reflexivity].
      rewrite Hrest'. reflexivity.
    + destruct (Hgood i (le_n _) ltac:(lia)) as (c & q & Hc & Hq & Hca & Hkey).
      apply cert_at_Some in Hc as (cb & Hcb & Hcc).
      apply cert_at_Some in Hq as (qb & Hqb & Hqc).
      rewrite Hlook in Hqb. injection Hqb as ->.
      cbn. rewrite Hqc. cbn. rewrite Hca. cbn.
      unfold index. rewrite Hcb. cbn. rewrite Hcc. cbn.
      unfold bytes_Equal at 1. rewrite bool_decide_eq_true_2 by exact Hkey. cbn.
      replace (i + 1) with (S i) by lia.
      apply IH; [exact Hrest'|lia|]. intros j Hj Hjk. apply Hgood; lia.
Qed.

Lemma Verify_after_key_check p path :
  key_matches p ->
  GetCertificatePath p = Ok path ->
  Verify p =
    if 1 <? length path then Verify_range path 0 (drop 1 path) else Ok tt.
Proof.
  intros Hkey Hpath. unfold Verify. rewrite Hpath.
  destruct (PCB_PrivateKey p) as [key|] eqn:Hk; [|reflexivity].
  destruct (PCB_Certificate p) as [cert|] eqn:Hc; [|reflexivity].
  cbn. rewrite (Hkey key cert Hk Hc). reflexivity.
Qed.

(** C2.  Let the key/certificate check pass and let [path] be the trust
    path.  A one-entry path passes.  Walking the pairs from the leaf, at
    the first pair (child = path[i], parent = path[i+1]) that is not a
    good link, Verify returns the "not a certificate authority" error
    with the parent's position [i+1] when the parent's CA flag is unset,
    and otherwise the trust-path error with the two common names when the
    parent's subject key identifier differs from the child's authority
    key identifier.  When every pair is a good link, Verify returns no
    error. *)
Theorem Verify_chain_linkage p path :
  key_matches p ->
  GetCertificatePath p = Ok path ->
  (length path = 1 -> Verify p = Ok tt) /\
  (forall i child parent,
      cert_at path i = Some child ->
      cert_at path (S i) = Some parent ->
      links_ok_below path i ->
      (Cert_IsCA parent = false -> Verify p = Err (not_a_CA (S i))) /\
      (Cert_IsCA parent = true ->
       Cert_SubjectKeyId parent <> Cert_AuthorityKeyId child ->
       Verify p = Err (bad_trust_path (S i) child parent))) /\
  (links_ok_below path (length path - 1) -> Verify p = Ok tt).
Proof.
  intros Hkey Hpath. rewrite (Verify_after_key_check p path Hkey Hpath).
  split; [|split].
  - intros ->. reflexivity.
  - intros i child parent Hchild Hparent Hbelow.
    assert (Hlen : (1 <? length path) = true).
    { apply cert_at_Some in Hparent as (pb & Hpb & _).
      apply lookup_lt_Some in Hpb. apply Nat.ltb_lt. lia. }
    rewrite Hlen.
    rewrite (Verify_range_first_bad path i child parent Hchild Hparent
               (drop 1 path) 0 eq_refl (Nat.le_0_l _)).
    2:{ intros j _ Hj. apply Hbelow, Hj. }
    split.
    + intros ->. reflexivity.
    + intros -> Hne. cbn. unfold bytes_Equal.
      rewrite bool_decide_eq_false_2; [reflexivity|]. intros Heq. apply Hne. symmetry. exact Heq.
  - intros Hall. destruct (1 <? length path) eqn:Hlen; [|reflexivity].
    apply Verify_range_ok; [reflexivity|].
    intros j _ Hj. apply Hall. lia.
Qed.

(** ** Parsing a string bundle, phase by phase *)

Lemma nonempty_string_false s : nonempty_string s = false <-> s = "".
Proof.
  unfold nonempty_string. destruct s; cbn; split; intros; try reflexivity; try discriminate.
Qed.

Lemma nonempty_string_true s : nonempty_string s = true <-> s <> "".
Proof.
  unfold nonempty_string.
  destruct s; cbn; split; intros; try reflexivity; try discriminate; congruence.
Qed.

Lemma nonempty_false {A} (l : list A) : nonempty l = false <-> l = [].
Proof. destruct l; cbn; split; intros; try reflexivity; try discriminate. Qed.

Lemma nonempty_true {A} (l : list A) : nonempty l = true <-> l <> [].
Proof. destruct l; cbn; split; intros; try reflexivity; try discriminate; congruence. Qed.

Lemma getPKCS8Type_inr bs t :
  getPKCS8Type bs = inr t -> t = ECPrivateKey \/ t = RSAPrivateKey.
Proof.
  unfold getPKCS8Type. destruct (x509_ParsePKCS8PrivateKey bs) as [err|[k|k|k]];
    intros Heq; inversion Heq; auto.
Qed.

Lemma ParsedCertBundle_getSigner_inr p signer :
  ParsedCertBundle_getSigner p = inr signer -> PCB_PrivateKeyBytes p <> [].
Proof.
  unfold ParsedCertBundle_getSigner.
  destruct (nonempty (PCB_PrivateKeyBytes p)) eqn:Hne; cbn; [|discriminate].
  intros _. apply nonempty_true, Hne.
Qed.

Ltac run :=
  unfold ToParsedCertBundle_key, ToParsedCertBundle_certificate, ToParsedCertBundle_chain,
    ToParsedCertBundle_serial, ToParsedCSRBundle_key, ToParsedCSRBundle_csr,
    x509_ParseCertificate, alloc,
    bind, ret, throw, lift, self, set_self, modify, get, fault, read_big_Int in *;
  cbn [fst snd] in *.

(** Resolve a [switch] on string constants. *)
Ltac switch :=
  repeat first
    [ rewrite decide_True by reflexivity
    | rewrite decide_False by discriminate ];
  cbn.

(** The key phase touches nothing but the receiver's type tag, whatever
    its outcome. *)
Lemma ToParsedCertBundle_key_state r c h :
  snd (ToParsedCertBundle_key r (c, h)) = (c, h) \/
  exists t, snd (ToParsedCertBundle_key r (c, h)) = (CB_set_PrivateKeyType t c, h).
Proof.
  run. destruct (nonempty_string (CB_PrivateKey c)); [|left; reflexivity].
  destruct (pem_Decode _) as [blk|]; [|left; reflexivity].
  cbn [PCB_PrivateKeyFormat PCB_set_PrivateKeyFormat PCB_set_PrivateKeyType].
  destruct (decide (_ = ECBlock)).
  { right. exists ECPrivateKey. destruct (ParsedCertBundle_getSigner _); reflexivity. }
  destruct (decide (_ = PKCS1Block)).
  { right. exists RSAPrivateKey. destruct (ParsedCertBundle_getSigner _); reflexivity. }
  destruct (decide (_ = PKCS8Block)); [|left; reflexivity].
  destruct (getPKCS8Type _) as [err|t] eqn:Ht; [left; reflexivity|].
  right. exists t.
  destruct (getPKCS8Type_inr _ _ Ht) as [-> | ->]; switch;
    destruct (ParsedCertBundle_getSigner _); reflexivity.
Qed.

(** Once the block is classified the tag is written, before the signer is
    materialised. *)
Lemma ToParsedCertBundle_key_classified r c h blk t :
  CB_PrivateKey c <> "" ->
  pem_Decode (bytes_of_string (CB_PrivateKey c)) = Some blk ->
  (strings_TrimSpace (blk_Type blk) = ECBlock /\ t = ECPrivateKey) \/
  (strings_TrimSpace (blk_Type blk) = PKCS1Block /\ t = RSAPrivateKey) \/
  (strings_TrimSpace (blk_Type blk) = PKCS8Block /\ getPKCS8Type (blk_Bytes blk) = inr t) ->
  snd (ToParsedCertBundle_key r (c, h)) = (CB_set_PrivateKeyType t c, h) /\
  forall r' s', ToParsedCertBundle_key r (c, h) = (Ok r', s') -> PCB_PrivateKeyType r' = t.
Proof.
  intros Hkey Hdec Hclass. run.
  apply nonempty_string_true in Hkey. rewrite Hkey, Hdec.
  cbn [PCB_PrivateKeyFormat PCB_set_PrivateKeyFormat PCB_set_PrivateKeyType].
  destruct Hclass as [[Hty ->]|[[Hty ->]|[Hty Ht]]]; rewrite Hty; switch.
  - destruct (ParsedCertBundle_getSigner _); cbn; split; try reflexivity;
      intros r' s' Heq; inversion Heq; reflexivity.
  - destruct (ParsedCertBundle_getSigner _); cbn; split; try reflexivity;
      intros r' s' Heq; inversion Heq; reflexivity.
  - rewrite Ht. destruct (getPKCS8Type_inr _ _ Ht) as [-> | ->]; switch;
      destruct (ParsedCertBundle_getSigner _); cbn; split; try reflexivity;
      intros r' s' Heq; inversion Heq; reflexivity.
Qed.

Lemma ToParsedCertBundle_key_pkcs8_Err r c h blk err :
  CB_PrivateKey c <> "" ->
  pem_Decode (bytes_of_string (CB_PrivateKey c)) = Some blk ->
  strings_TrimSpace (blk_Type blk) = PKCS8Block ->
  getPKCS8Type (blk_Bytes blk) = inl err ->
  ToParsedCertBundle_key r (c, h) =
    (Err (UserError ("Error getting key type from pkcs#8: " +:+ Error err)), (c, h)).
Proof.
  intros Hkey Hdec Hty Ht. run.
  apply nonempty_string_true in Hkey. rewrite Hkey, Hdec.
  cbn [PCB_PrivateKeyFormat PCB_set_PrivateKeyFormat PCB_set_PrivateKeyType].
  rewrite Hty. switch. rewrite Ht. reflexivity.
Qed.

Lemma ToParsedCertBundle_key_Ok r c h r' s' :
  ToParsedCertBundle_key r (c, h) = (Ok r', s') ->
  (CB_PrivateKey c = "" /\ r' = r /\ s' = (c, h)) \/
  (CB_PrivateKey c <> "" /\
   exists blk t signer,
     pem_Decode (bytes_of_string (CB_PrivateKey c)) = Some blk /\
     blk_Bytes blk <> [] /\
     strings_TrimSpace (blk_Type blk) <> "" /\
     r' = PCB_set_PrivateKey (Some signer)
            (PCB_set_PrivateKeyType t
               (PCB_set_PrivateKeyFormat (strings_TrimSpace (blk_Type blk))
                  (PCB_set_PrivateKeyBytes (blk_Bytes blk) r))) /\
     s' = (CB_set_PrivateKeyType t c, h)).
Proof.
  run. destruct (nonempty_string (CB_PrivateKey c)) eqn:Hkey.
  2:{ intros Heq. inversion Heq. left. apply nonempty_string_false in Hkey. auto. }
  apply nonempty_string_true in Hkey.
  destruct (pem_Decode _) as [blk|] eqn:Hdec; [|discriminate].
  cbn [PCB_PrivateKeyFormat PCB_set_PrivateKeyFormat PCB_set_PrivateKeyType].
  assert (Hsigner : forall res o,
    match ParsedCertBundle_getSigner res with
    | inl err => throw (UserError ("Error getting signer: " +:+ Error err))
    | inr signer => ret (PCB_set_PrivateKey (Some signer) res)
    end o = (Ok r', s') ->
    PCB_PrivateKeyBytes res <> [] /\
    exists signer, r' = PCB_set_PrivateKey (Some signer) res /\ s' = o).
  { intros res o Hm. unfold throw, ret in Hm.
    destruct (ParsedCertBundle_getSigner res) as [err|signer] eqn:Hs; [discriminate|].
    apply ParsedCertBundle_getSigner_inr in Hs.
    inversion Hm. eauto. }
  destruct (decide (_ = ECBlock)) as [Hec|Hnec].
  { intros Hrun. apply Hsigner in Hrun as (Hne & signer & -> & ->).
    right. split; [exact Hkey|]. exists blk, ECPrivateKey, signer.
    rewrite Hec. repeat split; try reflexivity; try exact Hne. discriminate. }
  destruct (decide (_ = PKCS1Block)) as [Hp1|Hnp1].
  { intros Hrun. apply Hsigner in Hrun as (Hne & signer & -> & ->).
    right. split; [exact Hkey|]. exists blk, RSAPrivateKey, signer.
    rewrite Hp1. repeat split; try reflexivity; try exact Hne. discriminate. }
  destruct (decide (_ = PKCS8Block)) as [Hp8|Hnp8]; [|discriminate].
  destruct (getPKCS8Type (blk_Bytes blk)) as [err|t] eqn:Ht; [discriminate|].
  destruct (getPKCS8Type_inr _ _ Ht) as [->| ->]; cbn;
    intros Hrun; apply Hsigner in Hrun as (Hne & signer & -> & ->);
    right; (split; [exact Hkey|]).
  - exists blk, ECPrivateKey, signer.
    rewrite Hp8. repeat split; try reflexivity; try exact Hne. discriminate.
  - exists blk, RSAPrivateKey, signer.
    rewrite Hp8. repeat split; try reflexivity; try exact Hne. discriminate.
Qed.

(** The later phases leave the receiver alone, but for the serial number. *)
Lemma ToParsedCertBundle_certificate_self r s :
  fst (snd (ToParsedCertBundle_certificate r s)) = fst s.
Proof.
  run. destruct (nonempty_string _); [|reflexivity].
  destruct (pem_Decode _); [|reflexivity].
  destruct (asn1_Certificate _); reflexivity.
Qed.

Lemma ToParsedCertBundle_range_self certs :
  forall r s, fst (snd (ToParsedCertBundle_range certs r s)) = fst s.
Proof.
  induction certs as [|cert certs IH]; intros r s; [reflexivity|].
  cbn. destruct (pem_Decode _); [|reflexivity].
  run. destruct (asn1_Certificate _); [reflexivity|].
  rewrite IH. reflexivity.
Qed.

Lemma ToParsedCertBundle_chain_self r s :
  fst (snd (ToParsedCertBundle_chain r s)) = fst s.
Proof.
  run. destruct (nonempty _); [apply ToParsedCertBundle_range_self|].
  destruct (nonempty_string _); [|reflexivity].
  destruct (pem_Decode _); [|reflexivity].
  destruct (asn1_Certificate _); [reflexivity|].
  cbn. destruct (PCB_Certificate r); reflexivity.
Qed.

Lemma ToParsedCertBundle_serial_tag r s :
  CB_PrivateKeyType (fst (snd (ToParsedCertBundle_serial r s))) = CB_PrivateKeyType (fst s).
Proof.
  run. destruct (_ && _); [|reflexivity].
  destruct (PCB_Certificate r) as [leaf|]; cbn; [|reflexivity].
  destruct (big_Int_value _ _); reflexivity.
Qed.

(** The receiver's tag after the whole call is the one the key phase left. *)
Lemma ToParsedCertBundle_tag s :
  CB_PrivateKeyType (fst (snd (ToParsedCertBundle s))) =
  CB_PrivateKeyType (fst (snd (ToParsedCertBundle_key ParsedCertBundle_zero s))).
Proof.
  unfold ToParsedCertBundle, bind, ret.
  destruct (ToParsedCertBundle_key _ s) as [[r1| |] s1]; try reflexivity.
  pose proof (ToParsedCertBundle_certificate_self r1 s1) as H2.
  destruct (ToParsedCertBundle_certificate r1 s1) as [[r2| |] s2]; cbn [fst snd] in *;
    try (rewrite H2; reflexivity).
  pose proof (ToParsedCertBundle_chain_self r2 s2) as H3.
  destruct (ToParsedCertBundle_chain r2 s2) as [[r3| |] s3]; cbn [fst snd] in *;
    try (rewrite H3, H2; reflexivity).
  pose proof (ToParsedCertBundle_serial_tag r3 s3) as H4.
  destruct (ToParsedCertBundle_serial r3 s3) as [[[]| |] s4]; cbn [fst snd] in *;
    rewrite H4, H3, H2; reflexivity.
Qed.

Lemma ToParsedCertBundle_certificate_Ok r c h r' s' :
  ToParsedCertBundle_certificate r (c, h) = (Ok r', s') ->
  (CB_Certificate c = "" /\ r' = r /\ s' = (c, h)) \/
  (CB_Certificate c <> "" /\
   exists blk tbs,
     pem_Decode (bytes_of_string (CB_Certificate c)) = Some blk /\
     asn1_Certificate (blk_Bytes blk) = inr tbs /\
     r' = PCB_set_Certificate (Some (certificate_at (length h) tbs))
            (PCB_set_CertificateBytes (blk_Bytes blk) r) /\
     s' = (c, h ++ [tbs_SerialNumber tbs])).
Proof.
  run. destruct (nonempty_string (CB_Certificate c)) eqn:Hc.
  2:{ intros Heq. inversion Heq. left. apply nonempty_string_false in Hc. auto. }
  apply nonempty_string_true in Hc.
  destruct (pem_Decode _) as [blk|] eqn:Hdec; [|discriminate].
  cbn [PCB_CertificateBytes PCB_set_CertificateBytes].
  destruct (asn1_Certificate _) as [err|tbs] eqn:Hasn; [discriminate|].
  intros Heq. inversion Heq. right. split; [exact Hc|]. exists blk, tbs. auto.
Qed.

Lemma PCB_set_CAChain_id r :
  PCB_set_CAChain (PCB_CAChain r ++ []) r = r.
Proof. destruct r. unfold PCB_set_CAChain. cbn. rewrite app_nil_r. reflexivity. Qed.

Lemma ToParsedCertBundle_range_Ok certs :
  forall r c h r' s',
    ToParsedCertBundle_range certs r (c, h) = (Ok r', s') ->
    exists blocks ext,
      Forall2 parsed_block certs blocks /\
      r' = PCB_set_CAChain (PCB_CAChain r ++ map Some blocks) r /\
      s' = (c, h ++ ext).
Proof.
  induction certs as [|cert certs IH]; intros r c h r' s'.
  - cbn. unfold ret. intros Heq. inversion Heq. exists [], [].
    cbn. rewrite PCB_set_CAChain_id, app_nil_r. auto.
  - cbn. destruct (pem_Decode _) as [blk|] eqn:Hdec; [|discriminate].
    run. destruct (asn1_Certificate _) as [err|tbs] eqn:Hasn; [discriminate|].
    intros Hrun. apply IH in Hrun as (blocks & ext & Hall & -> & ->).
    eexists (_ :: blocks), (_ :: ext). split; [|split].
    + constructor; [|exact Hall]. eexists blk, _. split; [exact Hdec|reflexivity].
    + unfold PCB_set_CAChain. cbn. rewrite <- app_assoc. reflexivity.
    + rewrite <- app_assoc. reflexivity.
Qed.

Lemma ToParsedCertBundle_chain_Ok r c h r' s' :
  ToParsedCertBundle_chain r (c, h) = (Ok r', s') ->
  exists blocks ext,
    Forall2 parsed_block (chain_texts c) blocks /\
    r' = PCB_set_CAChain (PCB_CAChain r ++ map Some blocks)
           (PCB_set_SerialNumber (serial_after_chain c r) r) /\
    s' = (c, h ++ ext).
Proof.
  unfold chain_texts, serial_after_chain. run. destruct (nonempty (CB_CAChain c)).
  { intros Hrun. apply ToParsedCertBundle_range_Ok in Hrun as (blocks & ext & Hall & -> & ->).
    exists blocks, ext. split; [exact Hall|]. split; [|reflexivity].
    destruct r; reflexivity. }
  destruct (nonempty_string (CB_IssuingCA c)).
  2:{ intros [= <- <-]. exists [], [].
      cbn [map]. rewrite !app_nil_r. split; [constructor|]. split; [|reflexivity].
      destruct r; reflexivity. }
  destruct (pem_Decode _) as [blk|] eqn:Hdec; [|discriminate].
  destruct (asn1_Certificate _) as [err|tbs] eqn:Hasn; [discriminate|].
  cbn. destruct (PCB_Certificate r) as [leaf|]; cbn; [|discriminate].
  intros Heq. inversion Heq.
  eexists [_], [_]. split; [|split; reflexivity].
  constructor; [|constructor]. eexists blk, _. split; [exact Hdec|reflexivity].
Qed.

Lemma ToParsedCertBundle_serial_Ok r c h s' :
  ToParsedCertBundle_serial r (c, h) = (Ok tt, s') ->
  (CB_SerialNumber c = "" /\ CB_Certificate c <> "" /\
   exists leaf v,
     PCB_Certificate r = Some leaf /\
     big_Int_value h (Cert_SerialNumber leaf) = Ok v /\
     s' = (CB_set_SerialNumber (GetHexFormatted (big_Int_Bytes v) ":") c, h)) \/
  ((CB_SerialNumber c <> "" \/ CB_Certificate c = "") /\ s' = (c, h)).
Proof.
  run. destruct (String.length (CB_SerialNumber c) =? 0) eqn:Hs; cbn [andb].
  2:{ intros Heq. inversion Heq. right. split; [|reflexivity]. left.
      intros Hnil. rewrite Hnil in Hs. discriminate. }
  destruct (nonempty_string (CB_Certificate c)) eqn:Hc.
  2:{ intros Heq. inversion Heq. right. split; [|reflexivity]. right.
      apply nonempty_string_false, Hc. }
  destruct (PCB_Certificate r) as [leaf|]; cbn; [|discriminate].
  destruct (big_Int_value h _) as [v| |] eqn:Hv; try discriminate.
  intros Heq. inversion Heq. left.
  split. { destruct (CB_SerialNumber c); [reflexivity|discriminate]. }
  split. { apply nonempty_string_true, Hc. }
  exists leaf, v. auto.
Qed.

(** What a successful parse returns, field by field. *)
Lemma ToParsedCertBundle_Ok b h0 p b' h :
  ToParsedCertBundle (b, h0) = (Ok p, (b', h)) ->
  ((CB_PrivateKey b = "" /\ PCB_PrivateKeyBytes p = []) \/
   (CB_PrivateKey b <> "" /\
    exists blk,
      pem_Decode (bytes_of_string (CB_PrivateKey b)) = Some blk /\
      blk_Bytes blk <> [] /\
      PCB_PrivateKeyBytes p = blk_Bytes blk /\
      PCB_PrivateKeyFormat p = strings_TrimSpace (blk_Type blk) /\
      PCB_PrivateKeyFormat p <> "" /\
      CB_PrivateKeyType b' = PCB_PrivateKeyType p)) /\
  ((CB_Certificate b = "" /\ PCB_CertificateBytes p = [] /\ PCB_Certificate p = None) \/
   (CB_Certificate b <> "" /\
    exists blk tbs l,
      pem_Decode (bytes_of_string (CB_Certificate b)) = Some blk /\
      asn1_Certificate (blk_Bytes blk) = inr tbs /\
      PCB_CertificateBytes p = blk_Bytes blk /\
      PCB_Certificate p = Some (certificate_at l tbs) /\
      h !! l = Some (tbs_SerialNumber tbs) /\
      (CB_SerialNumber b = "" ->
       CB_SerialNumber b' = GetHexFormatted (big_Int_Bytes (tbs_SerialNumber tbs)) ":"))) /\
  (exists blocks,
     Forall2 parsed_block (chain_texts b) blocks /\ PCB_CAChain p = map Some blocks) /\
  PCB_SerialNumber p =
    (if nonempty (CB_CAChain b) then None
     else if nonempty_string (CB_IssuingCA b) then
       match PCB_Certificate p with
       | Some leaf => Cert_SerialNumber leaf
       | None => None
       end
     else None).
Proof.
  unfold ToParsedCertBundle, bind, ret. intros Hrun.
  destruct (ToParsedCertBundle_key _ _) as [[r1| |] s1] eqn:H1; try discriminate.
  destruct (ToParsedCertBundle_certificate r1 s1) as [[r2| |] s2] eqn:H2; try discriminate.
  destruct (ToParsedCertBundle_chain r2 s2) as [[r3| |] s3] eqn:H3; try discriminate.
  destruct (ToParsedCertBundle_serial r3 s3) as [[[]| |] s4] eqn:H4; try discriminate.
  injection Hrun as -> ->.
  assert (Hb1 : exists c1, s1 = (c1, h0) /\
            CB_Certificate c1 = CB_Certificate b /\ CB_CAChain c1 = CB_CAChain b /\
            CB_IssuingCA c1 = CB_IssuingCA b /\ CB_SerialNumber c1 = CB_SerialNumber b).
  { destruct (ToParsedCertBundle_key_state ParsedCertBundle_zero b h0) as [Hs|[t Hs]];
      rewrite H1 in Hs; cbn in Hs; subst s1; eauto 10. }
  destruct Hb1 as (c1 & -> & Hcert & Hchain & Hissuing & Hserial).
  assert (Hkeytag : forall r', ToParsedCertBundle_key ParsedCertBundle_zero (b, h0)
                               = (Ok r', (c1, h0)) ->
                    CB_PrivateKey b <> "" -> CB_PrivateKeyType c1 = PCB_PrivateKeyType r').
  { intros r' Hk Hne. apply ToParsedCertBundle_key_Ok in Hk as [[Hnil _]|(_ & blk & t & sg & _ & _ & _ & -> & Heq)].
    - contradiction.
    - injection Heq as ->. reflexivity. }
  specialize (Hkeytag r1 H1).
  assert (Hkey : (CB_PrivateKey b = "" /\ r1 = ParsedCertBundle_zero) \/
                 (CB_PrivateKey b <> "" /\
                  exists blk t signer,
                    pem_Decode (bytes_of_string (CB_PrivateKey b)) = Some blk /\
                    blk_Bytes blk <> [] /\
                    strings_TrimSpace (blk_Type blk) <> "" /\
                    r1 = PCB_set_PrivateKey (Some signer)
                           (PCB_set_PrivateKeyType t
                              (PCB_set_PrivateKeyFormat (strings_TrimSpace (blk_Type blk))
                                 (PCB_set_PrivateKeyBytes (blk_Bytes blk)
                                    ParsedCertBundle_zero))))).
  { apply ToParsedCertBundle_key_Ok in H1 as [(Hnil & -> & _)|(Hne & blk & t & sg & Hk)].
    - left. auto.
    - right. split; [exact Hne|]. exists blk, t, sg. tauto. }
  clear H1.
  assert (Hcrt : exists h2,
            s2 = (c1, h2) /\
            ((CB_Certificate b = "" /\ r2 = r1 /\ h2 = h0) \/
             (CB_Certificate b <> "" /\
              exists blk tbs,
                pem_Decode (bytes_of_string (CB_Certificate b)) = Some blk /\
                asn1_Certificate (blk_Bytes blk) = inr tbs /\
                r2 = PCB_set_Certificate (Some (certificate_at (length h0) tbs))
                       (PCB_set_CertificateBytes (blk_Bytes blk) r1) /\
                h2 = h0 ++ [tbs_SerialNumber tbs]))).
  { apply ToParsedCertBundle_certificate_Ok in H2.
    rewrite Hcert in H2.
    destruct H2 as [(Hnil & -> & ->)|(Hne & blk & tbs & Hd & Ha & -> & ->)].
    - exists h0. split; [reflexivity|]. left. auto.
    - eexists. split; [reflexivity|]. right. split; [exact Hne|]. exists blk, tbs. auto. }
  clear H2. destruct Hcrt as (h2 & -> & Hcrt).
  apply ToParsedCertBundle_chain_Ok in H3 as (blocks & ext & Hblocks & -> & ->).
  assert (Htexts : chain_texts c1 = chain_texts b).
  { unfold chain_texts. rewrite Hchain, Hissuing. reflexivity. }
  rewrite Htexts in Hblocks. clear Htexts.
  apply ToParsedCertBundle_serial_Ok in H4.
  rewrite Hserial, Hcert in H4.
  split; [|split; [|split]].
  - destruct Hkey as [[Hnil ->]|(Hne & blk & t & sg & Hd & Hbytes & Hfmt & ->)].
    + left. split; [exact Hnil|].
      destruct Hcrt as [(_ & -> & _)|(_ & blk & tbs & _ & _ & -> & _)]; reflexivity.
    + right. split; [exact Hne|]. exists blk.
      assert (Htag : CB_PrivateKeyType b' = t).
      { specialize (Hkeytag Hne). cbn in Hkeytag. rewrite <- Hkeytag.
        destruct H4 as [(_ & _ & leaf & v & _ & _ & Hs4)|[_ Hs4]];
          injection Hs4 as -> _; reflexivity. }
      destruct Hcrt as [(_ & -> & _)|(_ & blk' & tbs & _ & _ & -> & _)];
        cbn; auto 10.
  - destruct Hcrt as [(Hnil & -> & ->)|(Hne & blk & tbs & Hd & Ha & -> & ->)].
    + left. split; [exact Hnil|].
      destruct Hkey as [[_ ->]|(_ & kb & t & sg & _ & _ & _ & ->)]; cbn; auto.
    + right. split; [exact Hne|]. exists blk, tbs, (length h0).
      assert (Hlook : forall ext', ((h0 ++ [tbs_SerialNumber tbs]) ++ ext') !! length h0
                         = Some (tbs_SerialNumber tbs)).
      { intros ext'. rewrite lookup_app_l by (rewrite length_app; cbn; lia).
        rewrite lookup_app_r by lia. rewrite Nat.sub_diag. reflexivity. }
      repeat split; try assumption; try reflexivity.
      * destruct H4 as [(_ & _ & leaf & v & _ & _ & Hs4)|[_ Hs4]];
          injection Hs4 as _ ->; apply Hlook.
      * intros Hempty.
        destruct H4 as [(_ & _ & leaf & v & Hleaf & Hv & Hs4)|[[Hs|Hc] _]];
          [|contradiction..].
        injection Hs4 as -> _. cbn in Hleaf. injection Hleaf as <-.
        cbn in Hv. unfold big_Int_value in Hv. cbn in Hv.
        rewrite Hlook in Hv. cbn in Hv. injection Hv as <-. reflexivity.
  - exists blocks. split; [exact Hblocks|].
    destruct Hcrt as [(_ & -> & _)|(_ & blk & tbs & _ & _ & -> & _)];
      destruct Hkey as [[_ ->]|(_ & kb & t & sg & _ & _ & _ & ->)]; reflexivity.
  - unfold serial_after_chain. rewrite Hchain, Hissuing.
    destruct (nonempty (CB_CAChain b)); destruct (nonempty_string (CB_IssuingCA b));
      destruct Hcrt as [(_ & -> & _)|(_ & blk & tbs & _ & _ & -> & _)];
      destruct Hkey as [[_ ->]|(_ & kb & t & sg & _ & _ & _ & ->)]; reflexivity.
Qed.

(** ** Re-encoding a parsed bundle *)

Lemma ToCertBundle_range_Some blocks :
  forall result,
    ToCertBundle_range (map Some blocks) result =
      Ok (CB_set_CAChain
            (CB_CAChain result ++
             map (fun b => encode_trimmed "CERTIFICATE" (CertBlock_Bytes b)) blocks)
            result).
Proof.
  induction blocks as [|block blocks IH]; intros result; cbn.
  - rewrite app_nil_r. destruct result; reflexivity.
  - rewrite IH. unfold CB_set_CAChain. cbn. rewrite <- app_assoc. reflexivity.
Qed.

Lemma ToCertBundle_range_no_error chain :
  forall result e, ToCertBundle_range chain result <> Err e.
Proof.
  induction chain as [|[block|] chain IH]; intros result e; cbn; try discriminate.
  apply IH.
Qed.

(** [ToCertBundle] has no error return. *)
Lemma ToCertBundle_no_error h p e : ToCertBundle h p <> Err e.
Proof.
  unfold ToCertBundle.
  destruct (PCB_Certificate p) as [cert|]; cbn.
  - unfold big_Int_value.
    destruct (Cert_SerialNumber cert) as [l|]; cbn; [|discriminate].
    destruct (h !! l); cbn; [|discriminate].
    pose proof (ToCertBundle_range_no_error (PCB_CAChain p)) as Hr.
    destruct (ToCertBundle_range _ _) eqn:Hrange; cbn; try discriminate.
    exfalso. eapply Hr. exact Hrange.
  - pose proof (ToCertBundle_range_no_error (PCB_CAChain p)) as Hr.
    destruct (ToCertBundle_range _ _) eqn:Hrange; cbn; try discriminate.
    exfalso. eapply Hr. exact Hrange.
Qed.

Lemma ToCertBundle_Ok h p blocks :
  PCB_CAChain p = map Some blocks ->
  serial_readable h p ->
  exists r,
    ToCertBundle h p = Ok r /\
    CB_CAChain r = map (fun b => encode_trimmed "CERTIFICATE" (CertBlock_Bytes b)) blocks /\
    CB_Certificate r =
      (if nonempty (PCB_CertificateBytes p)
       then encode_trimmed "CERTIFICATE" (PCB_CertificateBytes p) else "") /\
    (forall cert v,
       PCB_Certificate p = Some cert ->
       big_Int_value h (Cert_SerialNumber cert) = Ok v ->
       CB_SerialNumber r = strings_TrimSpace (GetHexFormatted (big_Int_Bytes v) ":")) /\
    (PCB_PrivateKeyBytes p = [] -> CB_PrivateKey r = "") /\
    (PCB_PrivateKeyBytes p <> [] ->
     CB_PrivateKeyType r = PCB_PrivateKeyType p /\
     (PCB_PrivateKeyFormat p <> "" ->
      CB_PrivateKey r = encode_trimmed (PCB_PrivateKeyFormat p) (PCB_PrivateKeyBytes p))).
Proof.
  intros Hchain Hserial. unfold ToCertBundle. rewrite Hchain.
  assert (Hkeyfmt : PCB_PrivateKeyFormat p <> "" ->
            (if decide (PCB_PrivateKeyFormat p = "")
             then if decide (PCB_PrivateKeyType p = ECPrivateKey) then ECBlock
                  else if decide (PCB_PrivateKeyType p = RSAPrivateKey) then PKCS1Block
                       else PCB_PrivateKeyFormat p
             else PCB_PrivateKeyFormat p) = PCB_PrivateKeyFormat p).
  { intros Hne. rewrite decide_False by exact Hne. reflexivity. }
  destruct (nonempty (PCB_PrivateKeyBytes p)) eqn:Hk;
    destruct (nonempty (PCB_CertificateBytes p)) eqn:Hc;
    destruct (PCB_Certificate p) as [cert|] eqn:Hcert; cbn;
    try (destruct (Hserial cert Hcert) as [v Hv]; rewrite Hv; cbn);
    rewrite ToCertBundle_range_Some; cbn;
    (eexists; split; [reflexivity|]); cbn;
    (split; [reflexivity|]); (split; [reflexivity|]);
    (split;
     [first [ intros cert' v' [= <-] Hv'; rewrite Hv in Hv'; injection Hv' as <-; reflexivity
            | intros cert' v' [=] ]|]);
    split; intros Hb;
    try (apply nonempty_true in Hk; contradiction);
    try (apply nonempty_false in Hk; contradiction);
    try reflexivity;
    (split; [reflexivity|]); intros Hf; rewrite (Hkeyfmt Hf); reflexivity.
Qed.

(** ** Round trip *)

Lemma trimmed_empty : trimmed "" = "".
Proof. reflexivity. Qed.

Lemma trimmed_nonempty text : text <> "" -> trimmed text = strings_TrimSpace text.
Proof. intros Hne. unfold trimmed. apply nonempty_string_true in Hne. rewrite Hne. reflexivity. Qed.

Lemma canonical_chain_texts b :
  canonical_bundle b -> Forall (canonical_pem "CERTIFICATE") (chain_texts b).
Proof.
  intros (_ & _ & _ & Hchain & Hissuing). unfold chain_texts.
  destruct (nonempty (CB_CAChain b)); [exact Hchain|].
  destruct (nonempty_string (CB_IssuingCA b)); repeat constructor. exact Hissuing.
Qed.

Lemma encode_parsed_blocks texts blocks :
  Forall2 parsed_block texts blocks ->
  Forall (canonical_pem "CERTIFICATE") texts ->
  map (fun b => encode_trimmed "CERTIFICATE" (CertBlock_Bytes b)) blocks
    = map strings_TrimSpace texts.
Proof.
  induction 1 as [|text block texts blocks (blk & cert & Hdec & ->) _ IH];
    intros Hcanon; [reflexivity|].
  apply Forall_cons in Hcanon as [Hhead Htail].
  cbn. rewrite (Hhead blk Hdec), (IH Htail). reflexivity.
Qed.

(** C3, as the code has it.  Let ToParsedCertBundle succeed on [b], and let
    the PEM texts of [b] be canonical: each text, trimmed, is what the
    encoder gives for its decoded payload under the label CERTIFICATE (for
    the key: under its own trimmed label), and the certificate payload is
    not empty.  Then ToCertBundle succeeds on the result, its certificate
    and private-key texts are those of [b] trimmed, its CA chain is the
    trimmed chain of [b] or, when [b] has no chain, the trimmed legacy
    issuing CA alone, its key type is the one written back into [b], and
    its serial number is, trimmed, the one written back into [b] when the
    serial field of [b] was empty. *)
Theorem ToCertBundle_ToParsedCertBundle b h0 p b' h :
  ToParsedCertBundle (b, h0) = (Ok p, (b', h)) ->
  canonical_bundle b ->
  exists r,
    ToCertBundle h p = Ok r /\
    CB_Certificate r = trimmed (CB_Certificate b) /\
    CB_PrivateKey r = trimmed (CB_PrivateKey b) /\
    CB_CAChain r = map strings_TrimSpace (chain_texts b) /\
    (CB_PrivateKey b <> "" -> CB_PrivateKeyType r = CB_PrivateKeyType b') /\
    (CB_Certificate b <> "" -> CB_SerialNumber b = "" ->
     CB_SerialNumber r = strings_TrimSpace (CB_SerialNumber b')).
Proof.
  intros Hrun Hcanon.
  pose proof (canonical_chain_texts b Hcanon) as Htexts.
  destruct Hcanon as (Hckey & Hccert & Hcbytes & _ & _).
  apply ToParsedCertBundle_Ok in Hrun as (Hkey & Hcert & (blocks & Hblocks & Hchain) & _).
  assert (Hread : serial_readable h p).
  { intros cert Hc.
    destruct Hcert as [(_ & _ & Hnone)|(_ & blk & tbs & l & _ & _ & _ & Hsome & Hl & _)].
    - rewrite Hnone in Hc. discriminate.
    - rewrite Hsome in Hc. injection Hc as <-. exists (tbs_SerialNumber tbs).
      unfold big_Int_value. cbn. rewrite Hl. reflexivity. }
  destruct (ToCertBundle_Ok h p blocks Hchain Hread)
    as (r & Hr & Hrchain & Hrcert & Hrserial & Hrnokey & Hrkey).
  exists r. split; [exact Hr|].
  split; [|split; [|split; [|split]]].
  - rewrite Hrcert.
    destruct Hcert as [(-> & -> & _)|(Hne & blk & tbs & l & Hdec & _ & -> & _)].
    + reflexivity.
    + rewrite (trimmed_nonempty _ Hne).
      pose proof (Hcbytes blk Hdec) as Hbytes. apply nonempty_true in Hbytes.
      rewrite Hbytes. apply Hccert, Hdec.
  - destruct Hkey as [(-> & Hnil)|(Hne & blk & Hdec & Hbytes & Hpb & Hfmt & Hfne & _)].
    + rewrite (Hrnokey Hnil). reflexivity.
    + rewrite (trimmed_nonempty _ Hne).
      rewrite <- Hpb in Hbytes. destruct (Hrkey Hbytes) as [_ Henc].
      rewrite (Henc Hfne), Hfmt, Hpb. apply Hckey, Hdec.
  - rewrite Hrchain. apply encode_parsed_blocks; assumption.
  - intros Hne.
    destruct Hkey as [(Hnil & _)|(_ & blk & Hdec & Hbytes & Hpb & _ & _ & Htag)];
      [contradiction|].
    rewrite <- Hpb in Hbytes. destruct (Hrkey Hbytes) as [Hty _]. congruence.
  - intros Hne Hempty.
    destruct Hcert as [(Hnil & _)|(_ & blk & tbs & l & _ & _ & _ & Hsome & Hl & Hback)];
      [contradiction|].
    rewrite (Hback Hempty).
    apply (Hrserial _ _ Hsome). unfold big_Int_value. cbn. rewrite Hl. reflexivity.
Qed.

(** ** PKCS#8 keys *)

(** C5.  The private key of the bundle decodes to a block whose trimmed
    label is the PKCS#8 one.  If the structural decode of the payload
    fails, ToParsedCertBundle returns a user-input error that carries the
    decoder's message, and so it does when the wrapped key is neither RSA
    nor EC.  If the wrapped key is EC (resp. RSA), the type tag of the
    input bundle is ec (resp. rsa) when the call returns, whatever the
    tag was before, and so is the key type of the parsed bundle when one
    is returned. *)
Theorem ToParsedCertBundle_pkcs8 c h blk :
  CB_PrivateKey c <> "" ->
  pem_Decode (bytes_of_string (CB_PrivateKey c)) = Some blk ->
  strings_TrimSpace (blk_Type blk) = PKCS8Block ->
  match x509_ParsePKCS8PrivateKey (blk_Bytes blk) with
  | inl err =>
      ToParsedCertBundle (c, h) =
        (Err (UserError ("Error getting key type from pkcs#8: " +:+
                         "Failed to parse pkcs#8 key: " +:+ Error err)), (c, h))
  | inr (OtherKey _) =>
      ToParsedCertBundle (c, h) =
        (Err (UserError ("Error getting key type from pkcs#8: " +:+
                         "Found unknown private key type in pkcs#8 wrapping")), (c, h))
  | inr (ECDSAKey _) =>
      CB_PrivateKeyType (fst (snd (ToParsedCertBundle (c, h)))) = ECPrivateKey /\
      forall p s, ToParsedCertBundle (c, h) = (Ok p, s) -> PCB_PrivateKeyType p = ECPrivateKey
  | inr (RSAKey _) =>
      CB_PrivateKeyType (fst (snd (ToParsedCertBundle (c, h)))) = RSAPrivateKey /\
      forall p s, ToParsedCertBundle (c, h) = (Ok p, s) -> PCB_PrivateKeyType p = RSAPrivateKey
  end.
Proof.
  intros Hkey Hdec Hty.
  assert (Htagged : forall t,
            getPKCS8Type (blk_Bytes blk) = inr t ->
            CB_PrivateKeyType (fst (snd (ToParsedCertBundle (c, h)))) = t /\
            forall p s, ToParsedCertBundle (c, h) = (Ok p, s) -> PCB_PrivateKeyType p = t).
  { intros t Ht.
    assert (Htag : CB_PrivateKeyType (fst (snd (ToParsedCertBundle (c, h)))) = t).
    { rewrite ToParsedCertBundle_tag.
      destruct (ToParsedCertBundle_key_classified ParsedCertBundle_zero c h blk t Hkey Hdec)
        as [Hs _]; [auto|]. rewrite Hs. reflexivity. }
    split; [exact Htag|]. intros p [b' h'] Hrun.
    rewrite Hrun in Htag. cbn in Htag.
    apply ToParsedCertBundle_Ok in Hrun as ([(Hnil & _)|(_ & _ & _ & _ & _ & _ & _ & Hb')] & _);
      [contradiction|congruence]. }
  assert (Hfail : forall err,
            getPKCS8Type (blk_Bytes blk) = inl err ->
            ToParsedCertBundle (c, h) =
              (Err (UserError ("Error getting key type from pkcs#8: " +:+ Error err)), (c, h))).
  { intros err Ht. unfold ToParsedCertBundle, bind.
    rewrite (ToParsedCertBundle_key_pkcs8_Err _ c h blk err Hkey Hdec Hty Ht). reflexivity. }
  unfold getPKCS8Type in Htagged, Hfail.
  destruct (x509_ParsePKCS8PrivateKey (blk_Bytes blk)) as [err|[k|k|k]].
  - apply (Hfail _ eq_refl).
  - apply (Htagged _ eq_refl).
  - apply (Htagged _ eq_refl).
  - apply (Hfail _ eq_refl).
Qed.

(** ** The CSR parser *)

Lemma ToParsedCSRBundle_csr_self r c : snd (ToParsedCSRBundle_csr r c) = c.
Proof.
  run. destruct (nonempty_string _); [|reflexivity].
  destruct (pem_Decode _); [|reflexivity].
  destruct (x509_ParseCertificateRequest _); reflexivity.
Qed.

Lemma ToParsedCSRBundle_self c :
  snd (ToParsedCSRBundle c) = snd (ToParsedCSRBundle_key ParsedCSRBundle_zero c).
Proof.
  unfold ToParsedCSRBundle, bind.
  destruct (ToParsedCSRBundle_key _ c) as [[r| |] c1]; try reflexivity.
  apply ToParsedCSRBundle_csr_self.
Qed.

(** What the key phase does to the receiver. *)
Lemma ToParsedCSRBundle_key_self r c blk :
  CSR_PrivateKey c <> "" ->
  pem_Decode (bytes_of_string (CSR_PrivateKey c)) = Some blk ->
  snd (ToParsedCSRBundle_key r c) =
    if decide (blk_Type blk = ECBlock) then c
    else if decide (blk_Type blk = PKCS1Block) then c
    else match x509_ParseECPrivateKey (blk_Bytes blk) with
         | inr _ => CSR_set_PrivateKeyType "ec" c
         | inl _ =>
             match x509_ParsePKCS1PrivateKey (blk_Bytes blk) with
             | inr _ => CSR_set_PrivateKeyType "rsa" c
             | inl _ => c
             end
         end.
Proof.
  intros Hkey Hdec. run. apply nonempty_string_true in Hkey. rewrite Hkey, Hdec.
  destruct (decide (blk_Type blk = ECBlock)).
  { destruct (ParsedCSRBundle_getSigner _); reflexivity. }
  destruct (decide (blk_Type blk = PKCS1Block)).
  { destruct (ParsedCSRBundle_getSigner _); reflexivity. }
  destruct (x509_ParseECPrivateKey _).
  - destruct (x509_ParsePKCS1PrivateKey _); [reflexivity|].
    destruct (ParsedCSRBundle_getSigner _); reflexivity.
  - destruct (ParsedCSRBundle_getSigner _); reflexivity.
Qed.

(** C10, as the code has it.  One key text, carried by a certificate
    bundle [c] and by a CSR bundle [q], decodes to the block [blk].
    ToParsedCertBundle leaves in [c] the key type it inferred (ec for the
    EC label, rsa for the PKCS#1 label, the wrapped algorithm for PKCS#8),
    whatever the outcome of the rest of the call.  ToParsedCSRBundle leaves
    [q] untouched when the label is the EC or the PKCS#1 one; for any other
    label it writes ec or rsa into [q] when the trial decoding of the
    payload succeeds, again whatever the outcome of the rest. *)
Theorem key_type_written_back (c : CertBundle) (q : CSRBundle) h blk :
  CB_PrivateKey c <> "" ->
  CSR_PrivateKey q = CB_PrivateKey c ->
  pem_Decode (bytes_of_string (CB_PrivateKey c)) = Some blk ->
  (forall t,
     (strings_TrimSpace (blk_Type blk) = ECBlock /\ t = ECPrivateKey) \/
     (strings_TrimSpace (blk_Type blk) = PKCS1Block /\ t = RSAPrivateKey) \/
     (strings_TrimSpace (blk_Type blk) = PKCS8Block /\
      getPKCS8Type (blk_Bytes blk) = inr t) ->
     CB_PrivateKeyType (fst (snd (ToParsedCertBundle (c, h)))) = t) /\
  snd (ToParsedCSRBundle q) =
    (if decide (blk_Type blk = ECBlock) then q
     else if decide (blk_Type blk = PKCS1Block) then q
     else match x509_ParseECPrivateKey (blk_Bytes blk) with
          | inr _ => CSR_set_PrivateKeyType "ec" q
          | inl _ =>
              match x509_ParsePKCS1PrivateKey (blk_Bytes blk) with
              | inr _ => CSR_set_PrivateKeyType "rsa" q
              | inl _ => q
              end
          end).
Proof.
  intros Hkey Hq Hdec. split.
  - intros t Hclass. rewrite ToParsedCertBundle_tag.
    destruct (ToParsedCertBundle_key_classified ParsedCertBundle_zero c h blk t Hkey Hdec Hclass)
      as [Hs _]. rewrite Hs. reflexivity.
  - rewrite ToParsedCSRBundle_self.
    apply ToParsedCSRBundle_key_self; rewrite Hq; assumption.
Qed.

(** ** The two key handlers compared *)

(** With no certificate, no chain and no issuing CA, the phases after the
    key do nothing. *)
Lemma ToParsedCertBundle_no_certificates r c h :
  CB_Certificate c = "" -> CB_CAChain c = [] -> CB_IssuingCA c = "" ->
  ToParsedCertBundle_certificate r (c, h) = (Ok r, (c, h)) /\
  ToParsedCertBundle_chain r (c, h) = (Ok r, (c, h)) /\
  ToParsedCertBundle_serial r (c, h) = (Ok tt, (c, h)).
Proof.
  intros Hc Hchain Hissuing. run. rewrite Hc, Hchain, Hissuing. cbn.
  rewrite andb_false_r. auto.
Qed.

Lemma ToParsedCertBundle_key_only tag key h :
  ToParsedCertBundle (key_only_cert tag key, h) =
  ToParsedCertBundle_key ParsedCertBundle_zero (key_only_cert tag key, h).
Proof.
  unfold ToParsedCertBundle, bind, ret.
  pose proof (ToParsedCertBundle_key_state ParsedCertBundle_zero (key_only_cert tag key) h)
    as Hstate.
  destruct (ToParsedCertBundle_key _ _) as [[r1| |] s1]; try reflexivity.
  cbn [snd] in Hstate.
  assert (Hs1 : exists c1, s1 = (c1, h) /\ CB_Certificate c1 = "" /\
                           CB_CAChain c1 = [] /\ CB_IssuingCA c1 = "").
  { destruct Hstate as [->|[t ->]]; eexists; split; try reflexivity; auto. }
  destruct Hs1 as (c1 & -> & Hc & Hchain & Hissuing).
  destruct (ToParsedCertBundle_no_certificates r1 c1 h Hc Hchain Hissuing)
    as (-> & -> & ->).
  reflexivity.
Qed.

Lemma ToParsedCSRBundle_key_only tag key :
  ToParsedCSRBundle (key_only_csr tag key) =
  ToParsedCSRBundle_key ParsedCSRBundle_zero (key_only_csr tag key).
Proof.
  unfold ToParsedCSRBundle, bind.
  destruct (ToParsedCSRBundle_key _ _) as [[r1| |] c1] eqn:Hrun; try reflexivity.
  assert (Hcsr : CSR_CSR c1 = "").
  { revert Hrun. run. cbn [key_only_csr CSR_PrivateKey].
    destruct (nonempty_string key); [|intros [= _ <-]; reflexivity].
    destruct (pem_Decode _) as [blk|]; [|discriminate].
    destruct (decide (blk_Type blk = ECBlock)).
    { destruct (ParsedCSRBundle_getSigner _); intros [= _ <-]; reflexivity. }
    destruct (decide (blk_Type blk = PKCS1Block)).
    { destruct (ParsedCSRBundle_getSigner _); intros [= _ <-]; reflexivity. }
    destruct (x509_ParseECPrivateKey _).
    - destruct (x509_ParsePKCS1PrivateKey _); [discriminate|].
      destruct (ParsedCSRBundle_getSigner _); intros [= _ <-]; reflexivity.
    - destruct (ParsedCSRBundle_getSigner _); intros [= _ <-]; reflexivity. }
  run. rewrite Hcsr. reflexivity.
Qed.

(** C6, as the code has it.  For a key text whose block label is exactly
    the EC or the PKCS#1 one, with no surrounding white space, the two
    parsers agree on the key: same outcome, and on success same key type,
    key bytes and signer, on failure same error.  The input of
    ToParsedCSRBundle is left as it was, while ToParsedCertBundle writes
    the inferred type into its input. *)
Theorem key_handling_agrees_on_labelled_keys tag key blk h :
  key <> "" ->
  pem_Decode (bytes_of_string key) = Some blk ->
  blk_Type blk = ECBlock \/ blk_Type blk = PKCS1Block ->
  strings_TrimSpace (blk_Type blk) = blk_Type blk ->
  let cert_run := ToParsedCertBundle (key_only_cert tag key, h) in
  let csr_run := ToParsedCSRBundle (key_only_csr tag key) in
  outcome_map cert_key_view (fst cert_run) = outcome_map csr_key_view (fst csr_run) /\
  snd csr_run = key_only_csr tag key /\
  CB_PrivateKeyType (fst (snd cert_run)) =
    (if decide (blk_Type blk = ECBlock) then ECPrivateKey else RSAPrivateKey).
Proof.
  intros Hkey Hdec Hlabel Htrim. apply nonempty_string_true in Hkey.
  cbv zeta. rewrite ToParsedCertBundle_key_only, ToParsedCSRBundle_key_only.
  run. cbn [key_only_cert key_only_csr CB_PrivateKey CSR_PrivateKey].
  rewrite Hkey, Hdec.
  cbn [PCB_PrivateKeyFormat PCB_set_PrivateKeyFormat PCB_set_PrivateKeyType].
  rewrite Htrim.
  unfold ParsedCertBundle_getSigner, ParsedCSRBundle_getSigner.
  destruct Hlabel as [Hl|Hl]; rewrite Hl;
    repeat first [ rewrite decide_True by reflexivity
                 | rewrite decide_False by discriminate ];
    cbn -[nonempty]; destruct (nonempty (blk_Bytes blk)); cbn; auto.
  - destruct (x509_ParseECPrivateKey _); cbn; auto.
  - destruct (x509_ParsePKCS1PrivateKey _); cbn; auto.
Qed.

(** ** The TLS configuration *)

Lemma GetTLSConfig_range_Some blocks :
  forall tlsCert,
    GetTLSConfig_range (map Some blocks) tlsCert =
      Ok (tlsCert_set_Certificate
            (tlsCert_Certificate tlsCert ++ map CertBlock_Bytes blocks) tlsCert).
Proof.
  induction blocks as [|block blocks IH]; intros tlsCert; cbn.
  - rewrite app_nil_r. destruct tlsCert; reflexivity.
  - rewrite IH. unfold tlsCert_set_Certificate. cbn. rewrite <- app_assoc. reflexivity.
Qed.

(** The last step keeps the pools. *)
Lemma GetTLSConfig_finish (tlsCert : tls_Certificate) (tlsConfig : tls_Config) :
  exists cfg,
    (if nonempty (tlsCert_Certificate tlsCert)
     then Ok (BuildNameToCertificate (cfg_set_Certificates [tlsCert] tlsConfig))
     else Ok tlsConfig) = Ok cfg /\
    cfg_ClientCAs cfg = cfg_ClientCAs tlsConfig /\
    cfg_ClientAuth cfg = cfg_ClientAuth tlsConfig /\
    cfg_RootCAs cfg = cfg_RootCAs tlsConfig.
Proof.
  destruct (nonempty _); eexists; (split; [reflexivity|]); cbn; auto.
Qed.

(** The pools of the configuration, for any usage value. *)
Lemma GetTLSConfig_pools h p first rest pool usage :
  PCB_CAChain p = map Some (first :: rest) ->
  serial_readable h p ->
  x509_AppendCertsFromPEM x509_NewCertPool
    (bytes_of_string (encode_trimmed "CERTIFICATE" (CertBlock_Bytes first))) = (pool, true) ->
  exists cfg,
    GetTLSConfig h p usage = Ok cfg /\
    cfg_ClientCAs cfg = (if (0 <? Z.land usage TLSServer)%Z then Some pool else None) /\
    cfg_ClientAuth cfg =
      (if (0 <? Z.land usage TLSServer)%Z then VerifyClientCertIfGiven else NoClientCert) /\
    cfg_RootCAs cfg = (if (0 <? Z.land usage TLSClient)%Z then Some pool else None).
Proof.
  intros Hchain Hread Hpool.
  destruct (ToCertBundle_Ok h p (first :: rest) Hchain Hread) as (r & Hr & Hrchain & _).
  unfold GetTLSConfig. rewrite Hchain, Hr.
  rewrite GetTLSConfig_range_Some.
  change (nonempty (map Some (first :: rest))) with true.
  cbn [obind]. unfold index. rewrite Hrchain.
  cbn [map lookup list_lookup deref obind].
  rewrite Hpool. cbn [negb obind fst snd].
  match goal with
  | |- exists cfg, (if nonempty (tlsCert_Certificate ?T) then _ else Ok ?C) = _ /\ _ =>
      destruct (GetTLSConfig_finish T C) as (cfg & Hcfg & Hclient & Hauth & Hroot)
  end.
  exists cfg. split; [exact Hcfg|].
  rewrite Hclient, Hauth, Hroot.
  destruct (0 <? Z.land usage TLSServer)%Z; destruct (0 <? Z.land usage TLSClient)%Z;
    cbn; auto.
Qed.

(** C4.  The chain is not empty, nothing in the bundle is nil, and a new
    pool accepts the PEM text of the first chain entry, giving [pool].
    With usage server the configuration has [pool] as its client CAs,
    verifies a client certificate if given, and has no root CAs; with
    usage client it has [pool] as its root CAs and no client CAs; with
    both it has [pool] in both places. *)
Theorem GetTLSConfig_usage h p first rest pool :
  PCB_CAChain p = map Some (first :: rest) ->
  serial_readable h p ->
  x509_AppendCertsFromPEM x509_NewCertPool
    (bytes_of_string (encode_trimmed "CERTIFICATE" (CertBlock_Bytes first))) = (pool, true) ->
  (exists cfg,
     GetTLSConfig h p TLSServer = Ok cfg /\
     cfg_ClientCAs cfg = Some pool /\
     cfg_ClientAuth cfg = VerifyClientCertIfGiven /\
     cfg_RootCAs cfg = None) /\
  (exists cfg,
     GetTLSConfig h p TLSClient = Ok cfg /\
     cfg_RootCAs cfg = Some pool /\
     cfg_ClientCAs cfg = None) /\
  (exists cfg,
     GetTLSConfig h p (Z.lor TLSServer TLSClient) = Ok cfg /\
     cfg_ClientCAs cfg = Some pool /\
     cfg_RootCAs cfg = Some pool /\
     cfg_ClientAuth cfg = VerifyClientCertIfGiven).
Proof.
  intros Hchain Hread Hpool.
  split; [|split].
  - destruct (GetTLSConfig_pools h p first rest pool TLSServer Hchain Hread Hpool)
      as (cfg & Hcfg & Hclient & Hauth & Hroot).
    exists cfg. auto.
  - destruct (GetTLSConfig_pools h p first rest pool TLSClient Hchain Hread Hpool)
      as (cfg & Hcfg & Hclient & Hauth & Hroot).
    exists cfg. auto.
  - destruct (GetTLSConfig_pools h p first rest pool (Z.lor TLSServer TLSClient)
                Hchain Hread Hpool)
      as (cfg & Hcfg & Hclient & Hauth & Hroot).
    exists cfg. auto.
Qed.

(** ** Code that departs from the specification *)

(** C7.  A parsed bundle with private-key bytes, no key type and no block
    format: ToCertBundle returns a result, the key encoded under the empty
    label, not an internal-fault error.  ToCSRBundle, on the same key
    material, returns the internal-fault error. *)
Theorem ToCertBundle_unknown_key_type h :
  ToCertBundle h unknown_key =
    Ok (CB_set_PrivateKey (encode_trimmed "" [Byte.x01]) CertBundle_zero) /\
  ToCSRBundle unknown_key_csr =
    Err (InternalError "Could not determine private key type when creating block").
Proof. split; reflexivity. Qed.

(** A bundle with the legacy issuing CA and nothing else: the issuing CA
    is decoded and parsed, then the nil leaf certificate is dereferenced. *)
Lemma ToParsedCertBundle_issuing_CA_only c h blk tbs :
  CB_PrivateKey c = "" -> CB_Certificate c = "" -> CB_CAChain c = [] ->
  CB_IssuingCA c <> "" ->
  pem_Decode (bytes_of_string (CB_IssuingCA c)) = Some blk ->
  asn1_Certificate (blk_Bytes blk) = inr tbs ->
  ToParsedCertBundle (c, h) = (Panic, (c, h ++ [tbs_SerialNumber tbs])).
Proof.
  intros Hk Hc Hchain Hne Hdec Hasn. apply nonempty_string_true in Hne.
  unfold ToParsedCertBundle, bind.
  assert (H1 : ToParsedCertBundle_key ParsedCertBundle_zero (c, h)
               = (Ok ParsedCertBundle_zero, (c, h))).
  { run. rewrite Hk. reflexivity. }
  assert (H2 : ToParsedCertBundle_certificate ParsedCertBundle_zero (c, h)
               = (Ok ParsedCertBundle_zero, (c, h))).
  { run. rewrite Hc. reflexivity. }
  assert (H3 : ToParsedCertBundle_chain ParsedCertBundle_zero (c, h)
               = (Panic, (c, h ++ [tbs_SerialNumber tbs]))).
  { run. rewrite Hchain, Hne, Hdec, Hasn. reflexivity. }
  rewrite H1, H2, H3. reflexivity.
Qed.

(** ** ToParsedCertBundle: errors, faults and what is left of the input *)

Lemma ToParsedCertBundle_key_user_level r s :
  user_level (fst (ToParsedCertBundle_key r s)).
Proof.
  destruct s as [c h]. run. destruct (nonempty_string _); [|exact I].
  destruct (pem_Decode _) as [blk|]; cbn; [|eauto].
  cbn [PCB_PrivateKeyFormat PCB_set_PrivateKeyFormat PCB_set_PrivateKeyType].
  destruct (decide (_ = ECBlock)).
  { destruct (ParsedCertBundle_getSigner _); cbn; eauto. }
  destruct (decide (_ = PKCS1Block)).
  { destruct (ParsedCertBundle_getSigner _); cbn; eauto. }
  destruct (decide (_ = PKCS8Block)); cbn; [|eauto].
  destruct (getPKCS8Type _) as [err|t] eqn:Ht; cbn; [eauto|].
  destruct (getPKCS8Type_inr _ _ Ht) as [-> | ->]; switch;
    destruct (ParsedCertBundle_getSigner _); cbn; eauto.
Qed.

Lemma ToParsedCertBundle_certificate_user_level r s :
  user_level (fst (ToParsedCertBundle_certificate r s)).
Proof.
  run. destruct (nonempty_string _); [|exact I].
  destruct (pem_Decode _); cbn; [|eauto].
  destruct (asn1_Certificate _); cbn; eauto.
Qed.

Lemma ToParsedCertBundle_range_user_level certs :
  forall r s, user_level (fst (ToParsedCertBundle_range certs r s)).
Proof.
  induction certs as [|cert certs IH]; intros r s; [exact I|].
  cbn. destruct (pem_Decode _); cbn; [|eauto].
  run. destruct (asn1_Certificate _); cbn; [eauto|]. apply IH.
Qed.

(** The chain phase faults on the legacy path only, when there is no leaf
    certificate. *)
Lemma ToParsedCertBundle_chain_outcome r s :
  match fst (ToParsedCertBundle_chain r s) with
  | Ok _ => True
  | Err e => exists msg, e = UserError msg
  | Panic =>
      CB_CAChain (fst s) = [] /\ PCB_Certificate r = None /\
      exists blk tbs,
        pem_Decode (bytes_of_string (CB_IssuingCA (fst s))) = Some blk /\
        asn1_Certificate (blk_Bytes blk) = inr tbs
  end.
Proof.
  run. destruct (nonempty (CB_CAChain s.1)) eqn:Hchain.
  { pose proof (ToParsedCertBundle_range_user_level (CB_CAChain s.1) r s) as Hr.
    destruct (ToParsedCertBundle_range _ _ _) as [[r'| |] s']; cbn in *; tauto. }
  apply nonempty_false in Hchain.
  destruct (nonempty_string _); [|exact I].
  destruct (pem_Decode _) as [blk|] eqn:Hdec; cbn; [|eauto].
  destruct (asn1_Certificate _) as [err|tbs] eqn:Hasn; cbn; [eauto|].
  destruct (PCB_Certificate r); cbn; [exact I|]. eauto 10.
Qed.

Lemma ToParsedCertBundle_serial_outcome r s :
  match fst (ToParsedCertBundle_serial r s) with
  | Ok _ => True
  | Err _ => False
  | Panic =>
      CB_Certificate (fst s) <> "" /\
      forall leaf v, PCB_Certificate r = Some leaf ->
                     big_Int_value (snd s) (Cert_SerialNumber leaf) <> Ok v
  end.
Proof.
  run. destruct (_ =? _); cbn [andb]; [|exact I].
  destruct (nonempty_string _) eqn:Hc; [|exact I].
  apply nonempty_string_true in Hc.
  destruct (PCB_Certificate r) as [leaf|]; cbn.
  - destruct (big_Int_value _ _) as [v| |] eqn:Hv; cbn; try exact I.
    + unfold big_Int_value in Hv.
      destruct (Cert_SerialNumber leaf) as [l|]; cbn in Hv; [|discriminate].
      destruct (s.2 !! l); discriminate.
    + split; [exact Hc|]. intros leaf' v [= <-]. rewrite Hv. discriminate.
  - split; [exact Hc|]. intros leaf v [=].
Qed.

Lemma big_Int_value_alloc (h : heap) v ext :
  big_Int_value ((h ++ [v]) ++ ext) (Some (length h)) = Ok v.
Proof.
  unfold big_Int_value, deref, obind, heap in *.
  rewrite lookup_app_l by (rewrite length_app; cbn; lia).
  rewrite lookup_app_r by lia. rewrite Nat.sub_diag. reflexivity.
Qed.

(** X1 (ToParsedCertBundle, lines 140-239).  Every error that
    [ToParsedCertBundle] returns is a [UserError]: the function has no
    internal-error return, whatever the bundle and the library do. *)
Theorem ToParsedCertBundle_errors_are_user_errors s e s' :
  ToParsedCertBundle s = (Err e, s') -> exists msg, e = UserError msg.
Proof.
  unfold ToParsedCertBundle, bind, ret.
  pose proof (ToParsedCertBundle_key_user_level ParsedCertBundle_zero s) as H1.
  destruct (ToParsedCertBundle_key _ s) as [[r1| |] s1]; cbn in H1;
    [|intros [= <- _]; exact H1|contradiction].
  pose proof (ToParsedCertBundle_certificate_user_level r1 s1) as H2.
  destruct (ToParsedCertBundle_certificate r1 s1) as [[r2| |] s2]; cbn in H2;
    [|intros [= <- _]; exact H2|contradiction].
  pose proof (ToParsedCertBundle_chain_outcome r2 s2) as H3.
  destruct (ToParsedCertBundle_chain r2 s2) as [[r3| |] s3]; cbn in H3;
    [|intros [= <- _]; exact H3|discriminate].
  pose proof (ToParsedCertBundle_serial_outcome r3 s3) as H4.
  destruct (ToParsedCertBundle_serial r3 s3) as [[[]| |] s4]; cbn in H4;
    [discriminate|contradiction|discriminate].
Qed.

(** X2 (ToParsedCertBundle, lines 140-239).  The call runs to a result or
    an error, without a nil dereference, on every bundle that has a
    certificate, or a CA chain, or no legacy issuing CA: the one fault of
    the function needs the issuing CA alone. *)
Theorem ToParsedCertBundle_no_fault c h :
  CB_Certificate c <> "" \/ CB_CAChain c <> [] \/ CB_IssuingCA c = "" ->
  fst (ToParsedCertBundle (c, h)) <> Panic.
Proof.
  intros Hpresent. unfold ToParsedCertBundle, bind, ret.
  pose proof (ToParsedCertBundle_key_user_level ParsedCertBundle_zero (c, h)) as H1.
  pose proof (ToParsedCertBundle_key_state ParsedCertBundle_zero c h) as Hstate.
  destruct (ToParsedCertBundle_key _ _) as [[r1| |] s1] eqn:Hkey; cbn in H1;
    [|discriminate|contradiction].
  assert (Hs1 : exists c1, s1 = (c1, h) /\ CB_Certificate c1 = CB_Certificate c /\
                  CB_CAChain c1 = CB_CAChain c /\ CB_IssuingCA c1 = CB_IssuingCA c).
  { cbn in Hstate. destruct Hstate as [->|[t ->]]; eexists; split; try reflexivity; auto. }
  destruct Hs1 as (c1 & -> & Hc & Hchain & Hissuing).
  pose proof (ToParsedCertBundle_certificate_user_level r1 (c1, h)) as H2.
  destruct (ToParsedCertBundle_certificate r1 (c1, h)) as [[r2| |] s2] eqn:Hcert;
    cbn in H2; [|discriminate|contradiction].
  apply ToParsedCertBundle_certificate_Ok in Hcert.
  pose proof (ToParsedCertBundle_chain_outcome r2 s2) as H3.
  destruct (ToParsedCertBundle_chain r2 s2) as [[r3| |] s3] eqn:Hch; cbn in H3;
    [|discriminate|].
  - pose proof (ToParsedCertBundle_serial_outcome r3 s3) as H4.
    destruct (ToParsedCertBundle_serial r3 s3) as [[[]| |] s4]; cbn in H4;
      [discriminate|contradiction|].
    exfalso. destruct H4 as [Hne Hread].
    destruct Hcert as [(Hnil & -> & ->)|(_ & blk & tbs & _ & _ & -> & ->)].
    + apply ToParsedCertBundle_chain_Ok in Hch as (blocks & ext & _ & _ & ->).
      cbn in Hne. contradiction.
    + apply ToParsedCertBundle_chain_Ok in Hch as (blocks & ext & _ & -> & ->).
      apply (Hread (certificate_at (length h) tbs) (tbs_SerialNumber tbs)); [reflexivity|].
      apply big_Int_value_alloc.
  - exfalso. destruct H3 as (Hnochain & Hnone & blk & tbs & Hdec & _).
    destruct Hcert as [(Hnil & -> & ->)|(Hne & blk' & tbs' & _ & _ & -> & ->)].
    + cbn in Hnochain, Hdec. rewrite Hc in Hnil. rewrite Hchain in Hnochain.
      destruct Hpresent as [Hp|[Hp|Hp]]; try contradiction.
      revert Hch. run. rewrite Hchain, Hnochain, Hissuing, Hp. cbn. discriminate.
    + cbn in Hnone. discriminate.
Qed.

Lemma ToParsedCertBundle_certificate_heap r c h :
  exists ext, snd (ToParsedCertBundle_certificate r (c, h)) = (c, h ++ ext).
Proof.
  run. destruct (nonempty_string _); [|exists []; rewrite app_nil_r; reflexivity].
  destruct (pem_Decode _); [|exists []; rewrite app_nil_r; reflexivity].
  destruct (asn1_Certificate _) as [err|tbs]; cbn.
  - exists []. rewrite app_nil_r. reflexivity.
  - eexists. reflexivity.
Qed.

Lemma ToParsedCertBundle_range_heap certs :
  forall r c h, exists ext, snd (ToParsedCertBundle_range certs r (c, h)) = (c, h ++ ext).
Proof.
  induction certs as [|cert certs IH]; intros r c h; cbn.
  - exists []. rewrite app_nil_r. reflexivity.
  - destruct (pem_Decode _); [|exists []; rewrite app_nil_r; reflexivity].
    run. destruct (asn1_Certificate _) as [err|tbs]; cbn.
    + exists []. rewrite app_nil_r. reflexivity.
    + edestruct IH as [ext Hext]. rewrite Hext. eexists. rewrite <- app_assoc. reflexivity.
Qed.

Lemma ToParsedCertBundle_chain_heap r c h :
  exists ext, snd (ToParsedCertBundle_chain r (c, h)) = (c, h ++ ext).
Proof.
  run. destruct (nonempty _); [apply ToParsedCertBundle_range_heap|].
  destruct (nonempty_string _); [|exists []; rewrite app_nil_r; reflexivity].
  destruct (pem_Decode _); [|exists []; rewrite app_nil_r; reflexivity].
  destruct (asn1_Certificate _) as [err|tbs]; cbn.
  - exists []. rewrite app_nil_r. reflexivity.
  - destruct (PCB_Certificate r); cbn; eexists; reflexivity.
Qed.

Lemma ToParsedCertBundle_serial_state r c h :
  snd (ToParsedCertBundle_serial r (c, h)) = (c, h) \/
  (CB_SerialNumber c = "" /\
   exists v, snd (ToParsedCertBundle_serial r (c, h))
             = (CB_set_SerialNumber (GetHexFormatted (big_Int_Bytes v) ":") c, h)).
Proof.
  run. destruct (String.length (CB_SerialNumber c) =? 0) eqn:Hs; cbn [andb]; [|auto].
  destruct (nonempty_string _); [|auto].
  destruct (PCB_Certificate r) as [leaf|]; cbn; [|auto].
  destruct (big_Int_value h _) as [v| |]; cbn; auto.
  right. split; [|eauto]. destruct (CB_SerialNumber c); [reflexivity|discriminate].
Qed.

(** The state a call leaves, whatever its outcome. *)
Lemma ToParsedCertBundle_state c h :
  exists c' ext,
    snd (ToParsedCertBundle (c, h)) = (c', h ++ ext) /\
    same_pem_texts c c' /\
    (CB_SerialNumber c' = CB_SerialNumber c \/
     (CB_SerialNumber c = "" /\
      exists v, CB_SerialNumber c' = GetHexFormatted (big_Int_Bytes v) ":")).
Proof.
  unfold ToParsedCertBundle, bind, ret.
  assert (H1 : exists c1, snd (ToParsedCertBundle_key ParsedCertBundle_zero (c, h)) = (c1, h)
                 /\ same_pem_texts c c1 /\ CB_SerialNumber c1 = CB_SerialNumber c).
  { destruct (ToParsedCertBundle_key_state ParsedCertBundle_zero c h) as [Hs|[t Hs]];
      rewrite Hs; eexists; (split; [reflexivity|]); unfold same_pem_texts; auto 10. }
  destruct H1 as (c1 & Hs1 & Htexts & Hserial).
  assert (Hdone : forall c' ext,
            same_pem_texts c c' -> CB_SerialNumber c' = CB_SerialNumber c ->
            exists c'' ext',
              (c', h ++ ext) = (c'', h ++ ext') /\ same_pem_texts c c'' /\
              (CB_SerialNumber c'' = CB_SerialNumber c \/
               (CB_SerialNumber c = "" /\
                exists v, CB_SerialNumber c'' = GetHexFormatted (big_Int_Bytes v) ":"))).
  { intros c' ext Ht Hsn. exists c', ext. auto. }
  revert Hs1.
  destruct (ToParsedCertBundle_key _ _) as [[r1| |] s1]; cbn [snd]; intros ->;
    try solve [exists c1, []; rewrite app_nil_r; auto].
  destruct (ToParsedCertBundle_certificate_heap r1 c1 h) as [ext2 H2]. unfold St, heap in *. revert H2.
  destruct (ToParsedCertBundle_certificate r1 (c1, h)) as [[r2| |] s2]; cbn [snd];
    intros ->; try (apply Hdone; assumption).
  destruct (ToParsedCertBundle_chain_heap r2 c1 (h ++ ext2)) as [ext3 H3]. unfold St, heap in *. revert H3.
  destruct (ToParsedCertBundle_chain r2 (c1, h ++ ext2)) as [[r3| |] s3]; cbn [snd];
    intros ->; rewrite <- app_assoc; try (apply Hdone; assumption).
  assert (Hlast : exists c'',
            snd (ToParsedCertBundle_serial r3 (c1, h ++ ext2 ++ ext3))
              = (c'', h ++ ext2 ++ ext3) /\ same_pem_texts c c'' /\
            (CB_SerialNumber c'' = CB_SerialNumber c \/
             (CB_SerialNumber c = "" /\
              exists v, CB_SerialNumber c'' = GetHexFormatted (big_Int_Bytes v) ":"))).
  { destruct (ToParsedCertBundle_serial_state r3 c1 (h ++ ext2 ++ ext3))
      as [Hs|(Hempty & v & Hs)]; unfold St, heap in *; rewrite Hs.
    - exists c1. auto.
    - eexists. split; [reflexivity|]. split; [exact Htexts|]. right.
      split; [congruence|]. exists v. reflexivity. }
  destruct Hlast as (c'' & Hs4 & Ht4 & Hsn4). unfold St, heap in *. revert Hs4.
  destruct (ToParsedCertBundle_serial r3 _) as [[[]| |] s4]; cbn [snd]; intros ->;
    exists c'', (ext2 ++ ext3); auto.
Qed.

(** X3 (ToParsedCertBundle, lines 140-239).  What a call does to its
    receiver and to the store, in every outcome: the four PEM fields are
    the caller's, the store only grows (the parsed certificates' serial
    numbers are new objects), and a serial number the caller gave is
    never overwritten. *)
Theorem ToParsedCertBundle_input_frame c h :
  same_pem_texts c (fst (snd (ToParsedCertBundle (c, h)))) /\
  (exists ext, snd (snd (ToParsedCertBundle (c, h))) = h ++ ext) /\
  (CB_SerialNumber c <> "" ->
   CB_SerialNumber (fst (snd (ToParsedCertBundle (c, h)))) = CB_SerialNumber c).
Proof.
  destruct (ToParsedCertBundle_state c h) as (c' & ext & Hs & Htexts & Hserial).
  rewrite Hs. cbn [fst snd]. split; [exact Htexts|]. split; [eauto|].
  intros Hne. destruct Hserial as [Heq|[Hempty _]]; [exact Heq|contradiction].
Qed.

(** ** ToParsedCertBundle: the key of a parsed bundle *)

(** Two different block labels for one block. *)
Ltac clash := exfalso; unfold ECBlock, PKCS1Block, PKCS8Block in *; congruence.

Lemma ParsedCertBundle_getSigner_kind p signer :
  ParsedCertBundle_getSigner p = inr signer ->
  PCB_PrivateKeyBytes p <> [] /\
  ((PCB_PrivateKeyFormat p = ECBlock /\ exists k, signer = ECDSAKey k) \/
   (PCB_PrivateKeyFormat p = PKCS1Block /\ exists k, signer = RSAKey k) \/
   (PCB_PrivateKeyFormat p = PKCS8Block /\
    x509_ParsePKCS8PrivateKey (PCB_PrivateKeyBytes p) = inr signer /\
    ((exists k, signer = RSAKey k) \/ (exists k, signer = ECDSAKey k)))).
Proof.
  intros Hs. split; [exact (ParsedCertBundle_getSigner_inr _ _ Hs)|].
  revert Hs. unfold ParsedCertBundle_getSigner.
  destruct (nonempty _); cbn; [|discriminate].
  destruct (decide (_ = ECBlock)) as [Hf|_].
  { destruct (x509_ParseECPrivateKey _); [discriminate|]. intros [= <-]. eauto. }
  destruct (decide (_ = PKCS1Block)) as [Hf|_].
  { destruct (x509_ParsePKCS1PrivateKey _); [discriminate|]. intros [= <-]. eauto 6. }
  destruct (decide (_ = PKCS8Block)) as [Hf|_]; [|discriminate].
  destruct (x509_ParsePKCS8PrivateKey _) as [err|[k|k|k]]; try discriminate;
    intros [= <-]; right; right; eauto 10.
Qed.

Lemma ToParsedCertBundle_key_agrees r c h r' s' :
  ToParsedCertBundle_key r (c, h) = (Ok r', s') ->
  CB_PrivateKey c <> "" ->
  PCB_PrivateKeyBytes r' <> [] /\
  key_agrees (PCB_PrivateKeyType r') (PCB_PrivateKey r') /\
  supported_format (PCB_PrivateKeyFormat r').
Proof.
  intros Hrun Hkey. revert Hrun. run.
  apply nonempty_string_true in Hkey. rewrite Hkey.
  destruct (pem_Decode _) as [blk|]; [|discriminate].
  cbn [PCB_PrivateKeyFormat PCB_set_PrivateKeyFormat PCB_set_PrivateKeyType].
  assert (Hstep : forall res o,
    match ParsedCertBundle_getSigner res with
    | inl err => throw (UserError ("Error getting signer: " +:+ Error err))
    | inr signer => ret (PCB_set_PrivateKey (Some signer) res)
    end o = (Ok r', s') ->
    exists signer, ParsedCertBundle_getSigner res = inr signer /\
                   r' = PCB_set_PrivateKey (Some signer) res).
  { intros res o. unfold throw, ret.
    destruct (ParsedCertBundle_getSigner res) as [err|signer]; [discriminate|].
    intros [= <- _]. eauto. }
  unfold key_agrees, supported_format.
  destruct (decide (_ = ECBlock)) as [Hec|Hnec].
  { intros Hrun. apply Hstep in Hrun as (signer & Hs & ->).
    apply ParsedCertBundle_getSigner_kind in Hs as (Hb & Hkind). cbn in *.
    split; [exact Hb|]. split; [|auto].
    destruct Hkind as [(_ & k & ->)|[(Hf & _)|(Hf & _)]]; [eauto|clash..]. }
  destruct (decide (_ = PKCS1Block)) as [Hp1|Hnp1].
  { intros Hrun. apply Hstep in Hrun as (signer & Hs & ->).
    apply ParsedCertBundle_getSigner_kind in Hs as (Hb & Hkind). cbn in *.
    split; [exact Hb|]. split; [|auto].
    destruct Hkind as [(Hf & _)|[(_ & k & ->)|(Hf & _)]]; [clash|eauto|clash]. }
  destruct (decide (_ = PKCS8Block)) as [Hp8|Hnp8]; [|discriminate].
  destruct (getPKCS8Type (blk_Bytes blk)) as [err|t] eqn:Ht; [discriminate|].
  destruct (getPKCS8Type_inr _ _ Ht) as [->| ->]; switch;
    intros Hrun; apply Hstep in Hrun as (signer & Hs & ->);
    apply ParsedCertBundle_getSigner_kind in Hs as (Hb & Hkind); cbn in *;
    (split; [exact Hb|]); (split; [|auto]);
    destruct Hkind as [(Hf & _)|[(Hf & _)|(_ & Hparse & _)]]; try clash;
    unfold getPKCS8Type in Ht; rewrite Hparse in Ht;
    destruct signer; try discriminate; eauto.
Qed.

Lemma ToParsedCertBundle_key_fields c h p s :
  ToParsedCertBundle (c, h) = (Ok p, s) ->
  exists r1 s1,
    ToParsedCertBundle_key ParsedCertBundle_zero (c, h) = (Ok r1, s1) /\
    cert_key_view p = cert_key_view r1 /\
    PCB_PrivateKeyFormat p = PCB_PrivateKeyFormat r1.
Proof.
  unfold ToParsedCertBundle, bind, ret. intros Hrun.
  pose proof (ToParsedCertBundle_key_state ParsedCertBundle_zero c h) as Hstate.
  destruct (ToParsedCertBundle_key _ _) as [[r1| |] s1] eqn:H1; try discriminate.
  assert (Hs1 : exists c1, s1 = (c1, h)).
  { cbn in Hstate. destruct Hstate as [->|[t ->]]; eauto. }
  destruct Hs1 as [c1 ->].
  destruct (ToParsedCertBundle_certificate r1 _) as [[r2| |] s2] eqn:H2; try discriminate.
  apply ToParsedCertBundle_certificate_Ok in H2.
  assert (Hs2 : exists h2, s2 = (c1, h2) /\ cert_key_view r2 = cert_key_view r1 /\
                           PCB_PrivateKeyFormat r2 = PCB_PrivateKeyFormat r1).
  { destruct H2 as [(_ & -> & ->)|(_ & blk & tbs & _ & _ & -> & ->)]; eauto. }
  destruct Hs2 as (h2 & -> & Hview2 & Hfmt2).
  destruct (ToParsedCertBundle_chain r2 _) as [[r3| |] s3] eqn:H3; try discriminate.
  apply ToParsedCertBundle_chain_Ok in H3 as (blocks & ext & _ & -> & ->).
  destruct (ToParsedCertBundle_serial _ _) as [[[]| |] s4]; try discriminate.
  injection Hrun as <- <-. exists r1, (c1, h). split; [reflexivity|].
  split; [rewrite <- Hview2|rewrite <- Hfmt2]; reflexivity.
Qed.

(** X4 (ToParsedCertBundle lines 145-179, getSigner lines 339-374,
    getPKCS8Type lines 383-397).  The key of a parsed bundle: without a
    key text the bundle has no key type, bytes, format or signer and the
    receiver's type tag is untouched; with one, the bytes are not empty,
    the format is one of the three supported labels, the signer is an EC
    key when the type is ec and an RSA key when it is rsa (no other type
    comes out), and the receiver's tag is that type. *)
Theorem ToParsedCertBundle_key_invariant c h p s :
  ToParsedCertBundle (c, h) = (Ok p, s) ->
  (CB_PrivateKey c = "" /\ cert_key_view p = ("", [], None) /\ PCB_PrivateKeyFormat p = "" /\
   CB_PrivateKeyType (fst s) = CB_PrivateKeyType c) \/
  (CB_PrivateKey c <> "" /\ PCB_PrivateKeyBytes p <> [] /\
   key_agrees (PCB_PrivateKeyType p) (PCB_PrivateKey p) /\
   supported_format (PCB_PrivateKeyFormat p) /\
   CB_PrivateKeyType (fst s) = PCB_PrivateKeyType p).
Proof.
  intros Hrun.
  pose proof (ToParsedCertBundle_tag (c, h)) as Htag. rewrite Hrun in Htag. cbn [fst snd] in Htag.
  destruct (ToParsedCertBundle_key_fields c h p s Hrun) as (r1 & s1 & H1 & Hview & Hfmt).
  rewrite H1 in Htag. cbn [snd] in Htag.
  destruct (decide (CB_PrivateKey c = "")) as [Hnil|Hne].
  - left. split; [exact Hnil|].
    apply ToParsedCertBundle_key_Ok in H1 as [(_ & -> & ->)|(Hne & _)]; [|contradiction].
    rewrite Hview, Hfmt. auto.
  - right. split; [exact Hne|].
    pose proof (ToParsedCertBundle_key_agrees _ c h r1 s1 H1 Hne) as (Hb & Hagree & Hf).
    unfold cert_key_view in Hview. injection Hview as Ht Hbytes Hsigner.
    rewrite Ht, Hbytes, Hsigner, Hfmt. repeat split; try assumption.
    rewrite Htag.
    apply ToParsedCertBundle_key_Ok in H1 as [(Hnil & _)|(_ & blk & t & sg & _ & _ & _ & -> & ->)];
      [contradiction|reflexivity].
Qed.

(** ** The CSR bundles *)

Lemma ParsedCSRBundle_getSigner_kind p signer :
  ParsedCSRBundle_getSigner p = inr signer ->
  PCSR_PrivateKeyBytes p <> [] /\ key_agrees (PCSR_PrivateKeyType p) (Some signer).
Proof.
  unfold ParsedCSRBundle_getSigner, key_agrees.
  destruct (nonempty (PCSR_PrivateKeyBytes p)) eqn:Hb; cbn; [|discriminate].
  apply nonempty_true in Hb.
  destruct (decide (_ = ECPrivateKey)) as [Ht|_].
  { destruct (x509_ParseECPrivateKey _); [discriminate|]. intros [= <-]. eauto 6. }
  destruct (decide (_ = RSAPrivateKey)) as [Ht|_]; [|discriminate].
  destruct (x509_ParsePKCS1PrivateKey _); [discriminate|]. intros [= <-]. eauto 6.
Qed.

(** What the key phase returns, in each of its outcomes. *)
Lemma ToParsedCSRBundle_key_outcome c :
  match ToParsedCSRBundle_key ParsedCSRBundle_zero c with
  | (Ok r, c') =>
      CSR_CSR c' = CSR_CSR c /\ CSR_PrivateKey c' = CSR_PrivateKey c /\
      PCSR_CSRBytes r = [] /\ PCSR_CSR r = None /\
      ((CSR_PrivateKey c = "" /\ r = ParsedCSRBundle_zero /\ c' = c) \/
       (CSR_PrivateKey c <> "" /\
        exists blk,
          pem_Decode (bytes_of_string (CSR_PrivateKey c)) = Some blk /\
          PCSR_PrivateKeyBytes r = blk_Bytes blk /\
          PCSR_PrivateKeyBytes r <> [] /\
          key_agrees (PCSR_PrivateKeyType r) (PCSR_PrivateKey r) /\
          (blk_Type blk = ECBlock \/ blk_Type blk = PKCS1Block ->
           csr_key_label (PCSR_PrivateKeyType r) = blk_Type blk /\ c' = c)))
  | (Err e, c') =>
      (exists msg, e = UserError msg) /\
      CSR_CSR c' = CSR_CSR c /\ CSR_PrivateKey c' = CSR_PrivateKey c
  | (Panic, _) => False
  end.
Proof.
  run. destruct (nonempty_string (CSR_PrivateKey c)) eqn:Hkey.
  2:{ apply nonempty_string_false in Hkey. repeat split; auto. }
  apply nonempty_string_true in Hkey.
  destruct (pem_Decode _) as [blk|] eqn:Hdec; [|eauto].
  assert (Hstep : forall res c',
    CSR_CSR c' = CSR_CSR c -> CSR_PrivateKey c' = CSR_PrivateKey c ->
    PCSR_PrivateKeyBytes res = blk_Bytes blk ->
    PCSR_CSRBytes res = [] -> PCSR_CSR res = None ->
    (blk_Type blk = ECBlock \/ blk_Type blk = PKCS1Block ->
     csr_key_label (PCSR_PrivateKeyType res) = blk_Type blk /\ c' = c) ->
    match
      match ParsedCSRBundle_getSigner res with
      | inl err => throw (UserError ("Error getting signer: " +:+ Error err))
      | inr signer => ret (PCSR_set_PrivateKey (Some signer) res)
      end c'
    with
    | (Ok r, c'') =>
        CSR_CSR c'' = CSR_CSR c /\ CSR_PrivateKey c'' = CSR_PrivateKey c /\
        PCSR_CSRBytes r = [] /\ PCSR_CSR r = None /\
        ((CSR_PrivateKey c = "" /\ r = ParsedCSRBundle_zero /\ c'' = c) \/
         (CSR_PrivateKey c <> "" /\
          exists blk0,
            Some blk = Some blk0 /\
            PCSR_PrivateKeyBytes r = blk_Bytes blk0 /\
            PCSR_PrivateKeyBytes r <> [] /\
            key_agrees (PCSR_PrivateKeyType r) (PCSR_PrivateKey r) /\
            (blk_Type blk0 = ECBlock \/ blk_Type blk0 = PKCS1Block ->
             csr_key_label (PCSR_PrivateKeyType r) = blk_Type blk0 /\ c'' = c)))
    | (Err e, c'') =>
        (exists msg, e = UserError msg) /\
        CSR_CSR c'' = CSR_CSR c /\ CSR_PrivateKey c'' = CSR_PrivateKey c
    | (Panic, _) => False
    end).
  { intros res c' Hc1 Hc2 Hbytes Hcb Hcsr Hlabel. unfold throw, ret.
    destruct (ParsedCSRBundle_getSigner res) as [err|signer] eqn:Hs; [eauto|].
    apply ParsedCSRBundle_getSigner_kind in Hs as (Hb & Hagree).
    cbn. repeat split; try assumption. right. split; [exact Hkey|].
    exists blk. repeat split; try assumption; apply Hlabel; assumption. }
  destruct (decide (blk_Type blk = ECBlock)) as [Hec|Hnec].
  { apply Hstep; try reflexivity. intros _. rewrite Hec. split; reflexivity. }
  destruct (decide (blk_Type blk = PKCS1Block)) as [Hp1|Hnp1].
  { apply Hstep; try reflexivity. intros _. rewrite Hp1. split; reflexivity. }
  destruct (x509_ParseECPrivateKey (blk_Bytes blk)).
  - destruct (x509_ParsePKCS1PrivateKey (blk_Bytes blk)); [eauto|].
    apply Hstep; try reflexivity. intros [?|?]; contradiction.
  - apply Hstep; try reflexivity. intros [?|?]; contradiction.
Qed.

Lemma ToParsedCSRBundle_csr_outcome r c :
  match ToParsedCSRBundle_csr r c with
  | (Ok r', c') =>
      c' = c /\ csr_key_view r' = csr_key_view r /\
      ((CSR_CSR c = "" /\ r' = r) \/
       (CSR_CSR c <> "" /\
        exists blk csr,
          pem_Decode (bytes_of_string (CSR_CSR c)) = Some blk /\
          x509_ParseCertificateRequest (blk_Bytes blk) = inr csr /\
          PCSR_CSRBytes r' = blk_Bytes blk /\ PCSR_CSR r' = Some csr))
  | (Err e, c') => (exists msg, e = UserError msg) /\ c' = c
  | (Panic, _) => False
  end.
Proof.
  run. destruct (nonempty_string (CSR_CSR c)) eqn:Hc.
  2:{ apply nonempty_string_false in Hc. auto 10. }
  apply nonempty_string_true in Hc.
  destruct (pem_Decode _) as [blk|] eqn:Hdec; [|eauto].
  cbn [PCSR_CSRBytes PCSR_set_CSRBytes].
  destruct (x509_ParseCertificateRequest _) as [err|csr] eqn:Hp; [eauto|].
  repeat split. right. split; [exact Hc|]. exists blk, csr. auto.
Qed.

(** X5 (ToParsedCSRBundle lines 401-450, getSigner lines 487-512).
    [ToParsedCSRBundle] never faults, all its errors are [UserError]s, it
    leaves the receiver's two texts alone in every outcome, and on success
    the key is absent altogether or has bytes and a signer of the
    algorithm its type names. *)
Theorem ToParsedCSRBundle_outcome c :
  match ToParsedCSRBundle c with
  | (Ok p, c') =>
      CSR_CSR c' = CSR_CSR c /\ CSR_PrivateKey c' = CSR_PrivateKey c /\
      ((CSR_PrivateKey c = "" /\ csr_key_view p = ("", [], None) /\ c' = c) \/
       (CSR_PrivateKey c <> "" /\ PCSR_PrivateKeyBytes p <> [] /\
        key_agrees (PCSR_PrivateKeyType p) (PCSR_PrivateKey p)))
  | (Err e, c') =>
      (exists msg, e = UserError msg) /\
      CSR_CSR c' = CSR_CSR c /\ CSR_PrivateKey c' = CSR_PrivateKey c
  | (Panic, _) => False
  end.
Proof.
  unfold ToParsedCSRBundle, bind.
  pose proof (ToParsedCSRBundle_key_outcome c) as H1.
  destruct (ToParsedCSRBundle_key _ c) as [[r1| |] c1]; [|exact H1|exact H1].
  destruct H1 as (Hc1 & Hk1 & _ & _ & Hkey).
  pose proof (ToParsedCSRBundle_csr_outcome r1 c1) as H2.
  destruct (ToParsedCSRBundle_csr r1 c1) as [[r2| |] c2]; [| |exact H2].
  - destruct H2 as (-> & Hview & _). split; [exact Hc1|]. split; [exact Hk1|].
    unfold csr_key_view in *. injection Hview as Ht Hb Hs.
    destruct Hkey as [(Hnil & -> & ->)|(Hne & blk & _ & _ & Hbytes & Hagree & _)].
    + left. rewrite Ht, Hb, Hs. auto.
    + right. rewrite Ht, Hb, Hs. auto.
  - destruct H2 as (Hmsg & ->). auto.
Qed.

(** A successful CSR parse, field by field. *)
Lemma ToParsedCSRBundle_Ok c p c' :
  ToParsedCSRBundle c = (Ok p, c') ->
  ((CSR_PrivateKey c = "" /\ csr_key_view p = ("", [], None) /\ c' = c) \/
   (CSR_PrivateKey c <> "" /\
    exists blk,
      pem_Decode (bytes_of_string (CSR_PrivateKey c)) = Some blk /\
      PCSR_PrivateKeyBytes p = blk_Bytes blk /\
      PCSR_PrivateKeyBytes p <> [] /\
      key_agrees (PCSR_PrivateKeyType p) (PCSR_PrivateKey p) /\
      (blk_Type blk = ECBlock \/ blk_Type blk = PKCS1Block ->
       csr_key_label (PCSR_PrivateKeyType p) = blk_Type blk /\ c' = c))) /\
  ((CSR_CSR c = "" /\ PCSR_CSRBytes p = []) \/
   (CSR_CSR c <> "" /\
    exists blk csr,
      pem_Decode (bytes_of_string (CSR_CSR c)) = Some blk /\
      x509_ParseCertificateRequest (blk_Bytes blk) = inr csr /\
      PCSR_CSRBytes p = blk_Bytes blk /\ PCSR_CSR p = Some csr)).
Proof.
  unfold ToParsedCSRBundle, bind.
  pose proof (ToParsedCSRBundle_key_outcome c) as H1.
  destruct (ToParsedCSRBundle_key _ c) as [[r1| |] c1]; try discriminate.
  destruct H1 as (Hc1 & Hk1 & Hcb & Hcsr & Hkey).
  pose proof (ToParsedCSRBundle_csr_outcome r1 c1) as H2.
  destruct (ToParsedCSRBundle_csr r1 c1) as [[r2| |] c2]; try discriminate.
  intros [= <- <-]. destruct H2 as (-> & Hview & Hreq).
  unfold csr_key_view in *. injection Hview as Ht Hb Hs.
  rewrite Ht, Hb, Hs. split.
  - destruct Hkey as [(Hnil & -> & ->)|(Hne & blk & Hkeyfacts)]; [left; auto|].
    right. split; [exact Hne|]. exists blk. exact Hkeyfacts.
  - rewrite Hc1 in Hreq.
    destruct Hreq as [(Hnil & ->)|(Hne & blk & csr & Hreq)]; [left; auto|].
    right. split; [exact Hne|]. exists blk, csr. exact Hreq.
Qed.

Lemma ToCSRBundle_Ok p :
  key_agrees (PCSR_PrivateKeyType p) (PCSR_PrivateKey p) \/ PCSR_PrivateKeyBytes p = [] ->
  exists r,
    ToCSRBundle p = Ok r /\
    CSR_CSR r =
      (if nonempty (PCSR_CSRBytes p)
       then encode_trimmed "CERTIFICATE REQUEST" (PCSR_CSRBytes p) else "") /\
    (PCSR_PrivateKeyBytes p = [] -> CSR_PrivateKey r = "" /\ CSR_PrivateKeyType r = "") /\
    (PCSR_PrivateKeyBytes p <> [] ->
     CSR_PrivateKeyType r = PCSR_PrivateKeyType p /\
     CSR_PrivateKey r =
       encode_trimmed (csr_key_label (PCSR_PrivateKeyType p)) (PCSR_PrivateKeyBytes p)).
Proof.
  intros Hkey. unfold ToCSRBundle, csr_key_label.
  destruct (nonempty (PCSR_CSRBytes p));
    destruct (nonempty (PCSR_PrivateKeyBytes p)) eqn:Hb.
  all: try (apply nonempty_true in Hb;
            destruct Hkey as [[(Ht & _)|(Ht & _)]|Hnil]; [| |contradiction]; rewrite Ht;
            switch; eexists; (split; [reflexivity|]); cbn; (split; [reflexivity|]);
            split; intros; try contradiction; auto).
  all: apply nonempty_false in Hb; eexists; (split; [reflexivity|]);
    (split; [reflexivity|]); split; intros; [auto|contradiction].
Qed.

(** X6 (ToCSRBundle, lines 454-481).  [ToCSRBundle] never faults, and it
    fails exactly when there are key bytes whose type is neither rsa nor
    ec, with the internal error of its default case. *)
Theorem ToCSRBundle_error p e :
  ToCSRBundle p <> Panic /\
  (ToCSRBundle p = Err e <->
   e = InternalError "Could not determine private key type when creating block" /\
   PCSR_PrivateKeyBytes p <> [] /\
   PCSR_PrivateKeyType p <> RSAPrivateKey /\ PCSR_PrivateKeyType p <> ECPrivateKey).
Proof.
  unfold ToCSRBundle.
  destruct (nonempty (PCSR_PrivateKeyBytes p)) eqn:Hb.
  - apply nonempty_true in Hb.
    destruct (decide (_ = RSAPrivateKey)) as [Hrsa|Hrsa].
    { split; [discriminate|]. split; [discriminate|]. intros (_ & _ & Hn & _). contradiction. }
    destruct (decide (_ = ECPrivateKey)) as [Hec|Hec].
    { split; [discriminate|]. split; [discriminate|]. intros (_ & _ & _ & Hn). contradiction. }
    split; [discriminate|]. split.
    + intros [= <-]. auto.
    + intros (-> & _). reflexivity.
  - apply nonempty_false in Hb.
    split; [discriminate|]. split; [discriminate|]. intros (_ & Hn & _). contradiction.
Qed.

(** X7 (ToParsedCSRBundle lines 401-450, ToCSRBundle lines 454-481).
    [ToCSRBundle] succeeds on everything [ToParsedCSRBundle] returns; the
    key comes back under the label of its type (the label of the input is
    not kept), and the type written names the signer's algorithm. *)
Theorem ToCSRBundle_ToParsedCSRBundle c p c' :
  ToParsedCSRBundle c = (Ok p, c') ->
  exists r,
    ToCSRBundle p = Ok r /\
    (CSR_PrivateKey c = "" -> CSR_PrivateKey r = "" /\ CSR_PrivateKeyType r = "") /\
    (CSR_PrivateKey c <> "" ->
     key_agrees (CSR_PrivateKeyType r) (PCSR_PrivateKey p) /\
     CSR_PrivateKey r =
       encode_trimmed (csr_key_label (PCSR_PrivateKeyType p)) (PCSR_PrivateKeyBytes p)).
Proof.
  intros Hrun. apply ToParsedCSRBundle_Ok in Hrun as (Hkey & _).
  destruct Hkey as [(Hnil & Hview & _)|(Hne & blk & _ & _ & Hb & Hagree & _)].
  - unfold csr_key_view in Hview. injection Hview as Ht Hbytes Hs.
    destruct (ToCSRBundle_Ok p (or_intror Hbytes)) as (r & Hr & _ & Hnokey & _).
    exists r. split; [exact Hr|]. split; [intros _; apply Hnokey, Hbytes|contradiction].
  - destruct (ToCSRBundle_Ok p (or_introl Hagree)) as (r & Hr & _ & _ & Hwith).
    exists r. split; [exact Hr|]. split; [contradiction|]. intros _.
    destruct (Hwith Hb) as [-> ->]. auto.
Qed.

(** X8 (ToParsedCSRBundle lines 401-450, ToCSRBundle lines 454-481).
    Round trip of a CSR bundle in canonical form whose key has the EC or
    PKCS#1 label: parsing leaves the receiver as it is, and encoding the
    result gives the request and key texts back, trimmed. *)
Theorem ToCSRBundle_round_trip c p c' :
  ToParsedCSRBundle c = (Ok p, c') ->
  canonical_csr_bundle c ->
  c' = c /\
  exists r,
    ToCSRBundle p = Ok r /\
    CSR_CSR r = trimmed (CSR_CSR c) /\
    CSR_PrivateKey r = trimmed (CSR_PrivateKey c) /\
    (CSR_PrivateKey c <> "" -> CSR_PrivateKeyType r = PCSR_PrivateKeyType p).
Proof.
  intros Hrun (Hcreq & Hcbytes & Hckey).
  apply ToParsedCSRBundle_Ok in Hrun as (Hkey & Hreq).
  assert (Hagree : key_agrees (PCSR_PrivateKeyType p) (PCSR_PrivateKey p) \/
                   PCSR_PrivateKeyBytes p = []).
  { destruct Hkey as [(_ & Hview & _)|(_ & blk & _ & _ & _ & Hagree & _)]; [|auto].
    injection Hview as _ Hb _. auto. }
  destruct (ToCSRBundle_Ok p Hagree) as (r & Hr & Hrcsr & Hrnokey & Hrkey).
  split.
  - destruct Hkey as [(_ & _ & ->)|(_ & blk & Hdec & _ & _ & _ & Hlabel)]; [reflexivity|].
    destruct (Hckey blk Hdec) as [Hl _]. apply Hlabel, Hl.
  - exists r. split; [exact Hr|]. split; [|split].
    + rewrite Hrcsr.
      destruct Hreq as [(-> & ->)|(Hne & blk & csr & Hdec & _ & -> & _)]; [reflexivity|].
      rewrite (trimmed_nonempty _ Hne).
      pose proof (Hcbytes blk Hdec) as Hb. apply nonempty_true in Hb. rewrite Hb.
      apply Hcreq, Hdec.
    + destruct Hkey as [(-> & Hview & _)|(Hne & blk & Hdec & Hbytes & Hb & _ & Hlabel)].
      * injection Hview as _ Hb _. destruct (Hrnokey Hb) as [-> _]. reflexivity.
      * rewrite (trimmed_nonempty _ Hne).
        destruct (Hckey blk Hdec) as [Hl Henc].
        destruct (Hrkey Hb) as [_ ->]. destruct (Hlabel Hl) as [-> _].
        rewrite Hbytes. exact Henc.
    + intros Hne.
      destruct Hkey as [(Hnil & _)|(_ & blk & _ & _ & Hb & _)]; [contradiction|].
      apply (Hrkey Hb).
Qed.

(** X19 (SetParsedPrivateKey lines 515-519, ToCSRBundle lines 454-481).
    A key installed with the CSR bundle's [SetParsedPrivateKey] is written
    by [ToCSRBundle] under the label of its type when the type is rsa or
    ec, beside the request text the bundle had; with any other type the
    call fails with the internal error, where [ToCertBundle] writes the
    key all the same. *)
Theorem ToCSRBundle_after_SetParsedPrivateKey p signer t der :
  der <> [] ->
  match ToCSRBundle (ParsedCSRBundle_SetParsedPrivateKey signer t der p) with
  | Ok r =>
      (t = RSAPrivateKey \/ t = ECPrivateKey) /\
      CSR_PrivateKeyType r = t /\
      CSR_PrivateKey r = encode_trimmed (csr_key_label t) der /\
      CSR_CSR r =
        (if nonempty (PCSR_CSRBytes p)
         then encode_trimmed "CERTIFICATE REQUEST" (PCSR_CSRBytes p) else "")
  | Err e =>
      e = InternalError "Could not determine private key type when creating block" /\
      t <> RSAPrivateKey /\ t <> ECPrivateKey
  | Panic => False
  end.
Proof.
  intros Hder. apply nonempty_true in Hder.
  unfold ToCSRBundle, ParsedCSRBundle_SetParsedPrivateKey, csr_key_label.
  destruct p as [kt kb key cb csr];
    cbn [PCSR_set_PrivateKeyBytes PCSR_set_PrivateKeyType PCSR_set_PrivateKey
         PCSR_PrivateKeyType PCSR_PrivateKeyBytes PCSR_CSRBytes].
  rewrite Hder.
  destruct (decide (t = RSAPrivateKey)) as [Hr|Hr].
  { destruct (nonempty cb); cbn; repeat split; auto. }
  destruct (decide (t = ECPrivateKey)) as [He|He].
  { destruct (nonempty cb); cbn; repeat split; auto. }
  auto.
Qed.

(** ** Verify, the other way round *)

Lemma Verify_range_Ok_links path :
  forall rest i,
    rest = drop (S i) path ->
    Verify_range path i rest = Ok tt ->
    forall j, i <= j -> S j < length path ->
      exists child parent,
        cert_at path j = Some child /\ cert_at path (S j) = Some parent /\
        linked child parent.
Proof.
  induction rest as [|caCert rest IH]; intros i Hrest Hrun j Hij Hj.
  - exfalso. assert (Hlen : length (drop (S i) path) = 0) by (rewrite <- Hrest; reflexivity).
    rewrite length_drop in Hlen. lia.
  - assert (Hlook : path !! S i = Some caCert).
    { rewrite <- (Nat.add_0_r (S i)), <- lookup_drop, <- Hrest. reflexivity. }
    assert (Hrest' : rest = drop (S (S i)) path).
    { replace (S (S i)) with (S i + 1) by lia.
      rewrite <- drop_drop, <- Hrest. reflexivity. }
    cbn in Hrun.
    destruct caCert as [caBlock|]; cbn in Hrun; [|discriminate].
    destruct (CertBlock_Certificate caBlock) as [ca|] eqn:Hca; cbn in Hrun; [|discriminate].
    destruct (Cert_IsCA ca) eqn:HisCA; cbn in Hrun; [|discriminate].
    unfold index in Hrun.
    destruct (path !! i) as [[childBlock|]|] eqn:Hchild; cbn in Hrun; try discriminate.
    destruct (CertBlock_Certificate childBlock) as [child|] eqn:Hcc; cbn in Hrun;
      [|discriminate].
    destruct (bytes_Equal _ _) eqn:Heq; cbn in Hrun; [|discriminate].
    replace (i + 1) with (S i) in Hrun by lia.
    destruct (decide (j = i)) as [->|Hne].
    + exists child, ca. unfold cert_at. rewrite Hchild, Hlook.
      repeat split; try assumption.
      unfold bytes_Equal in Heq. apply bool_decide_eq_true in Heq. exact Heq.
    + apply (IH (S i) Hrest' Hrun); lia.
Qed.

(** X9 (Verify, lines 289-315).  When [Verify] returns no error, the
    certificate's public key matches the private key (when both are
    there), the trust path exists and every pair of neighbours in it is
    linked: CA parent, and parent's subject key id equal to the child's
    authority key id. *)
Theorem Verify_Ok_sound p :
  Verify p = Ok tt ->
  key_matches p /\
  exists path,
    GetCertificatePath p = Ok path /\ links_ok_below path (length path - 1).
Proof.
  unfold Verify. intros Hrun. split.
  - intros key cert Hk Hc. rewrite Hk, Hc in Hrun. cbn in Hrun.
    destruct (ComparePublicKeys _ _) as [err|[|]]; cbn in Hrun;
      [discriminate|reflexivity|discriminate].
  - assert (Hpath : (let? certPath := GetCertificatePath p in
                     if 1 <? length certPath
                     then Verify_range certPath 0 (drop 1 certPath) else Ok tt) = Ok tt).
    { destruct (PCB_PrivateKey p); [|exact Hrun].
      destruct (PCB_Certificate p); [|exact Hrun].
      destruct (ComparePublicKeys _ _) as [err|[|]]; cbn in Hrun;
        [discriminate|exact Hrun|discriminate]. }
    destruct (GetCertificatePath p) as [path| |]; cbn [obind] in Hpath; try discriminate.
    exists path. split; [reflexivity|].
    intros j Hj. destruct (1 <? length path) eqn:Hlen.
    + apply (Verify_range_Ok_links path (drop 1 path) 0 eq_refl Hpath); lia.
    + apply Nat.ltb_ge in Hlen. lia.
Qed.

(** X10 (Verify, lines 291-300).  With a key and a certificate, the
    key comparison comes first: a comparison that fails, or that finds
    the keys different, ends the call with its error, whatever the
    chain. *)
Theorem Verify_key_check p key cert :
  PCB_PrivateKey p = Some key ->
  PCB_Certificate p = Some cert ->
  (forall err,
     ComparePublicKeys (Cert_PublicKey cert) (crypto_Public key) = inl err ->
     Verify p =
       Err (fmt_Errorf ("could not compare public and private keys: " +:+ Error err))) /\
  (ComparePublicKeys (Cert_PublicKey cert) (crypto_Public key) = inr false ->
   Verify p = Err (fmt_Errorf "Public key of certificate does not match private key")).
Proof.
  intros Hk Hc. unfold Verify. rewrite Hk, Hc.
  split; [intros err Hcmp|intros Hcmp]; rewrite Hcmp; reflexivity.
Qed.

(** ** The trust path, in every case *)

(** X11 (GetCertificatePath, lines 317-333).  The path is the leaf
    alone or the leaf followed by the whole non-empty chain, nothing
    else; the function has no error, and it faults only with a non-empty
    chain, when the leaf certificate or the chain's first entry (or its
    certificate) is nil. *)
Theorem GetCertificatePath_outcome p :
  match GetCertificatePath p with
  | Ok path =>
      path = [leafBlock p] \/
      (PCB_CAChain p <> [] /\ path = leafBlock p :: PCB_CAChain p)
  | Err _ => False
  | Panic =>
      PCB_CAChain p <> [] /\
      (PCB_Certificate p = None \/ cert_at (PCB_CAChain p) 0 = None)
  end.
Proof.
  unfold GetCertificatePath, cert_at, leafBlock, index.
  destruct (PCB_CAChain p) as [|first rest] eqn:Hchain; cbn; [auto|].
  destruct first as [firstBlock|]; cbn; [|split; [discriminate|auto]].
  destruct (CertBlock_Certificate firstBlock) as [firstCert|]; cbn;
    [|split; [discriminate|auto]].
  destruct (PCB_Certificate p) as [leaf|]; cbn; [|split; [discriminate|auto]].
  destruct (bool_decide _); [right|left]; [split; [discriminate|]|]; reflexivity.
Qed.

(** ** GetTLSConfig in full *)

Lemma land_bit_1 (u : Z) : (0 <? Z.land u TLSServer)%Z = Z.testbit u 1.
Proof.
  assert (Hland : Z.land u 2 = if Z.testbit u 1 then 2%Z else 0%Z).
  { apply Z.bits_inj'. intros n Hn. rewrite Z.land_spec.
    change 2%Z with (2 ^ 1)%Z at 1. rewrite Z.pow2_bits_eqb by lia.
    destruct (Z.eqb_spec 1 n) as [<-|Hne].
    - rewrite andb_true_r. destruct (Z.testbit u 1); reflexivity.
    - rewrite andb_false_r. destruct (Z.testbit u 1); [|symmetry; apply Z.bits_0].
      change 2%Z with (2 ^ 1)%Z. rewrite Z.pow2_bits_eqb by lia.
      symmetry. apply Z.eqb_neq. exact Hne. }
  change TLSServer with 2%Z. rewrite Hland. destruct (Z.testbit u 1); reflexivity.
Qed.

Lemma land_bit_2 (u : Z) : (0 <? Z.land u TLSClient)%Z = Z.testbit u 2.
Proof.
  assert (Hland : Z.land u 4 = if Z.testbit u 2 then 4%Z else 0%Z).
  { apply Z.bits_inj'. intros n Hn. rewrite Z.land_spec.
    change 4%Z with (2 ^ 2)%Z at 1. rewrite Z.pow2_bits_eqb by lia.
    destruct (Z.eqb_spec 2 n) as [<-|Hne].
    - rewrite andb_true_r. destruct (Z.testbit u 2); reflexivity.
    - rewrite andb_false_r. destruct (Z.testbit u 2); [|symmetry; apply Z.bits_0].
      change 4%Z with (2 ^ 2)%Z. rewrite Z.pow2_bits_eqb by lia.
      symmetry. apply Z.eqb_neq. exact Hne. }
  change TLSClient with 4%Z. rewrite Hland. destruct (Z.testbit u 2); reflexivity.
Qed.

(** X12 (GetTLSConfig, lines 526-579).  Without a CA chain the usage is
    not looked at: no pool is installed, client certificates are not
    asked for, and the configuration carries the leaf as its one
    certificate, or none when the bundle has no certificate bytes. *)
Theorem GetTLSConfig_without_chain h p usage :
  PCB_CAChain p = [] ->
  GetTLSConfig h p usage =
    Ok (tls_config_of None NoClientCert None
          (if nonempty (PCB_CertificateBytes p) then [handshake_certificate p []] else [])).
Proof.
  intros Hchain. unfold GetTLSConfig, handshake_certificate, tls_config_of.
  rewrite Hchain.
  destruct (nonempty (PCB_CertificateBytes p)); destruct (PCB_PrivateKey p);
    destruct (PCB_Certificate p); reflexivity.
Qed.

(** With a chain, in terms of what the pool says of the first entry. *)
Lemma GetTLSConfig_with_chain h p first rest usage :
  PCB_CAChain p = map Some (first :: rest) ->
  serial_readable h p ->
  GetTLSConfig h p usage =
    let (pool, ok) :=
      x509_AppendCertsFromPEM x509_NewCertPool
        (bytes_of_string (encode_trimmed "CERTIFICATE" (CertBlock_Bytes first))) in
    if ok then
      Ok (tls_config_of
            (if Z.testbit usage 1 then Some pool else None)
            (if Z.testbit usage 1 then VerifyClientCertIfGiven else NoClientCert)
            (if Z.testbit usage 2 then Some pool else None)
            [handshake_certificate p (first :: rest)])
    else Err (fmt_Errorf "Could not append CA certificate").
Proof.
  intros Hchain Hread.
  destruct (ToCertBundle_Ok h p (first :: rest) Hchain Hread) as (r & Hr & Hrchain & _).
  unfold GetTLSConfig. rewrite Hchain, Hr.
  rewrite GetTLSConfig_range_Some.
  change (nonempty (map Some (first :: rest))) with true.
  cbn [obind]. unfold index. rewrite Hrchain.
  cbn [map lookup list_lookup deref obind].
  rewrite land_bit_1, land_bit_2.
  destruct (x509_AppendCertsFromPEM _ _) as [pool [|]]; cbn [negb]; [|reflexivity].
  unfold handshake_certificate, tls_config_of.
  destruct (nonempty (PCB_CertificateBytes p)); destruct (PCB_PrivateKey p);
    destruct (PCB_Certificate p); destruct (Z.testbit usage 1); destruct (Z.testbit usage 2);
    reflexivity.
Qed.

(** X13 (GetTLSConfig, lines 526-579).  The whole configuration, for
    any usage value: TLS 1.2 floor, one certificate (leaf bytes then the
    chain's, the bundle's key and leaf), its name index, and the pool of
    the chain's first entry as client CAs when bit 1 of the usage is set
    (then with VerifyClientCertIfGiven) and as root CAs when bit 2 is
    set. *)
Theorem GetTLSConfig_config h p first rest pool usage :
  PCB_CAChain p = map Some (first :: rest) ->
  serial_readable h p ->
  x509_AppendCertsFromPEM x509_NewCertPool
    (bytes_of_string (encode_trimmed "CERTIFICATE" (CertBlock_Bytes first))) = (pool, true) ->
  GetTLSConfig h p usage =
    Ok (tls_config_of
          (if Z.testbit usage 1 then Some pool else None)
          (if Z.testbit usage 1 then VerifyClientCertIfGiven else NoClientCert)
          (if Z.testbit usage 2 then Some pool else None)
          [handshake_certificate p (first :: rest)]).
Proof.
  intros Hchain Hread Hpool.
  rewrite (GetTLSConfig_with_chain h p first rest usage Hchain Hread), Hpool. reflexivity.
Qed.

(** X14 (GetTLSConfig, lines 549-556).  When the pool does not take the
    PEM of the chain's first entry, the call fails with "Could not append
    CA certificate", for every usage. *)
Theorem GetTLSConfig_pool_rejects h p first rest pool usage :
  PCB_CAChain p = map Some (first :: rest) ->
  serial_readable h p ->
  x509_AppendCertsFromPEM x509_NewCertPool
    (bytes_of_string (encode_trimmed "CERTIFICATE" (CertBlock_Bytes first))) = (pool, false) ->
  GetTLSConfig h p usage = Err (fmt_Errorf "Could not append CA certificate").
Proof.
  intros Hchain Hread Hpool.
  rewrite (GetTLSConfig_with_chain h p first rest usage Hchain Hread), Hpool. reflexivity.
Qed.

(** ** ToPEMBundle *)

Lemma append_empty_r (text : string) : text +:+ "" = text.
Proof.
  induction text as [|a text IH]; [reflexivity|].
  change (String a (text +:+ "") = String a text). rewrite IH. reflexivity.
Qed.

Lemma strings_Join_cons text texts :
  strings_Join (text :: texts) "
" = text +:+ on_new_lines texts.
Proof.
  unfold strings_Join. revert text.
  induction texts as [|next texts IH]; intros text.
  - symmetry. apply append_empty_r.
  - change (String.concat "
" (text :: next :: texts))
      with (text +:+ "
" +:+ String.concat "
" (next :: texts)).
    rewrite IH. reflexivity.
Qed.

(** X15 (ToPEMBundle, lines 122-136).  The blob is the private key, the
    certificate and the chain entries, in this order, the empty key or
    certificate left out, one newline between two parts and none at the
    ends; the legacy issuing CA and the serial number are not in it. *)
Theorem ToPEMBundle_layout c :
  ToPEMBundle c =
    match pem_parts c with
    | [] => ""
    | text :: texts => text +:+ on_new_lines texts
    end.
Proof.
  unfold ToPEMBundle, pem_parts.
  assert (Hchain : (if nonempty (CB_CAChain c) then CB_CAChain c else []) = CB_CAChain c).
  { destruct (CB_CAChain c); reflexivity. }
  assert (Hparts : forall l : list string,
            (if nonempty (CB_CAChain c) then l ++ CB_CAChain c else l) = l ++ CB_CAChain c).
  { intros l. destruct (CB_CAChain c); [rewrite app_nil_r|]; reflexivity. }
  rewrite Hparts.
  destruct (nonempty_string (CB_PrivateKey c)); destruct (nonempty_string (CB_Certificate c));
    cbn [app]; try apply strings_Join_cons.
  destruct (CB_CAChain c); [reflexivity|apply strings_Join_cons].
Qed.

(** ** ToCertBundle in every case, and parsing its result again *)

Lemma ToCertBundle_range_Ok_inv chain :
  forall result r,
    ToCertBundle_range chain result = Ok r -> exists blocks, chain = map Some blocks.
Proof.
  induction chain as [|[block|] chain IH]; intros result r; cbn.
  - exists []. reflexivity.
  - intros Hrun. apply IH in Hrun as [blocks ->]. exists (block :: blocks). reflexivity.
  - discriminate.
Qed.

Lemma ToCertBundle_range_Panic chain :
  forall result, ToCertBundle_range chain result = Panic -> None ∈ chain.
Proof.
  induction chain as [|[block|] chain IH]; intros result; cbn.
  - discriminate.
  - intros Hrun. apply IH in Hrun. apply elem_of_cons. auto.
  - intros _. apply elem_of_cons. auto.
Qed.

Lemma big_Int_value_cases (h : heap) (ptr : option loc) :
  (exists v, big_Int_value h ptr = Ok v) \/ big_Int_value h ptr = Panic.
Proof.
  unfold big_Int_value. destruct ptr as [l|]; cbn; [|auto].
  destruct (h !! l); cbn; eauto.
Qed.

Lemma ToCertBundle_Ok_inv h p r :
  ToCertBundle h p = Ok r ->
  serial_readable h p /\ exists blocks, PCB_CAChain p = map Some blocks.
Proof.
  intros Hrun. split.
  - intros cert Hc. destruct (big_Int_value_cases h (Cert_SerialNumber cert)) as [Hv|Hv];
      [exact Hv|].
    unfold ToCertBundle in Hrun. rewrite Hc in Hrun. cbn in Hrun. rewrite Hv in Hrun.
    discriminate.
  - revert Hrun. unfold ToCertBundle.
    destruct (PCB_Certificate p) as [cert|]; cbn.
    + destruct (big_Int_value h _); cbn; try discriminate.
      destruct (ToCertBundle_range _ _) eqn:Hr; cbn; try discriminate.
      intros _. eapply ToCertBundle_range_Ok_inv, Hr.
    + destruct (ToCertBundle_range _ _) eqn:Hr; cbn; try discriminate.
      intros _. eapply ToCertBundle_range_Ok_inv, Hr.
Qed.

Lemma ToCertBundle_IssuingCA h p r : ToCertBundle h p = Ok r -> CB_IssuingCA r = "".
Proof.
  intros Hrun. destruct (ToCertBundle_Ok_inv h p r Hrun) as [_ [blocks Hchain]].
  revert Hrun. unfold ToCertBundle. rewrite Hchain.
  destruct (nonempty (PCB_PrivateKeyBytes p));
    destruct (nonempty (PCB_CertificateBytes p));
    (destruct (PCB_Certificate p) as [cert|]; cbn;
     [destruct (big_Int_value h _); cbn; try discriminate|]);
    rewrite ToCertBundle_range_Some; cbn; intros [= <-]; reflexivity.
Qed.

(** X16 (ToCertBundle, lines 243-284).  [ToCertBundle] in every case: no
    error; a result exactly when the leaf's serial number can be read and
    no chain entry is nil, and then with one chain text per entry and the
    legacy issuing-CA field empty; a fault otherwise. *)
Theorem ToCertBundle_outcome h p :
  match ToCertBundle h p with
  | Ok r =>
      serial_readable h p /\
      (exists blocks, PCB_CAChain p = map Some blocks) /\
      length (CB_CAChain r) = length (PCB_CAChain p) /\
      CB_IssuingCA r = ""
  | Err _ => False
  | Panic => ~ serial_readable h p \/ None ∈ PCB_CAChain p
  end.
Proof.
  destruct (ToCertBundle h p) as [r|e|] eqn:Hrun.
  - destruct (ToCertBundle_Ok_inv h p r Hrun) as [Hread [blocks Hchain]].
    split; [exact Hread|]. split; [eauto|].
    destruct (ToCertBundle_Ok h p blocks Hchain Hread) as (r' & Hr' & Hrchain & _).
    assert (r' = r) as -> by congruence.
    split; [|exact (ToCertBundle_IssuingCA h p r Hrun)].
    rewrite Hrchain, Hchain, !length_map. reflexivity.
  - exact (ToCertBundle_no_error h p e Hrun).
  - revert Hrun. unfold ToCertBundle.
    destruct (PCB_Certificate p) as [cert|] eqn:Hc; cbn.
    + destruct (big_Int_value h _) as [v| |] eqn:Hv; cbn.
      * destruct (ToCertBundle_range _ _) eqn:Hr; cbn; try discriminate.
        intros _. right. eapply ToCertBundle_range_Panic, Hr.
      * discriminate.
      * intros _. left. intros Hread. destruct (Hread cert Hc) as [v Hv']. congruence.
    + destruct (ToCertBundle_range _ _) eqn:Hr; cbn; try discriminate.
      intros _. right. eapply ToCertBundle_range_Panic, Hr.
Qed.

Lemma ToCertBundle_key_text h p r :
  ToCertBundle h p = Ok r ->
  PCB_PrivateKeyBytes p <> [] ->
  CB_PrivateKeyType r = PCB_PrivateKeyType p /\
  CB_PrivateKey r =
    encode_trimmed (key_block_label (PCB_PrivateKeyFormat p) (PCB_PrivateKeyType p))
      (PCB_PrivateKeyBytes p).
Proof.
  intros Hrun Hb. apply nonempty_true in Hb. revert Hrun.
  unfold ToCertBundle, key_block_label. rewrite Hb.
  destruct (nonempty (PCB_CertificateBytes p));
    (destruct (PCB_Certificate p) as [cert|]; cbn;
     [destruct (big_Int_value h _); cbn; try discriminate|]);
    (destruct (ToCertBundle_range _ _) as [r'| |]; cbn; try discriminate);
    intros [= <-]; cbn; (split; [reflexivity|]);
    destruct (decide (PCB_PrivateKeyFormat p = "")) as [Hf|Hf]; try reflexivity;
    destruct (decide (PCB_PrivateKeyType p = ECPrivateKey)); try reflexivity;
    destruct (decide (PCB_PrivateKeyType p = RSAPrivateKey)); try reflexivity;
    rewrite Hf; reflexivity.
Qed.

(** X17 (SetParsedPrivateKey lines 377-381, ToCertBundle lines 265-281).
    A key installed with [SetParsedPrivateKey] is written by
    [ToCertBundle] with the given type, under the block format the bundle
    already had (the setter does not touch it) and under the label of the
    type when it had none; certificate, chain and serial number are what
    they were without the key. *)
Theorem ToCertBundle_after_SetParsedPrivateKey h p signer t der r :
  der <> [] ->
  ToCertBundle h (ParsedCertBundle_SetParsedPrivateKey signer t der p) = Ok r ->
  CB_PrivateKeyType r = t /\
  CB_PrivateKey r = encode_trimmed (key_block_label (PCB_PrivateKeyFormat p) t) der /\
  exists r0,
    ToCertBundle h p = Ok r0 /\
    CB_Certificate r = CB_Certificate r0 /\ CB_CAChain r = CB_CAChain r0 /\
    CB_SerialNumber r = CB_SerialNumber r0.
Proof.
  intros Hder Hrun.
  destruct (ToCertBundle_key_text h _ r Hrun Hder) as [Ht Hk].
  split; [exact Ht|]. split; [exact Hk|].
  revert Hrun. unfold ToCertBundle, ParsedCertBundle_SetParsedPrivateKey.
  destruct p as [kt kf kb key cb cert chain sn]; cbn [PCB_set_PrivateKeyBytes
    PCB_set_PrivateKeyType PCB_set_PrivateKey PCB_Certificate PCB_CertificateBytes
    PCB_CAChain PCB_PrivateKeyBytes PCB_PrivateKeyType PCB_PrivateKeyFormat].
  destruct (nonempty der); destruct (nonempty kb); destruct (nonempty cb);
    (destruct cert as [c|]; cbn;
     [destruct (big_Int_value h _); cbn; try discriminate|]);
    (destruct (ToCertBundle_range _ _) as [r'| |]; cbn; try discriminate);
    intros [= <-]; eexists; (split; [reflexivity|]); cbn; auto.
Qed.

Lemma parsed_blocks_payloads blocks :
  forall blocks',
    Forall (fun b => decodes_back "CERTIFICATE" (CertBlock_Bytes b)) blocks ->
    Forall2 parsed_block
      (map (fun b => encode_trimmed "CERTIFICATE" (CertBlock_Bytes b)) blocks) blocks' ->
    same_payloads (map Some blocks') (map Some blocks).
Proof.
  induction blocks as [|b blocks IH]; intros blocks' Hback Hparsed; cbn in *.
  - apply Forall2_nil_inv_l in Hparsed as ->. constructor.
  - apply Forall2_cons_inv_l in Hparsed as (b' & rest & Hb' & Hrest & ->).
    apply Forall_cons in Hback as [[_ Hb] Hback].
    cbn. constructor; [|apply IH; assumption].
    destruct Hb' as (blk & cert & Hdec & ->).
    apply Hb in Hdec as ->. eauto.
Qed.

(** X18 (ToCertBundle lines 243-284, ToParsedCertBundle lines 140-239).
    Encoding then parsing, when decoding gives the encoder's blocks back:
    the certificate, every chain entry and the key have the payloads of
    the parsed bundle one started from, the key format is the label it
    was written under, and the serial-number field is nil. *)
Theorem ToParsedCertBundle_ToCertBundle h p r h' p' s' :
  ToCertBundle h p = Ok r ->
  ToParsedCertBundle (r, h') = (Ok p', s') ->
  (PCB_CertificateBytes p <> [] -> decodes_back "CERTIFICATE" (PCB_CertificateBytes p)) ->
  (forall block,
     Some block ∈ PCB_CAChain p -> decodes_back "CERTIFICATE" (CertBlock_Bytes block)) ->
  (PCB_PrivateKeyBytes p <> [] ->
   decodes_back (key_block_label (PCB_PrivateKeyFormat p) (PCB_PrivateKeyType p))
     (PCB_PrivateKeyBytes p)) ->
  PCB_CertificateBytes p' = PCB_CertificateBytes p /\
  same_payloads (PCB_CAChain p') (PCB_CAChain p) /\
  PCB_PrivateKeyBytes p' = PCB_PrivateKeyBytes p /\
  (PCB_PrivateKeyBytes p <> [] ->
   PCB_PrivateKeyFormat p' =
     strings_TrimSpace (key_block_label (PCB_PrivateKeyFormat p) (PCB_PrivateKeyType p))) /\
  PCB_SerialNumber p' = None.
Proof.
  intros Hrun Hparse Hcert Hchain Hkey. destruct s' as [r' h''].
  destruct (ToCertBundle_Ok_inv h p r Hrun) as [Hread [blocks Hblocks]].
  pose proof (ToCertBundle_IssuingCA h p r Hrun) as Hissuing.
  destruct (ToCertBundle_Ok h p blocks Hblocks Hread)
    as (r0 & Hr0 & Hrchain & Hrcert & _ & Hnokey & _).
  assert (r0 = r) as -> by congruence.
  destruct (ToParsedCertBundle_Ok _ _ _ _ _ Hparse)
    as (Hk' & Hc' & (blocks' & Hparsed & Hchain') & Hserial').
  assert (Htexts : chain_texts r = CB_CAChain r).
  { unfold chain_texts. rewrite Hissuing.
    destruct (CB_CAChain r); reflexivity. }
  split; [|split; [|split; [|split]]].
  - destruct (decide (PCB_CertificateBytes p = [])) as [He|Hne].
    + rewrite (proj2 (nonempty_false _) He) in Hrcert.
      destruct Hc' as [(_ & -> & _)|(Hne' & _)]; [symmetry; exact He|contradiction].
    + rewrite (proj2 (nonempty_true _) Hne) in Hrcert. destruct (Hcert Hne) as [Htext Hback].
      destruct Hc' as [(He' & _)|(_ & blk & tbs & l & Hdec & _ & -> & _)].
      * rewrite Hrcert in He'. contradiction.
      * rewrite Hrcert in Hdec. apply Hback in Hdec as ->. reflexivity.
  - rewrite Hchain', Hblocks. apply parsed_blocks_payloads.
    + apply Forall_forall. intros b Hb. apply Hchain. rewrite Hblocks.
      apply (list_elem_of_fmap_2 Some). exact Hb.
    + rewrite <- Hrchain, <- Htexts. exact Hparsed.
  - destruct (decide (PCB_PrivateKeyBytes p = [])) as [He|Hne].
    + destruct Hk' as [(_ & ->)|(Hne' & _)]; [symmetry; exact He|].
      exfalso. apply Hne'. apply Hnokey. exact He.
    + destruct (ToCertBundle_key_text h p r Hrun Hne) as [_ Htext].
      destruct (Hkey Hne) as [Hnonempty Hback].
      destruct Hk' as [(He' & _)|(_ & blk & Hdec & _ & -> & _)].
      * rewrite Htext in He'. contradiction.
      * rewrite Htext in Hdec. apply Hback in Hdec as ->. reflexivity.
  - intros Hne. destruct (ToCertBundle_key_text h p r Hrun Hne) as [_ Htext].
    destruct (Hkey Hne) as [Hnonempty Hback].
    destruct Hk' as [(He' & _)|(_ & blk & Hdec & _ & _ & -> & _)].
    + rewrite Htext in He'. contradiction.
    + rewrite Htext in Hdec. apply Hback in Hdec as ->. reflexivity.
  - rewrite Hserial'. rewrite Hissuing.
    destruct (nonempty (CB_CAChain r)); reflexivity.
Qed.

End facts.

(** * The functions on concrete bundles *)

Import TestLib.

(** Discharge a canonical-form obligation on a concrete text. *)
Ltac canon :=
  let blk := fresh "blk" in
  let Hdec := fresh "Hdec" in
  intros blk Hdec; vm_compute in Hdec; try discriminate;
  injection Hdec as <-; vm_compute; try reflexivity; try discriminate.

(** ** The trust path *)

(** C1 as stated fails: the chain starts with the leaf itself, same serial
    number, and has two entries; the path is the leaf alone, so its length
    is 1 and not the length of the chain. *)
Lemma GetCertificatePath_chain_dropped :
  let p := self_first in
  let h := [7%Z; 9%Z] in
  PCB_Certificate p = Some (cert 0 true "R" "R") /\
  PCB_CAChain p <> [] /\
  big_Int_value h (Some 0) = Ok 7%Z /\
  GetCertificatePath p = Ok [leafBlock p] /\
  length [leafBlock p] <> length (PCB_CAChain p).
Proof. cbv zeta. repeat split; try reflexivity; discriminate. Qed.

(** The comparison is one of pointers: a first entry with the same serial
    value in another [big.Int] is appended after the leaf. *)
Lemma GetCertificatePath_equal_serials_distinct_objects :
  let p := same_value in
  let h := [7%Z; 7%Z] in
  big_Int_value h (Some 0) = big_Int_value h (Some 1) /\
  GetCertificatePath p = Ok (leafBlock p :: PCB_CAChain p) /\
  length (leafBlock p :: PCB_CAChain p) = S (length (PCB_CAChain p)).
Proof. cbv zeta. repeat split; reflexivity. Qed.

(** C1, on a leaf and its issuer, serial numbers 3 and 5. *)
Lemma GetCertificatePath_leaf_then_chain_witness :
  GetCertificatePath (leaf_and_ca true "I")
    = Ok (leafBlock (leaf_and_ca true "I") :: PCB_CAChain (leaf_and_ca true "I")).
Proof.
  refine (proj1 (proj2 (GetCertificatePath_leaf_then_chain [3%Z; 5%Z]
           (leaf_and_ca true "I") (cert 0 false "L" "I")
           {| CertBlock_Certificate := Some (cert 1 true "I" "I");
              CertBlock_Bytes := Cert_SubjectKeyId (cert 1 true "I" "I") |}
           (cert 1 true "I" "I") [] eq_refl eq_refl eq_refl) _)).
  vm_compute. discriminate.
Defined.

(** ** Verify *)

(** C2, on a leaf and a one-entry chain: the entry is not a CA; it is a CA
    with another subject key identifier; it is the issuer. *)
Lemma Verify_chain_linkage_witness :
  Verify (leaf_and_ca false "I") = Err (not_a_CA 1) /\
  Verify (leaf_and_ca true "J") =
    Err (bad_trust_path 1 (cert 0 false "L" "I") (cert 1 true "J" "J")) /\
  Verify (leaf_and_ca true "I") = Ok tt.
Proof.
  split; [|split].
  - refine (proj1 (proj1 (proj2 (Verify_chain_linkage (leaf_and_ca false "I")
              [leafBlock (leaf_and_ca false "I"); block (cert 1 false "I" "I")] _ eq_refl))
              0 (cert 0 false "L" "I") (cert 1 false "I" "I") eq_refl eq_refl _) eq_refl).
    + intros key c Hk. discriminate.
    + intros j Hj. lia.
  - refine (proj2 (proj1 (proj2 (Verify_chain_linkage (leaf_and_ca true "J")
              [leafBlock (leaf_and_ca true "J"); block (cert 1 true "J" "J")] _ eq_refl))
              0 (cert 0 false "L" "I") (cert 1 true "J" "J") eq_refl eq_refl _) eq_refl _).
    + intros key c Hk. discriminate.
    + intros j Hj. lia.
    + vm_compute. discriminate.
  - refine (proj2 (proj2 (Verify_chain_linkage (leaf_and_ca true "I")
              [leafBlock (leaf_and_ca true "I"); block (cert 1 true "I" "I")] _ eq_refl)) _).
    + intros key c Hk. discriminate.
    + intros j Hj. assert (j = 0) as -> by (cbn in Hj; lia).
      exists (cert 0 false "L" "I"), (cert 1 true "I" "I").
      repeat split; reflexivity.
Defined.

(** The error texts, spelled out. *)
Lemma Verify_error_texts :
  Verify (leaf_and_ca false "I") =
    Err (errorString "certificate 1 of certificate chain is not a certificate authority") /\
  Verify (leaf_and_ca true "J") =
    Err (errorString
           "certificate 1 of certificate chain ca trust path is incorrect (L/J)").
Proof. split; vm_compute; reflexivity. Qed.

(** ** Round trip *)

(** C3, on a bundle with an EC key, a leaf and a one-entry chain. *)
Lemma ToCertBundle_ToParsedCertBundle_witness :
  exists r,
    ToCertBundle (snd full_after) full_parsed = Ok r /\
    CB_Certificate r = "CERTIFICATE:1NkA" /\
    CB_PrivateKey r = "EC PRIVATE KEY:Ek" /\
    CB_CAChain r = ["CERTIFICATE:2YAA"] /\
    CB_PrivateKeyType r = "ec" /\
    CB_SerialNumber r = "31".
Proof.
  destruct (ToCertBundle_ToParsedCertBundle full [] full_parsed
              (fst full_after) (snd full_after))
    as (r & Hr & Hcert & Hkey & Hchain & Htype & Hserial).
  - vm_compute. reflexivity.
  - split; [canon|]. split; [canon|]. split; [canon|].
    split; [repeat constructor; canon|canon].
  - exists r. split; [exact Hr|].
    split; [exact Hcert|]. split; [exact Hkey|]. split; [exact Hchain|].
    split.
    + apply Htype. discriminate.
    + apply Hserial; [discriminate|reflexivity].
Defined.

(** C3 as stated fails: the bundle has a certificate and the legacy issuing
    CA, and no chain; parsing succeeds, and converting back yields a chain
    of one entry, where the chain of the bundle is empty. *)
Lemma ToCertBundle_ToParsedCertBundle_legacy_chain :
  exists p b' h r,
    ToParsedCertBundle (legacy, []) = (Ok p, (b', h)) /\
    ToCertBundle h p = Ok r /\
    CB_CAChain legacy = [] /\
    CB_CAChain r = ["CERTIFICATE:2YAA"] /\
    map strings_TrimSpace (CB_CAChain r) <> map strings_TrimSpace (CB_CAChain legacy).
Proof.
  eexists _, _, _, _. split; [vm_compute; reflexivity|].
  split; [vm_compute; reflexivity|].
  split; [reflexivity|]. split; [reflexivity|]. discriminate.
Qed.

(** A certificate under another label comes back under CERTIFICATE. *)
Lemma ToCertBundle_ToParsedCertBundle_other_label :
  exists p s r,
    ToParsedCertBundle (bundle "" "X509 CERTIFICATE:1NkA" [] "", []) = (Ok p, s) /\
    ToCertBundle (snd s) p = Ok r /\
    CB_Certificate r = "CERTIFICATE:1NkA".
Proof.
  eexists _, _, _. split; [vm_compute; reflexivity|].
  split; vm_compute; reflexivity.
Qed.

(** A serial number given in the bundle is kept by parsing, and need not be
    the certificate's: the one that comes back is the certificate's. *)
Lemma ToCertBundle_ToParsedCertBundle_other_serial :
  exists p s r,
    ToParsedCertBundle (CB_set_SerialNumber "ff" certificate_only, []) = (Ok p, s) /\
    CB_SerialNumber (fst s) = "ff" /\
    ToCertBundle (snd s) p = Ok r /\
    CB_SerialNumber r = "31".
Proof.
  eexists _, _, _. split; [vm_compute; reflexivity|].
  repeat split; vm_compute; reflexivity.
Qed.

(** ** The TLS configuration *)

(** C4, on the parsed form of the same bundle. *)
Lemma GetTLSConfig_usage_witness :
  let pool := [bytes_of_string "2YAA"] in
  (exists cfg,
     GetTLSConfig (snd full_after) full_parsed TLSServer = Ok cfg /\
     cfg_ClientCAs cfg = Some pool /\
     cfg_ClientAuth cfg = VerifyClientCertIfGiven /\
     cfg_RootCAs cfg = None) /\
  (exists cfg,
     GetTLSConfig (snd full_after) full_parsed TLSClient = Ok cfg /\
     cfg_RootCAs cfg = Some pool /\
     cfg_ClientCAs cfg = None) /\
  (exists cfg,
     GetTLSConfig (snd full_after) full_parsed (Z.lor TLSServer TLSClient) = Ok cfg /\
     cfg_ClientCAs cfg = Some pool /\
     cfg_RootCAs cfg = Some pool /\
     cfg_ClientAuth cfg = VerifyClientCertIfGiven).
Proof.
  refine (GetTLSConfig_usage (snd full_after) full_parsed
            {| CertBlock_Certificate := Some (certificate_at 1
                 {| tbs_SerialNumber := 50; tbs_IsCA := true;
                    tbs_AuthorityKeyId := bytes_of_string "A";
                    tbs_SubjectKeyId := bytes_of_string "A";
                    tbs_CommonName := "A";
                    tbs_PublicKey := bytes_of_string "A" |});
               CertBlock_Bytes := bytes_of_string "2YAA" |}
            [] [bytes_of_string "2YAA"] _ _ _).
  - vm_compute. reflexivity.
  - intros c Hc. vm_compute in Hc. injection Hc as <-. eexists. vm_compute. reflexivity.
  - vm_compute. reflexivity.
Defined.

(** Without a chain no pool is set, and the certificate list has one entry. *)
Lemma GetTLSConfig_no_chain :
  exists p s cfg,
    ToParsedCertBundle (bundle "RSA PRIVATE KEY:Rk" "CERTIFICATE:1Ykk" [] "", []) = (Ok p, s) /\
    Verify p = Ok tt /\
    GetTLSConfig (snd s) p TLSClient = Ok cfg /\
    length (cfg_Certificates cfg) = 1 /\
    cfg_RootCAs cfg = None /\
    cfg_MinVersion cfg = tls_VersionTLS12.
Proof.
  eexists _, _, _. split; [vm_compute; reflexivity|].
  split; [vm_compute; reflexivity|].
  split; [vm_compute; reflexivity|]. repeat split; reflexivity.
Qed.

(** ** PKCS#8 keys *)

(** C5, on an EC key in PKCS#8 wrapping and no tag. *)
Lemma ToParsedCertBundle_pkcs8_witness :
  CB_PrivateKeyType (fst (snd (ToParsedCertBundle (pkcs8_ec, [])))) = ECPrivateKey /\
  forall p s, ToParsedCertBundle (pkcs8_ec, []) = (Ok p, s) ->
              PCB_PrivateKeyType p = ECPrivateKey.
Proof.
  refine (ToParsedCertBundle_pkcs8 pkcs8_ec []
            {| blk_Type := "PRIVATE KEY"; blk_Bytes := bytes_of_string "8Ek" |} _ _ _).
  - discriminate.
  - vm_compute. reflexivity.
  - vm_compute. reflexivity.
Defined.

(** ** The two key handlers compared *)

(** C6 as stated fails: on an EC key in PKCS#8 wrapping, ToParsedCertBundle
    returns the key with type ec, and ToParsedCSRBundle an error. *)
Lemma key_handling_differs_on_pkcs8 :
  let key := "PRIVATE KEY:8Ek" in
  outcome_map cert_key_view (fst (ToParsedCertBundle (key_only_cert "" key, [])))
    = Ok ("ec", bytes_of_string "8Ek", Some (ECDSAKey (bytes_of_string "k"))) /\
  outcome_map csr_key_view (fst (ToParsedCSRBundle (key_only_csr "" key)))
    = Err (UserError "Unknown private key type in bundle: ").
Proof. split; vm_compute; reflexivity. Qed.

(** And the other way round on an EC key under a label that is none of the
    three. *)
Lemma key_handling_differs_on_unknown_label :
  let key := "KEY:Ek" in
  outcome_map cert_key_view (fst (ToParsedCertBundle (key_only_cert "" key, [])))
    = Err (UserError "Unsupported key block type: KEY") /\
  outcome_map csr_key_view (fst (ToParsedCSRBundle (key_only_csr "" key)))
    = Ok ("ec", bytes_of_string "Ek", Some (ECDSAKey (bytes_of_string "k"))).
Proof. split; vm_compute; reflexivity. Qed.

(** C6, on an EC key under the EC label. *)
Lemma key_handling_agrees_on_labelled_keys_witness :
  let key := "EC PRIVATE KEY:Ek" in
  outcome_map cert_key_view (fst (ToParsedCertBundle (key_only_cert "" key, [])))
    = outcome_map csr_key_view (fst (ToParsedCSRBundle (key_only_csr "" key))) /\
  snd (ToParsedCSRBundle (key_only_csr "" key)) = key_only_csr "" key /\
  CB_PrivateKeyType (fst (snd (ToParsedCertBundle (key_only_cert "" key, [])))) = ECPrivateKey.
Proof.
  refine (key_handling_agrees_on_labelled_keys "" "EC PRIVATE KEY:Ek"
            {| blk_Type := "EC PRIVATE KEY"; blk_Bytes := bytes_of_string "Ek" |} [] _ _ _ _).
  - discriminate.
  - vm_compute. reflexivity.
  - left. reflexivity.
  - vm_compute. reflexivity.
Defined.

(** ** Absent fields and the serial-number field *)

(** C8.  A bundle that carries the legacy issuing CA and nothing else: the
    call faults. *)
Theorem ToParsedCertBundle_issuing_CA_only_faults :
  ToParsedCertBundle (issuing_only, []) = (Panic, (issuing_only, [50%Z])).
Proof. vm_compute. reflexivity. Qed.

(** C9.  A bundle that carries a certificate and nothing else: the parsed
    bundle holds the certificate, whose serial number is 49, and its own
    serial-number field is nil. *)
Theorem ToParsedCertBundle_SerialNumber_not_populated :
  exists p s leaf,
    ToParsedCertBundle (certificate_only, []) = (Ok p, s) /\
    PCB_Certificate p = Some leaf /\
    big_Int_value (snd s) (Cert_SerialNumber leaf) = Ok 49%Z /\
    PCB_SerialNumber p = None.
Proof.
  eexists _, _, _. split; [vm_compute; reflexivity|].
  repeat split; vm_compute; reflexivity.
Qed.

(** The same with a chain; with the legacy issuing CA the field is set. *)
Lemma ToParsedCertBundle_SerialNumber_by_path :
  (exists p s, ToParsedCertBundle (full, []) = (Ok p, s) /\ PCB_SerialNumber p = None) /\
  (exists p s, ToParsedCertBundle (legacy, []) = (Ok p, s) /\ PCB_SerialNumber p = Some 0).
Proof. split; eexists _, _; (split; [vm_compute; reflexivity|reflexivity]). Qed.

(** ** Writes to the input bundle *)

(** C10 as stated fails: ToParsedCSRBundle classifies a key under the EC
    label as ec and leaves the tag of its input empty. *)
Lemma ToParsedCSRBundle_labelled_key_not_written_back :
  exists p q,
    ToParsedCSRBundle (key_only_csr "" "EC PRIVATE KEY:Ek") = (Ok p, q) /\
    PCSR_PrivateKeyType p = ECPrivateKey /\
    CSR_PrivateKeyType q = UnknownPrivateKey.
Proof. eexists _, _. split; [vm_compute; reflexivity|]. split; reflexivity. Qed.

(** A valid key followed by a malformed certificate: the call fails and the
    tag of the input is written all the same. *)
Lemma ToParsedCertBundle_tag_written_before_failure :
  ToParsedCertBundle (bad_certificate, []) =
    (Err (UserError "Error decoding certificate from cert bundle"),
     (CB_set_PrivateKeyType ECPrivateKey bad_certificate, [])).
Proof. vm_compute. reflexivity. Qed.

Lemma ToParsedCSRBundle_tag_written_before_failure :
  ToParsedCSRBundle unlabelled_csr =
    (Err (UserError "Error decoding certificate from cert bundle"),
     CSR_set_PrivateKeyType "ec" unlabelled_csr).
Proof. vm_compute. reflexivity. Qed.

(** C10, on an EC key under the EC label, followed by a malformed
    certificate and a malformed request. *)
Lemma key_type_written_back_witness :
  CB_PrivateKeyType (fst (snd (ToParsedCertBundle (bad_certificate, [])))) = ECPrivateKey /\
  snd (ToParsedCSRBundle labelled_csr) = labelled_csr.
Proof.
  destruct (key_type_written_back bad_certificate labelled_csr []
              {| blk_Type := "EC PRIVATE KEY"; blk_Bytes := bytes_of_string "Ek" |})
    as [Hcert Hcsr].
  - discriminate.
  - reflexivity.
  - vm_compute. reflexivity.
  - split; [|exact Hcsr]. apply Hcert. left. split; vm_compute; reflexivity.
Defined.

(** ** The added properties on concrete bundles *)

(** X1 on a bundle whose certificate text is no PEM. *)
Lemma ToParsedCertBundle_errors_are_user_errors_witness :
  exists msg, UserError "Error decoding certificate from cert bundle" = UserError msg.
Proof.
  apply (ToParsedCertBundle_errors_are_user_errors (bad_certificate, [])
           (UserError "Error decoding certificate from cert bundle")
           (snd (ToParsedCertBundle (bad_certificate, [])))).
  vm_compute. reflexivity.
Defined.

(** X2 on a bundle with key, certificate and chain. *)
Lemma ToParsedCertBundle_no_fault_witness :
  fst (ToParsedCertBundle (full, [])) <> Panic.
Proof.
  apply (ToParsedCertBundle_no_fault full []). left. discriminate.
Defined.

(** X4 on the same bundle: an EC key. *)
Lemma ToParsedCertBundle_key_invariant_witness :
  PCB_PrivateKeyBytes full_parsed <> [] /\
  key_agrees (PCB_PrivateKeyType full_parsed) (PCB_PrivateKey full_parsed) /\
  supported_format (PCB_PrivateKeyFormat full_parsed) /\
  CB_PrivateKeyType (fst full_after) = "ec".
Proof.
  assert (Hrun : ToParsedCertBundle (full, []) = (Ok full_parsed, full_after))
    by (vm_compute; reflexivity).
  destruct (ToParsedCertBundle_key_invariant full [] full_parsed full_after Hrun)
    as [(Hnone & _)|(_ & Hbytes & Hagree & Hformat & Htag)].
  - discriminate.
  - split; [exact Hbytes|]. split; [exact Hagree|]. split; [exact Hformat|reflexivity].
Defined.

(** X7 on a request with an EC key. *)
Lemma ToCSRBundle_ToParsedCSRBundle_witness :
  exists r,
    ToCSRBundle request_parsed = Ok r /\
    CSR_PrivateKey r = "EC PRIVATE KEY:Ek".
Proof.
  assert (Hrun : ToParsedCSRBundle request = (Ok request_parsed, request))
    by (vm_compute; reflexivity).
  destruct (ToCSRBundle_ToParsedCSRBundle request request_parsed request Hrun)
    as (r & Hr & _ & Hkey).
  exists r. split; [exact Hr|].
  destruct Hkey as [_ ->]; [discriminate|]. vm_compute. reflexivity.
Defined.

(** X8 on the same request. *)
Lemma ToCSRBundle_round_trip_witness :
  exists r,
    ToCSRBundle request_parsed = Ok r /\
    CSR_CSR r = "CERTIFICATE REQUEST:Qx" /\
    CSR_PrivateKey r = "EC PRIVATE KEY:Ek".
Proof.
  assert (Hrun : ToParsedCSRBundle request = (Ok request_parsed, request))
    by (vm_compute; reflexivity).
  destruct (ToCSRBundle_round_trip request request_parsed request Hrun)
    as (_ & r & Hr & Hcsr & Hkey & _).
  - split; [canon|]. split; [canon|].
    intros blk Hdec. vm_compute in Hdec. injection Hdec as <-.
    split; [left; reflexivity|vm_compute; reflexivity].
  - exists r. split; [exact Hr|]. split; [exact Hcsr|exact Hkey].
Defined.

(** X9 on a leaf and the CA that issued it. *)
Lemma Verify_Ok_sound_witness :
  key_matches (leaf_and_ca true "I") /\
  exists path,
    GetCertificatePath (leaf_and_ca true "I") = Ok path /\
    links_ok_below path (length path - 1).
Proof.
  apply (Verify_Ok_sound (leaf_and_ca true "I")). vm_compute. reflexivity.
Defined.

(** X10 on a leaf with another key. *)
Lemma Verify_key_check_witness :
  Verify mismatched =
    Err (fmt_Errorf "Public key of certificate does not match private key").
Proof.
  refine (proj2 (Verify_key_check mismatched _ (cert 0 false "L" "I") eq_refl eq_refl) _).
  vm_compute. reflexivity.
Defined.

(** X12 on a leaf without a chain, asked for both usages. *)
Lemma GetTLSConfig_without_chain_witness :
  exists cfg,
    GetTLSConfig [3%Z] (parsed (cert 0 false "L" "I") []) (Z.lor TLSServer TLSClient)
      = Ok cfg /\
    cfg_ClientCAs cfg = None /\ cfg_RootCAs cfg = None /\
    cfg_ClientAuth cfg = NoClientCert /\
    length (cfg_Certificates cfg) = 1.
Proof.
  eexists. split.
  - apply (GetTLSConfig_without_chain [3%Z] (parsed (cert 0 false "L" "I") [])
             (Z.lor TLSServer TLSClient)).
    reflexivity.
  - repeat split.
Defined.

(** X13 on the parsed [full], for a server. *)
Lemma GetTLSConfig_config_witness :
  exists cfg,
    GetTLSConfig (snd full_after) full_parsed TLSServer = Ok cfg /\
    cfg_MinVersion cfg = tls_VersionTLS12 /\
    cfg_ClientCAs cfg = Some [bytes_of_string "2YAA"] /\
    cfg_ClientAuth cfg = VerifyClientCertIfGiven /\
    cfg_RootCAs cfg = None /\
    map tlsCert_Certificate (cfg_Certificates cfg)
      = [[bytes_of_string "1NkA"; bytes_of_string "2YAA"]].
Proof.
  eexists. split.
  - refine (GetTLSConfig_config (snd full_after) full_parsed
              {| CertBlock_Certificate := Some (certificate_at 1
                   {| tbs_SerialNumber := 50; tbs_IsCA := true;
                      tbs_AuthorityKeyId := bytes_of_string "A";
                      tbs_SubjectKeyId := bytes_of_string "A";
                      tbs_CommonName := "A";
                      tbs_PublicKey := bytes_of_string "A" |});
                 CertBlock_Bytes := bytes_of_string "2YAA" |}
              [] [bytes_of_string "2YAA"] TLSServer _ _ _).
    + vm_compute. reflexivity.
    + intros c Hc. vm_compute in Hc. injection Hc as <-. eexists. vm_compute. reflexivity.
    + vm_compute. reflexivity.
  - repeat split.
Defined.

(** X14 on a chain entry whose bytes are no certificate. *)
Lemma GetTLSConfig_pool_rejects_witness :
  GetTLSConfig [3%Z; 5%Z] (leaf_and_ca true "I") TLSClient
    = Err (fmt_Errorf "Could not append CA certificate").
Proof.
  refine (GetTLSConfig_pool_rejects [3%Z; 5%Z] (leaf_and_ca true "I")
            {| CertBlock_Certificate := Some (cert 1 true "I" "I");
               CertBlock_Bytes := bytes_of_string "I" |}
            [] [] TLSClient _ _ _).
  - reflexivity.
  - intros c Hc. vm_compute in Hc. injection Hc as <-. eexists. vm_compute. reflexivity.
  - vm_compute. reflexivity.
Defined.

(** X17 on an empty parsed bundle and on the parsed [full]: an RSA key put
    into a bundle that was parsed with an EC key is written under the EC
    label. *)
Lemma ToCertBundle_after_SetParsedPrivateKey_witness :
  (exists r,
     ToCertBundle []
       (ParsedCertBundle_SetParsedPrivateKey None RSAPrivateKey (bytes_of_string "Rk")
          ParsedCertBundle_zero) = Ok r /\
     CB_PrivateKeyType r = "rsa" /\ CB_PrivateKey r = "RSA PRIVATE KEY:Rk") /\
  (exists r,
     ToCertBundle (snd full_after)
       (ParsedCertBundle_SetParsedPrivateKey None RSAPrivateKey (bytes_of_string "Rk")
          full_parsed) = Ok r /\
     CB_PrivateKeyType r = "rsa" /\ CB_PrivateKey r = "EC PRIVATE KEY:Rk").
Proof.
  split.
  - eexists. split; [vm_compute; reflexivity|].
    edestruct (ToCertBundle_after_SetParsedPrivateKey [] ParsedCertBundle_zero None
                 RSAPrivateKey (bytes_of_string "Rk")) as (Ht & Hk & _).
    + vm_compute. discriminate.
    + vm_compute. reflexivity.
    + split; [exact Ht|]. rewrite Hk. vm_compute. reflexivity.
  - eexists. split; [vm_compute; reflexivity|].
    edestruct (ToCertBundle_after_SetParsedPrivateKey (snd full_after) full_parsed None
                 RSAPrivateKey (bytes_of_string "Rk")) as (Ht & Hk & _).
    + vm_compute. discriminate.
    + vm_compute. reflexivity.
    + split; [exact Ht|]. rewrite Hk. vm_compute. reflexivity.
Defined.

(** X18 on the parsed [full]: encoding it and parsing the result gives the
    same payloads. *)
Lemma ToParsedCertBundle_ToCertBundle_witness :
  let p' :=
    match fst (ToParsedCertBundle (full_again, [])) with
    | Ok p' => p'
    | _ => ParsedCertBundle_zero
    end in
  PCB_CertificateBytes p' = bytes_of_string "1NkA" /\
  same_payloads (PCB_CAChain p') (PCB_CAChain full_parsed) /\
  PCB_PrivateKeyBytes p' = bytes_of_string "Ek" /\
  PCB_SerialNumber p' = None.
Proof.
  cbv zeta.
  destruct (ToParsedCertBundle_ToCertBundle (snd full_after) full_parsed full_again []
              (match fst (ToParsedCertBundle (full_again, [])) with
               | Ok p' => p'
               | _ => ParsedCertBundle_zero
               end)
              (snd (ToParsedCertBundle (full_again, []))))
    as (Hcert & Hchain & Hkey & _ & Hserial).
  - vm_compute. reflexivity.
  - vm_compute. reflexivity.
  - intros _. split; [vm_compute; discriminate|].
    intros blk Hdec. vm_compute in Hdec. injection Hdec as <-. reflexivity.
  - intros block Hin. vm_compute in Hin.
    apply list_elem_of_singleton in Hin. injection Hin as ->.
    split; [vm_compute; discriminate|].
    intros blk Hdec. vm_compute in Hdec. injection Hdec as <-. reflexivity.
  - intros _. split; [vm_compute; discriminate|].
    intros blk Hdec. vm_compute in Hdec. injection Hdec as <-. reflexivity.
  - split; [exact Hcert|]. split; [exact Hchain|]. split; [exact Hkey|exact Hserial].
Defined.

(** X19 on the parsed request, with an EC key. *)
Lemma ToCSRBundle_after_SetParsedPrivateKey_witness :
  match
    ToCSRBundle
      (ParsedCSRBundle_SetParsedPrivateKey None ECPrivateKey (bytes_of_string "Ek")
         request_parsed)
  with
  | Ok r =>
      (ECPrivateKey = RSAPrivateKey \/ ECPrivateKey = ECPrivateKey) /\
      CSR_PrivateKeyType r = ECPrivateKey /\
      CSR_PrivateKey r = encode_trimmed (csr_key_label ECPrivateKey) (bytes_of_string "Ek") /\
      CSR_CSR r =
        (if nonempty (PCSR_CSRBytes request_parsed)
         then encode_trimmed "CERTIFICATE REQUEST" (PCSR_CSRBytes request_parsed) else "")
  | Err e =>
      e = InternalError "Could not determine private key type when creating block" /\
      ECPrivateKey <> RSAPrivateKey /\ ECPrivateKey <> ECPrivateKey
  | Panic => False
  end.
Proof.
  apply (ToCSRBundle_after_SetParsedPrivateKey request_parsed None ECPrivateKey
           (bytes_of_string "Ek")).
  vm_compute. discriminate.
Defined.
